(** * FTP accounts daily update: selection logic, config parser and row builder

    A shallow embedding of [src/sftp_connector.py], [src/config.py] and the
    orchestration of [main.py].

    Conventions of the embedding:
    - Python [str] is [string]; the character operations ([lower], [strip],
      [splitlines], the regular expressions) are exact on ASCII text, and
      characters above 127 are left untouched by [lower].
    - [st_mtime] is an integer number of seconds since the epoch (the SFTP
      wire format is an unsigned 32-bit count).
    - a naive local [datetime] is the count of local seconds since
      1970-01-01T00:00:00, a [date] is the count of days since 1970-01-01;
      the civil fields are recovered from the count when formatting.
    - an exception is a value of [exn]; code that can raise returns
      [result]. *)

From Stdlib Require Import ZArith List String Ascii Bool Lia.
Import ListNotations.
Open Scope string_scope.
Open Scope Z_scope.

(** ** Exceptions *)

Inductive exn : Type :=
  | RuntimeError (msg : string)
  | FileNotFoundError (msg : string)
  | KeyError (key : string)
  | ValueError (msg : string)
  | OverflowError (msg : string)
  | OtherException (msg : string).

(** [str(exc)] as interpolated by the f-strings of the source. *)
Definition exn_str (e : exn) : string :=
  match e with
  | RuntimeError m | FileNotFoundError m | ValueError m
  | OverflowError m | OtherException m => m
  | KeyError k => "'" ++ k ++ "'"
  end.

Inductive result (A : Type) : Type :=
  | Ok (a : A)
  | Raise (e : exn).
Arguments Ok {A} a.
Arguments Raise {A} e.

Definition bind {A B} (m : result A) (k : A -> result B) : result B :=
  match m with
  | Ok a => k a
  | Raise e => Raise e
  end.

Notation "x <- m ;; k" := (bind m (fun x => k))
  (at level 61, m at next level, right associativity).

(** ** Python string methods *)

Module Str.

Definition is_upper (c : ascii) : bool :=
  let n := nat_of_ascii c in (Nat.leb 65 n && Nat.leb n 90)%bool.

Definition is_lower (c : ascii) : bool :=
  let n := nat_of_ascii c in (Nat.leb 97 n && Nat.leb n 122)%bool.

Definition is_digit (c : ascii) : bool :=
  let n := nat_of_ascii c in (Nat.leb 48 n && Nat.leb n 57)%bool.

Definition lower_char (c : ascii) : ascii :=
  if is_upper c then ascii_of_nat (nat_of_ascii c + 32) else c.

Definition upper_char (c : ascii) : ascii :=
  if is_lower c then ascii_of_nat (nat_of_ascii c - 32) else c.

(** [s.lower()] *)
Fixpoint lower (s : string) : string :=
  match s with
  | EmptyString => EmptyString
  | String c r => String (lower_char c) (lower r)
  end.

(** [s.startswith(p)] *)
Definition startswith (s p : string) : bool := String.prefix p s.

(** [c in s] for a single character. *)
Fixpoint has_char (c : ascii) (s : string) : bool :=
  match s with
  | EmptyString => false
  | String d r => (Ascii.eqb c d || has_char c r)%bool
  end.

(** [p in s] for strings. *)
Fixpoint contains (s p : string) : bool :=
  (String.prefix p s ||
   match s with
   | EmptyString => false
   | String _ r => contains r p
   end)%bool.

(** Truthiness of a string: non-empty. *)
Definition nonempty (s : string) : bool :=
  match s with EmptyString => false | _ => true end.

(** [str.isspace] on ASCII: TAB LF VT FF CR, FS GS RS US and the space. *)
Definition is_space (c : ascii) : bool :=
  let n := nat_of_ascii c in
  ((Nat.leb 9 n && Nat.leb n 13) || (Nat.leb 28 n && Nat.leb n 32))%bool.

Fixpoint lstrip_by (p : ascii -> bool) (s : string) : string :=
  match s with
  | EmptyString => EmptyString
  | String c r => if p c then lstrip_by p r else s
  end.

(** Strip from the right: a character is dropped when everything after it
    has been dropped too. *)
Fixpoint rstrip_by (p : ascii -> bool) (s : string) : string :=
  match s with
  | EmptyString => EmptyString
  | String c r =>
      match rstrip_by p r with
      | EmptyString => if p c then EmptyString else String c EmptyString
      | r' => String c r'
      end
  end.

Definition strip_by (p : ascii -> bool) (s : string) : string :=
  rstrip_by p (lstrip_by p s).

(** [s.strip()] *)
Definition strip (s : string) : string := strip_by is_space s.

(** [s.strip(chars)], [s.rstrip(chars)] *)
Definition strip_chars (chars s : string) : string :=
  strip_by (fun c => has_char c chars) s.
Definition rstrip_chars (chars s : string) : string :=
  rstrip_by (fun c => has_char c chars) s.

(** [s.split(sep, 1)] for a one-character separator: the text before the
    first separator and, when there is one, the text after it. *)
Fixpoint split1 (sep : ascii) (s : string) : string * option string :=
  match s with
  | EmptyString => (EmptyString, None)
  | String c r =>
      if Ascii.eqb c sep then (EmptyString, Some r)
      else let '(a, b) := split1 sep r in (String c a, b)
  end.

(** [s.replace(a, b)] for single characters. *)
Fixpoint replace_char (a b : ascii) (s : string) : string :=
  match s with
  | EmptyString => EmptyString
  | String c r => String (if Ascii.eqb c a then b else c) (replace_char a b r)
  end.

(** Line boundaries of [str.splitlines] on ASCII: LF VT FF CR FS GS RS. *)
Definition is_linebreak (c : ascii) : bool :=
  let n := nat_of_ascii c in
  ((Nat.leb 10 n && Nat.leb n 13) || (Nat.leb 28 n && Nat.leb n 30))%bool.

(** Cut at every character satisfying [p]; the pieces between two cuts
    are kept, empty or not. *)
Fixpoint split_by (p : ascii -> bool) (s : string) : list string :=
  match s with
  | EmptyString => [EmptyString]
  | String c r =>
      if p c then EmptyString :: split_by p r
      else match split_by p r with
           | [] => [String c EmptyString]
           | h :: t => String c h :: t
           end
  end.

(** Decimal digits of a natural number, most significant first. *)
Fixpoint digits_fuel (fuel : nat) (n : Z) (acc : string) : string :=
  match fuel with
  | O => acc
  | S k =>
      let acc' := String (ascii_of_nat (48 + Z.to_nat (n mod 10))) acc in
      if n <? 10 then acc' else digits_fuel k (n / 10) acc'
  end.

(** [str(n)] for [0 <= n]. *)
Definition of_Z (n : Z) : string :=
  digits_fuel (S (Z.to_nat (Z.log2 n))) n EmptyString.

Fixpoint zeros (n : nat) : string :=
  match n with O => EmptyString | S k => String "0" (zeros k) end.

(** [s.zfill(w)] *)
Definition zfill (w : nat) (s : string) : string :=
  zeros (w - String.length s) ++ s.

(** [int(s)] for a string of decimal digits. *)
Fixpoint to_Z_acc (acc : Z) (s : string) : Z :=
  match s with
  | EmptyString => acc
  | String c r => to_Z_acc (10 * acc + Z.of_nat (nat_of_ascii c - 48)) r
  end.
Definition to_Z (s : string) : Z := to_Z_acc 0 s.

End Str.

(** ** Calendar dates and naive local datetimes *)

Module Datetime.

(** A [datetime.date], as the number of days since 1970-01-01. *)
Definition date := Z.

(** A naive [datetime.datetime], as the number of seconds since
    1970-01-01T00:00:00 on the local clock. *)
Definition datetime := Z.

(** Year, month and day of a day count (proleptic Gregorian calendar). *)
Definition civil_from_days (days : Z) : Z * Z * Z :=
  let z := days + 719468 in
  let era := z / 146097 in
  let doe := z - era * 146097 in
  let yoe := (doe - doe / 1460 + doe / 36524 - doe / 146096) / 365 in
  let doy := doe - (365 * yoe + yoe / 4 - yoe / 100) in
  let mp := (5 * doy + 2) / 153 in
  let d := doy - (153 * mp + 2) / 5 + 1 in
  let m := if mp <? 10 then mp + 3 else mp - 9 in
  let y := yoe + era * 400 in
  (if m <=? 2 then y + 1 else y, m, d).

(** The day count of a civil date. *)
Definition days_from_civil (y m d : Z) : Z :=
  let y' := if m <=? 2 then y - 1 else y in
  let era := y' / 400 in
  let yoe := y' - era * 400 in
  let doy := (153 * (if 2 <? m then m - 3 else m + 9) + 2) / 5 + d - 1 in
  let doe := yoe * 365 + yoe / 4 - yoe / 100 + doy in
  era * 146097 + doe - 719468.

(** [date.max] is 9999-12-31 and [date.min] is 0001-01-01. *)
Definition date_max : date := 2932896.
Definition date_min : date := -719162.

Section LocalClock.

(** The offset of local time from UTC, in seconds, at each instant. *)
Variable utcoffset : Z -> Z.

(** [datetime.datetime.fromtimestamp(t)] *)
Definition fromtimestamp (t : Z) : datetime := t + utcoffset t.

End LocalClock.

(** [dt.date()] *)
Definition date_of (dt : datetime) : date := dt / 86400.

Definition pad2 (n : Z) : string := Str.zfill 2 (Str.of_Z n).
Definition pad4 (n : Z) : string := Str.zfill 4 (Str.of_Z n).

(** [dt.strftime('%m/%d/%Y %H:%M:%S')] *)
Definition strftime_mdY_HMS (dt : datetime) : string :=
  let '(y, m, d) := civil_from_days (date_of dt) in
  let sod := dt mod 86400 in
  pad2 m ++ "/" ++ pad2 d ++ "/" ++ pad4 y ++ " " ++
  pad2 (sod / 3600) ++ ":" ++ pad2 (sod mod 3600 / 60) ++ ":" ++ pad2 (sod mod 60).

(** [d.strftime('%m-%d-%Y')] *)
Definition strftime_mdY_dashed (d0 : date) : string :=
  let '(y, m, d) := civil_from_days d0 in
  pad2 m ++ "-" ++ pad2 d ++ "-" ++ pad4 y.

End Datetime.

(** ** Python containers *)

Module Py.

(** [max(l, key=key)] keeps the first element whose key is maximal: the
    running best is replaced only by a strictly greater key. *)
Fixpoint max_from {A} (key : A -> Z) (best : A) (l : list A) : A :=
  match l with
  | [] => best
  | x :: r => max_from key (if key best <? key x then x else best) r
  end.

Definition max_by {A} (key : A -> Z) (l : list A) : result A :=
  match l with
  | [] => Raise (ValueError "max() arg is an empty sequence")
  | x :: r => Ok (max_from key x r)
  end.

(** A [dict] with string keys, in insertion order. *)
Definition dict (V : Type) := list (string * V).

Fixpoint dict_get {V} (d : dict V) (k : string) : option V :=
  match d with
  | [] => None
  | (k', v) :: r => if String.eqb k' k then Some v else dict_get r k
  end.

(** [d[k] = v]: an existing key keeps its position. *)
Fixpoint dict_set {V} (d : dict V) (k : string) (v : V) : dict V :=
  match d with
  | [] => [(k, v)]
  | (k', v') :: r =>
      if String.eqb k' k then (k', v) :: r else (k', v') :: dict_set r k v
  end.

Definition keys {V} (d : dict V) : list string := map fst d.

(** Truthiness of an optional string: set and non-empty. *)
Definition truthy (o : option string) : bool :=
  match o with Some s => Str.nonempty s | None => false end.

Definition is_nil {A} (l : list A) : bool :=
  match l with [] => true | _ => false end.

End Py.

(** ** src/sftp_connector.py *)

Module Sftp.

(** A directory entry as returned by [listdir_attr]. [st_mode = None]
    stands for an entry without the attribute ([hasattr] is false). An
    entry that has the attribute with no value in it (a server that sends
    no permissions) makes [S_ISREG] raise a [TypeError] in the source and
    is outside this model: what is stated about when a selection raises
    is stated for sessions whose entries all carry a mode. *)
Record SFTPAttributes := mkAttr {
  filename : string;
  st_mode : option Z;
  st_mtime : Z
}.

(** [stat.S_ISREG], [stat.S_ISDIR]: the file-type bits are 0o170000. *)
Definition S_IFMT (mode : Z) : Z := Z.land mode 61440.
Definition S_ISREG (mode : Z) : bool := S_IFMT mode =? 32768.
Definition S_ISDIR (mode : Z) : bool := S_IFMT mode =? 16384.

Definition S_IFREG : Z := 32768.
Definition S_IFDIR : Z := 16384.

(** What the server answers to a listing request. *)
Inductive listing : Type :=
  | Listed (entries : list SFTPAttributes)
  | NoSuchFile
  | ListingFailed (msg : string).

Record SFTPClient := mkSftp {
  listdir_attr : string -> listing;
  sftp_closed : bool
}.

Record SSHClient := mkSsh { ssh_closed : bool }.

Record SFTPConnector := mkConnector {
  host : string;
  port : Z;
  username : string;
  password : string;
  client : option SSHClient;
  sftp : option SFTPClient
}.

(** The servers of a run: what [SSHClient.connect] followed by
    [open_sftp] gives for a host, port, user and password. *)
Definition Network := string -> Z -> string -> string -> result (string -> listing).

(** [SFTPConnector(host, port, username, password)] *)
Definition new (h : string) (p : Z) (u pw : string) : SFTPConnector :=
  mkConnector h p u pw None None.

(** [connect]: the client is stored before the connection attempt. *)
Definition connect (net : Network) (self : SFTPConnector)
  : SFTPConnector * result unit :=
  let self1 := mkConnector (host self) (port self) (username self)
                 (password self) (Some (mkSsh false)) (sftp self) in
  match net (host self) (port self) (username self) (password self) with
  | Raise e => (self1, Raise e)
  | Ok ls =>
      (mkConnector (host self) (port self) (username self) (password self)
         (Some (mkSsh false)) (Some (mkSftp ls false)), Ok tt)
  end.

(** [disconnect]: closes whichever of the two handles is set. *)
Definition disconnect (self : SFTPConnector) : SFTPConnector :=
  mkConnector (host self) (port self) (username self) (password self)
    (match client self with Some _ => Some (mkSsh true) | None => None end)
    (match sftp self with
     | Some s => Some (mkSftp (listdir_attr s) true)
     | None => None
     end).

(** [list_files_in_folder]: a missing path is an empty listing, any other
    failure (a closed session included) is a [RuntimeError]. *)
Definition list_files_in_folder (self : SFTPConnector) (remote_folder : string)
  : result (list SFTPAttributes) :=
  match sftp self with
  | None =>
      Raise (RuntimeError
        "SFTP session has not been established. Call connect() first.")
  | Some s =>
      if sftp_closed s then
        Raise (RuntimeError
          ("Error listing files in " ++ remote_folder ++ ": Socket is closed"))
      else
        match listdir_attr s remote_folder with
        | Listed l => Ok l
        | NoSuchFile => Ok []
        | ListingFailed m =>
            Raise (RuntimeError
              ("Error listing files in " ++ remote_folder ++ ": " ++ m))
        end
  end.

(** [hasattr(e, "st_mode") and S_ISREG(e.st_mode)] *)
Definition is_reg (e : SFTPAttributes) : bool :=
  match st_mode e with Some m => S_ISREG m | None => false end.

Definition is_dir (e : SFTPAttributes) : bool :=
  match st_mode e with Some m => S_ISDIR m | None => false end.

(** [[s.lower() for s in (name_filters or []) if s]] *)
Definition lowered_filters (name_filters : option (list string)) : list string :=
  map Str.lower
    (filter Str.nonempty (match name_filters with Some l => l | None => [] end)).

(** [any(e.filename.lower().startswith(s) for s in lowered)] *)
Definition name_matches (lowered : list string) (e : SFTPAttributes) : bool :=
  existsb (fun s => Str.startswith (Str.lower (filename e)) s) lowered.

(** The regular files of one matched sub-directory; a listing failure
    there is swallowed ([except Exception: continue]). *)
Definition subfolder_files (self : SFTPConnector) (remote_folder : string)
    (d : SFTPAttributes) : list SFTPAttributes :=
  let subpath := Str.rstrip_chars "/" remote_folder ++ "/" ++ filename d in
  match list_files_in_folder self subpath with
  | Ok subentries => filter is_reg subentries
  | Raise _ => []
  end.

Definition _collect_candidate_files (self : SFTPConnector)
    (remote_folder : string) (name_filters : option (list string))
  : result (list SFTPAttributes) :=
  entries <- list_files_in_folder self remote_folder ;;
  let files := filter is_reg entries in
  let lowered := lowered_filters name_filters in
  let files :=
    if (negb (Py.is_nil lowered) && negb (Py.is_nil files))%bool
    then filter (name_matches lowered) files
    else files in
  if negb (Py.is_nil files) then Ok files
  else if negb (Py.is_nil lowered) then
    let dirs := filter is_dir entries in
    let matched_dirs := filter (name_matches lowered) dirs in
    let collected := flat_map (subfolder_files self remote_folder) matched_dirs in
    if negb (Py.is_nil collected) then Ok collected else Ok []
  else Ok [].

Section Selection.

Variable utcoffset : Z -> Z.

(** [datetime.datetime.fromtimestamp(attr.st_mtime).date()] *)
Definition to_local_date (attr : SFTPAttributes) : Datetime.date :=
  Datetime.date_of (Datetime.fromtimestamp utcoffset (st_mtime attr)).

(** The tail shared by the selection functions: the first latest file of
    a non-empty list, with its formatted local time. *)
Definition latest_of (files : list SFTPAttributes)
  : result (option string * option string) :=
  latest_file <- Py.max_by st_mtime files ;;
  let ts := Datetime.fromtimestamp utcoffset (st_mtime latest_file) in
  let latest_dt := Datetime.strftime_mdY_HMS ts in
  Ok (Some (filename latest_file), Some latest_dt).

Definition get_latest_file_info (self : SFTPConnector) (remote_folder : string)
    (name_filters : option (list string))
  : result (option string * option string) :=
  files <- _collect_candidate_files self remote_folder name_filters ;;
  if Py.is_nil files then Ok (None, None)
  else latest_of files.

Definition get_latest_file_info_before_date (self : SFTPConnector)
    (remote_folder : string) (before_date : Datetime.date)
    (name_filters : option (list string))
  : result (option string * option string) :=
  files <- _collect_candidate_files self remote_folder name_filters ;;
  if Py.is_nil files then Ok (None, None)
  else
    let eligible := filter (fun f => to_local_date f <? before_date) files in
    if Py.is_nil eligible then Ok (None, None)
    else latest_of eligible.

Definition get_latest_file_info_on_date (self : SFTPConnector)
    (remote_folder : string) (on_date : Datetime.date)
    (name_filters : option (list string))
  : result (option string * option string) :=
  files <- _collect_candidate_files self remote_folder name_filters ;;
  if Py.is_nil files then Ok (None, None)
  else
    let eligible := filter (fun f => to_local_date f =? on_date) files in
    if Py.is_nil eligible then Ok (None, None)
    else latest_of eligible.

(** The body of the loop of [get_latest_files_per_prefix] for one
    lower-cased prefix [p]; a [date] is always truthy, so [if today]
    tests that [on_date] was given. *)
Definition per_prefix_step (self : SFTPConnector) (remote_folder : string)
    (on_date : option Datetime.date)
    (acc : Py.dict (option string * option string)) (p : string)
  : result (Py.dict (option string * option string)) :=
  files <- _collect_candidate_files self remote_folder (Some [p]) ;;
  if Py.is_nil files then Ok (Py.dict_set acc p (None, None))
  else
    match on_date with
    | Some today =>
        let files := filter (fun f => to_local_date f =? today) files in
        if Py.is_nil files then Ok (Py.dict_set acc p (None, None))
        else r <- latest_of files ;; Ok (Py.dict_set acc p r)
    | None => r <- latest_of files ;; Ok (Py.dict_set acc p r)
    end.

Fixpoint per_prefix_loop (self : SFTPConnector) (remote_folder : string)
    (on_date : option Datetime.date) (ps : list string)
    (acc : Py.dict (option string * option string))
  : result (Py.dict (option string * option string)) :=
  match ps with
  | [] => Ok acc
  | p :: r =>
      acc' <- per_prefix_step self remote_folder on_date acc p ;;
      per_prefix_loop self remote_folder on_date r acc'
  end.

Definition get_latest_files_per_prefix (self : SFTPConnector)
    (remote_folder : string) (prefixes : list string)
    (on_date : option Datetime.date)
  : result (Py.dict (option string * option string)) :=
  let lowered := map Str.lower (filter Str.nonempty prefixes) in
  per_prefix_loop self remote_folder on_date lowered [].

End Selection.

End Sftp.

(** ** src/config.py *)

Module Config.

Definition quote1 : ascii := "'"%char.
Definition quote2 : ascii := ascii_of_nat 34.
Definition is_quote (c : ascii) : bool := (Ascii.eqb c quote1 || Ascii.eqb c quote2)%bool.
Definition LF : ascii := ascii_of_nat 10.

(** A folder of an account. The implicit root folder is the only one
    built without a ["filters"] key. *)
Record Folder := mkFolder {
  label : string;
  path : string;
  filters : option (list string)
}.

(** An account dictionary: ["name"] and ["folders"] are always set, the
    other keys only once a line of the block has set them. *)
Record Account := mkAccount {
  name : string;
  folders : list Folder;
  host : option string;
  port : option Z;
  username : option string;
  password : option string
}.

(** The search of [_clean_value] for a quote character, a lazy run of
    any characters and the same quote again: the first quote character that is
    closed later by the same character, with the text up to the nearest
    closing one ([.] does not cross a line feed). *)
Fixpoint first_quoted (s : string) : option string :=
  match s with
  | EmptyString => None
  | String c r =>
      if is_quote c then
        match Str.split1 c r with
        | (content, Some _) =>
            if Str.has_char LF content then first_quoted r else Some content
        | (_, None) => first_quoted r
        end
      else first_quoted r
  end.

Definition starts_with_char (q : ascii) (s : string) : bool :=
  match s with String c _ => Ascii.eqb c q | EmptyString => false end.

Fixpoint ends_with_char (q : ascii) (s : string) : bool :=
  match s with
  | EmptyString => false
  | String c EmptyString => Ascii.eqb c q
  | String _ r => ends_with_char q r
  end.

(** The defensive removal of surrounding quotes: [value[1:-1]] when the
    value starts and ends with the same quote character. *)
Definition strip_surrounding_quotes (value : string) : string :=
  if ((starts_with_char quote2 value && ends_with_char quote2 value)
      || (starts_with_char quote1 value && ends_with_char quote1 value))%bool
  then
    match value with
    | EmptyString => EmptyString
    | String _ r =>
        string_of_list_ascii (removelast (list_ascii_of_string r))
    end
  else value.

Definition _clean_value (raw_value : string) : string :=
  let rv := Str.strip raw_value in
  match first_quoted rv with
  | Some content => Str.strip content
  | None =>
      let value := Str.strip (fst (Str.split1 "#" rv)) in
      Str.strip (strip_surrounding_quotes value)
  end.

Fixpoint filter_chars (p : ascii -> bool) (s : string) : string :=
  match s with
  | EmptyString => EmptyString
  | String c r => if p c then String c (filter_chars p r) else filter_chars p r
  end.

(** The lower-cased key with everything but the letters a to z removed. *)
Definition _normalise_key (raw_key : string) : string :=
  filter_chars Str.is_lower (Str.lower raw_key).

Fixpoint skip (n : nat) (s : string) : string :=
  match n, s with
  | O, _ => s
  | S k, EmptyString => EmptyString
  | S k, String _ r => skip k r
  end.

(** The escaped pattern [pat], compiled with [re.IGNORECASE], substituted
    by the empty string in [s]: every
    occurrence of [pat], compared without case, is removed from left to
    right. The fuel is the length of [s]. *)
Fixpoint remove_ci (fuel : nat) (pat s : string) : string :=
  match fuel with
  | O => s
  | S k =>
      match s with
      | EmptyString => EmptyString
      | String c r =>
          if (Str.nonempty pat && Str.startswith (Str.lower s) (Str.lower pat))%bool
          then remove_ci k pat (skip (String.length pat) s)
          else String c (remove_ci k pat r)
      end
  end.

Definition capitalize_first (s : string) : string :=
  match s with
  | EmptyString => EmptyString
  | String c r => String (Str.upper_char c) r
  end.

Definition _derive_folder_label (account_name raw_key : string) : string :=
  let label := Str.strip raw_key in
  if negb (Str.nonempty label) then "Folder"
  else
    let label :=
      Str.strip_chars " _-:" (remove_ci (String.length label) account_name label) in
    let label := if negb (Str.nonempty label) then Str.strip raw_key else label in
    let label := Str.replace_char "-" " " (Str.replace_char "_" " " label) in
    let label := capitalize_first label in
    if Str.nonempty label then label else "Folder".

(** The [re.findall] of [_parse_folder_value] for single-quoted or
    double-quoted text, each match reduced to its captured text: a quote character opens a segment when the same
    character closes it later; the scan resumes after the closing quote.
    The fuel is the length of [value]. *)
Fixpoint findall_quoted (fuel : nat) (value : string) : list string :=
  match fuel with
  | O => []
  | S k =>
      match value with
      | EmptyString => []
      | String c r =>
          if is_quote c then
            match Str.split1 c r with
            | (content, Some rest) => content :: findall_quoted k rest
            | (_, None) => findall_quoted k r
            end
          else findall_quoted k r
      end
  end.

(** The non-empty quoted segments of a value, in order. *)
Definition quoted_segments (value : string) : list string :=
  filter Str.nonempty (findall_quoted (String.length value) value).

(** [seg.startswith("/") or "/" in seg] *)
Definition looks_like_path (seg : string) : bool :=
  (Str.startswith seg "/" || Str.has_char "/" seg)%bool.

Definition or_root (p : string) : string :=
  if Str.nonempty p then p else "/".

Definition _parse_folder_value (raw : string) : string * list string :=
  let value := Str.strip raw in
  let segments := quoted_segments value in
  let path :=
    match find looks_like_path segments with
    | Some seg => seg
    | None => if Str.nonempty value then value else "/"
    end in
  let filters :=
    filter (fun seg => (negb (String.eqb seg path) && Str.nonempty seg)%bool)
      segments in
  (or_root path, filters).

(** The loop over [extra_filters] of a continuation line. [existing] is
    the set of lower-cased filters seen so far; a filter already in it is
    skipped, any other is appended ([setdefault("filters", []).append]). *)
Fixpoint extend_filters (fs : option (list string)) (existing : list string)
    (extra : list string) : option (list string) :=
  match extra with
  | [] => fs
  | f :: r =>
      if existsb (String.eqb (Str.lower f)) existing
      then extend_filters fs existing r
      else
        extend_filters
          (Some ((match fs with Some l => l | None => [] end) ++ [f])%list)
          (Str.lower f :: existing) r
  end.

Definition add_filters (fd : Folder) (extra_filters : list string) : Folder :=
  let existing :=
    map Str.lower (match filters fd with Some l => l | None => [] end) in
  mkFolder (label fd) (path fd) (extend_filters (filters fd) existing extra_filters).

(** [l[i] = v] where [i] is in range. *)
Fixpoint list_set {A} (l : list A) (i : nat) (v : A) : list A :=
  match l, i with
  | [], _ => []
  | _ :: r, O => v :: r
  | x :: r, S k => x :: list_set r k v
  end.

(** The state of the loop over the lines of a block. [last_folder] is an
    alias of an element of [account["folders"]]: it is kept as the index
    of that element. *)
Record BlockState := mkState {
  account : Account;
  last_folder : option nat
}.

Definition set_folders (a : Account) (fs : list Folder) : Account :=
  mkAccount (name a) fs (host a) (port a) (username a) (password a).
Definition set_host (a : Account) (h : string) : Account :=
  mkAccount (name a) (folders a) (Some h) (port a) (username a) (password a).
Definition set_port (a : Account) (p : Z) : Account :=
  mkAccount (name a) (folders a) (host a) (Some p) (username a) (password a).
Definition set_username (a : Account) (u : string) : Account :=
  mkAccount (name a) (folders a) (host a) (port a) (Some u) (password a).
Definition set_password (a : Account) (p : string) : Account :=
  mkAccount (name a) (folders a) (host a) (port a) (username a) (Some p).

(** [account["folders"].append(fd)] with [last_folder = fd]. *)
Definition append_folder (st : BlockState) (fd : Folder) : BlockState :=
  let a := account st in
  mkState (set_folders a (folders a ++ [fd])%list)
          (Some (List.length (folders a))).

Definition is_host_char (c : ascii) : bool :=
  (Str.is_upper c || Str.is_lower c || Str.is_digit c
   || Ascii.eqb c "."%char || Ascii.eqb c "-"%char)%bool.

Fixpoint take_while (p : ascii -> bool) (s : string) : string :=
  match s with
  | EmptyString => EmptyString
  | String c r => if p c then String c (take_while p r) else EmptyString
  end.

Fixpoint take_while_upto (n : nat) (p : ascii -> bool) (s : string) : string :=
  match n, s with
  | S k, String c r => if p c then String c (take_while_upto k p r) else EmptyString
  | _, _ => EmptyString
  end.

(** [re.search(r"([a-zA-Z0-9.-]+)", value)] *)
Definition search_host (value : string) : option string :=
  match take_while is_host_char (Str.lstrip_by (fun c => negb (is_host_char c)) value) with
  | EmptyString => None
  | h => Some h
  end.

(** [re.search(r"(\d{2,5})", value)]: the first place where two digits
    follow each other, and up to five digits from there. *)
Fixpoint search_port (value : string) : option string :=
  match value with
  | EmptyString => None
  | String c r =>
      if (Str.is_digit c
          && match r with String d _ => Str.is_digit d | EmptyString => false end)%bool
      then Some (take_while_upto 5 Str.is_digit value)
      else search_port r
  end.

(** [re.findall(r"\d+", value)[0]] when there is a digit. *)
Definition first_digits (value : string) : option string :=
  match take_while Str.is_digit (Str.lstrip_by (fun c => negb (Str.is_digit c)) value) with
  | EmptyString => None
  | d => Some d
  end.

Definition key_in (k : string) (ks : list string) : bool :=
  existsb (String.eqb k) ks.

(** One iteration of the loop over [lines[1:]]. *)
Definition process_line (st : BlockState) (line : string) : BlockState :=
  if Str.startswith line "--" then st
  else if negb (Str.has_char ":" line) then
    match last_folder st with
    | Some i =>
        match nth_error (folders (account st)) i with
        | Some fd =>
            let '(_p, extra_filters) := _parse_folder_value line in
            if negb (Py.is_nil extra_filters) then
              mkState
                (set_folders (account st)
                   (list_set (folders (account st)) i (add_filters fd extra_filters)))
                (last_folder st)
            else st
        | None => st
        end
    | None => st
    end
  else
    let '(raw_key, rest) := Str.split1 ":" line in
    let raw_value := match rest with Some v => v | None => EmptyString end in
    let value := _clean_value raw_value in
    let key_norm := _normalise_key raw_key in
    let a := account st in
    if key_in key_norm ["host"; "hosturl"; "ftpurl"; "url"] then
      let a1 := match search_host value with
                | Some h => set_host a h
                | None => a
                end in
      let a2 := match search_port value with
                | Some p => set_port a1 (Str.to_Z p)
                | None => a1
                end in
      mkState a2 (last_folder st)
    else if String.eqb key_norm "username" then
      mkState (set_username a value) (last_folder st)
    else if String.eqb key_norm "password" then
      mkState (set_password a value) (last_folder st)
    else if String.eqb key_norm "port" then
      match first_digits value with
      | Some d => mkState (set_port a (Str.to_Z d)) (last_folder st)
      | None => st
      end
    else if String.eqb key_norm "folders" then st
    else if key_in key_norm ["folder"] then
      let '(p, fs) := _parse_folder_value value in
      append_folder st (mkFolder "Folder" (or_root p) (Some fs))
    else if key_in key_norm ["folders"; "locations"] then st
    else
      let folder_label := _derive_folder_label (name a) raw_key in
      let '(p, fs) := _parse_folder_value value in
      append_folder st (mkFolder folder_label p (Some fs)).

Definition root_folder : Folder := mkFolder "Root" "/" None.

(** The lines of a block: stripped, the empty ones dropped. *)
Definition block_lines (block : string) : list string :=
  filter Str.nonempty (map Str.strip (Str.split_by Str.is_linebreak block)).

(** The account of a block before the port default and the credential
    test: the loop over [lines[1:]] from the fresh account. *)
Definition scan_block (first : string) (rest : list string) : BlockState :=
  fold_left process_line rest
    (mkState (mkAccount first [] None None None None) None).

(** The end of the loop body: the port default, the credential test and
    the implicit root folder. [None] when the block is dropped. *)
Definition finish_block (a : Account) : option Account :=
  let a := match port a with Some _ => a | None => set_port a 22 end in
  match host a, username a, password a with
  | Some _, Some _, Some _ =>
      if Py.is_nil (folders a)
      then Some (set_folders a (folders a ++ [root_folder])%list)
      else Some a
  | _, _, _ => None
  end.

Definition parse_block (block : string) : option Account :=
  match block_lines block with
  | [] => None
  | first :: rest => finish_block (account (scan_block first rest))
  end.

Fixpoint leading_dashes (s : string) : nat :=
  match s with
  | String "-" r => S (leading_dashes r)
  | _ => O
  end.

(** [re.split(r"-{5,}", content)]: a run of five dashes or more is one
    separator. The fuel is the length of [content]. *)
Fixpoint split_blocks (fuel : nat) (content : string) : list string :=
  match fuel with
  | O => [content]
  | S k =>
      match content with
      | EmptyString => [EmptyString]
      | String c r =>
          let n := leading_dashes content in
          if Nat.leb 5 n then EmptyString :: split_blocks k (skip n content)
          else match split_blocks k r with
               | h :: t => String c h :: t
               | [] => [String c EmptyString]
               end
      end
  end.

Fixpoint keep_some {A} (l : list (option A)) : list A :=
  match l with
  | [] => []
  | Some a :: r => a :: keep_some r
  | None :: r => keep_some r
  end.

Definition parse_content (content : string) : list Account :=
  keep_some (map parse_block (split_blocks (String.length content) content)).

(** [file] is the text read from the credentials file at the resolved
    path, [None] when no file is there. A file that is there but cannot
    be read or decoded makes [read_text] raise and is outside this
    model. *)
Definition load_multiple_configs_from_file (file : option string)
  : result (list Account) :=
  match file with
  | None => Raise (FileNotFoundError "Credentials file not found")
  | Some content => Ok (parse_content content)
  end.

End Config.

(** ** main.py *)

Module Main.

(** A row of the report, with the four columns of the source. *)
Record Row := mkRow {
  account_name : string;
  folder : string;
  latest_file_name : string;
  latest_file_date : string
}.

(** [_matches_filter]: an unset or empty pattern matches everything. *)
Definition _matches_filter (value : string) (pattern : option string) : bool :=
  match pattern with
  | None => true
  | Some p =>
      if negb (Str.nonempty p) then true
      else Str.contains (Str.lower value) (Str.lower p)
  end.

(** [config[key]] on a key that a line of the block may not have set. *)
Definition getitem (key : string) (v : option string) : result string :=
  match v with
  | Some x => Ok x
  | None => Raise (KeyError key)
  end.

Section Collect.

Variable utcoffset : Z -> Z.
Variable net : Sftp.Network.
(** [datetime.datetime.now().date()] *)
Variable now_date : Datetime.date.

Variables (folder_filter : option string) (previous_day today_only : bool)
          (on_date : option Datetime.date).

Definition conn_error_row (config : Config.Account) (exc : exn) : Row :=
  mkRow (Config.name config) "-" "-" ("Connection error: " ++ exn_str exc).

Definition not_configured_row (config : Config.Account) : Row :=
  mkRow (Config.name config)
    (match folder_filter with
     | Some f => if Str.nonempty f then f else "-"
     | None => "-"
     end)
    "-" "Folder not configured".

Definition folder_error_row (config : Config.Account) (folder_label : string)
    (exc : exn) : Row :=
  mkRow (Config.name config) folder_label "-" ("Error: " ++ exn_str exc).

(** The rows of one prefix of the per-prefix branch: the result of the
    prefix when both components are truthy, else the latest file of any
    date for that prefix, else a dash row. A failing fallback lookup
    leaves the loop. *)
Definition value_of (o : option string) : string :=
  match o with Some x => x | None => "-" end.

Definition prefix_rows (connector : Sftp.SFTPConnector)
    (config : Config.Account) (folder_label folder_path : string)
    (entry : string * (option string * option string)) : result Row :=
  let '(pfx_lower, (fname, fdt)) := entry in
  let label := folder_label ++ " - " ++ pfx_lower in
  if (Py.truthy fname && Py.truthy fdt)%bool then
    Ok (mkRow (Config.name config) label (value_of fname) (value_of fdt))
  else
    fb <- Sftp.get_latest_file_info utcoffset connector folder_path
            (Some [pfx_lower]) ;;
    let '(fb_name, fb_dt) := fb in
    if (Py.truthy fb_name && Py.truthy fb_dt)%bool then
      Ok (mkRow (Config.name config) label (value_of fb_name) (value_of fb_dt))
    else Ok (mkRow (Config.name config) label "-" "-").

(** The loop over [per.items()]: the rows appended so far, and the
    exception that left the loop, if any. *)
Fixpoint prefix_loop (connector : Sftp.SFTPConnector)
    (config : Config.Account) (folder_label folder_path : string)
    (items : list (string * (option string * option string)))
  : list Row * option exn :=
  match items with
  | [] => ([], None)
  | it :: r =>
      match prefix_rows connector config folder_label folder_path it with
      | Raise e => ([], Some e)
      | Ok row =>
          let '(rows, e) := prefix_loop connector config folder_label folder_path r in
          (row :: rows, e)
      end
  end.

(** The single-result branch of a folder without filters. The lookup
    that only words the log message of the dash row is left out: it adds
    nothing to [results] and its failures are swallowed. *)
Definition plain_rows (connector : Sftp.SFTPConnector)
    (config : Config.Account) (folder_label folder_path : string)
    (filters : list string) : result Row :=
  sel <-
    (if today_only then
       let target_date := match on_date with Some d => d | None => now_date end in
       Sftp.get_latest_file_info_on_date utcoffset connector folder_path
         target_date (Some filters)
     else if previous_day then
       let target_date := match on_date with Some d => d | None => now_date end in
       Sftp.get_latest_file_info_before_date utcoffset connector folder_path
         target_date (Some filters)
     else
       Sftp.get_latest_file_info utcoffset connector folder_path (Some filters)) ;;
  let '(latest_file, latest_date) := sel in
  if (Py.truthy latest_file && Py.truthy latest_date)%bool then
    Ok (mkRow (Config.name config) folder_label
          (value_of latest_file) (value_of latest_date))
  else
    let '(fb_file, fb_date) :=
      if (today_only || previous_day)%bool then
        match Sftp.get_latest_file_info utcoffset connector folder_path
                (Some filters) with
        | Ok r => r
        | Raise _ => (None, None)
        end
      else (None, None) in
    if (Py.truthy fb_file && Py.truthy fb_date)%bool then
      Ok (mkRow (Config.name config) folder_label
            (value_of fb_file) (value_of fb_date))
    else Ok (mkRow (Config.name config) folder_label "-" "-").

(** The rows of one folder: the body of the loop over [folders], with
    its [except Exception] clause. *)
Definition folder_rows (connector : Sftp.SFTPConnector)
    (config : Config.Account) (fd : Config.Folder) : list Row :=
  let folder_label := Config.label fd in
  let folder_path := Config.path fd in
  let filters := match Config.filters fd with Some l => l | None => [] end in
  if negb (Py.is_nil filters) then
    match Sftp.get_latest_files_per_prefix utcoffset connector folder_path filters
            (if today_only then on_date else None) with
    | Raise exc => [folder_error_row config folder_label exc]
    | Ok per =>
        match prefix_loop connector config folder_label folder_path per with
        | (rows, None) => rows
        | (rows, Some exc) => (rows ++ [folder_error_row config folder_label exc])%list
        end
    end
  else
    match plain_rows connector config folder_label folder_path filters with
    | Ok row => [row]
    | Raise exc => [folder_error_row config folder_label exc]
    end.

(** The rows of one connected account. *)
Definition connected_rows (connector : Sftp.SFTPConnector)
    (config : Config.Account) : list Row :=
  let folders :=
    match folder_filter with
    | Some f =>
        if Str.nonempty f
        then filter (fun fd => _matches_filter (Config.label fd) folder_filter)
               (Config.folders config)
        else Config.folders config
    | None => Config.folders config
    end in
  if Py.is_nil folders then [not_configured_row config]
  else flat_map (folder_rows connector config) folders.

Variables (account_filter : option string) (skip_accounts : option (list string)).

Definition skipped (config : Config.Account) : bool :=
  match skip_accounts with
  | Some l =>
      (negb (Py.is_nil l)
       && existsb (fun s => _matches_filter (Config.name config) (Some s)) l)%bool
  | None => false
  end.

(** The body of the loop over [configs]: the rows that one account adds
    to [results], and the connector as the iteration leaves it. *)
Definition account_rows (config : Config.Account)
  : result (list Row * option Sftp.SFTPConnector) :=
  if negb (_matches_filter (Config.name config) account_filter) then Ok ([], None)
  else if skipped config then Ok ([], None)
  else
    h <- getitem "host" (Config.host config) ;;
    u <- getitem "username" (Config.username config) ;;
    pw <- getitem "password" (Config.password config) ;;
    let connector :=
      Sftp.new h (match Config.port config with Some p => p | None => 22 end) u pw in
    match Sftp.connect net connector with
    | (connector, Raise exc) =>
        Ok ([conn_error_row config exc], Some (Sftp.disconnect connector))
    | (connector, Ok _) =>
        Ok (connected_rows connector config, Some (Sftp.disconnect connector))
    end.

Fixpoint collect_rows (configs : list Config.Account) (results : list Row)
  : result (list Row) :=
  match configs with
  | [] => Ok results
  | config :: r =>
      out <- account_rows config ;;
      collect_rows r (results ++ fst out)%list
  end.

(** [file] is the text of the credentials file, as for
    [Config.load_multiple_configs_from_file]. *)
Definition collect_latest_file_details (file : option string)
  : result (list Row) :=
  configs <- Config.load_multiple_configs_from_file file ;;
  collect_rows configs [].

End Collect.

(** *** Command line dates *)

Record Args := mkArgs {
  account : option string;
  folder_arg : option string;
  output : option string;
  arg_previous_day : bool;
  arg_today_only : bool;
  latest : bool;
  skip_arg : option (list string);
  date_arg : option string;
  start_date : option string;
  end_date : option string
}.

Definition digit_val (c : ascii) : Z := Z.of_nat (nat_of_ascii c - 48).

Definition is_leap (y : Z) : bool :=
  ((y mod 4 =? 0) && (negb (y mod 100 =? 0) || (y mod 400 =? 0)))%bool.

Definition days_in_month (y m : Z) : Z :=
  if m =? 2 then (if is_leap y then 29 else 28)
  else if ((m =? 4) || (m =? 6) || (m =? 9) || (m =? 11))%bool then 30
  else 31.

(** The month field of [strptime]: 1 to 9, 01 to 09, 10 to 12. *)
Definition month_field (tok : string) : option Z :=
  match tok with
  | String a EmptyString =>
      if (Str.is_digit a && (1 <=? digit_val a))%bool then Some (digit_val a) else None
  | String a (String b EmptyString) =>
      let v := 10 * digit_val a + digit_val b in
      if (Str.is_digit a && Str.is_digit b && (1 <=? v) && (v <=? 12))%bool
      then Some v else None
  | _ => None
  end.

(** The day field of [strptime]: 1 to 9, 01 to 31, or a space and 1 to 9. *)
Definition day_field (tok : string) : option Z :=
  match tok with
  | String a EmptyString =>
      if (Str.is_digit a && (1 <=? digit_val a))%bool then Some (digit_val a) else None
  | String a (String b EmptyString) =>
      if (Ascii.eqb a " "%char && Str.is_digit b && (1 <=? digit_val b))%bool
      then Some (digit_val b)
      else
        let v := 10 * digit_val a + digit_val b in
        if (Str.is_digit a && Str.is_digit b && (1 <=? v) && (v <=? 31))%bool
        then Some v else None
  | _ => None
  end.

(** The year field of [strptime]: exactly four digits. *)
Definition year_field (tok : string) : option Z :=
  match tok with
  | String a (String b (String c (String d EmptyString))) =>
      if (Str.is_digit a && Str.is_digit b && Str.is_digit c && Str.is_digit d)%bool
      then Some (Str.to_Z tok) else None
  | _ => None
  end.

(** [datetime.datetime.strptime(d, "%Y-%m-%d").date()], [None] standing
    for the [ValueError] of a text that does not match or is no date. *)
Definition strptime_Ymd (d : string) : option Datetime.date :=
  match Str.split1 "-" d with
  | (ytok, Some rest) =>
      match Str.split1 "-" rest with
      | (mtok, Some dtok) =>
          match year_field ytok, month_field mtok, day_field dtok with
          | Some y, Some m, Some dd =>
              if ((1 <=? y) && (dd <=? days_in_month y m))%bool
              then Some (Datetime.days_from_civil y m dd)
              else None
          | _, _, _ => None
          end
      | _ => None
      end
  | _ => None
  end.

(** The local [_parse] of [main]: unset or empty gives [None], a text
    that does not parse raises. The source prints a line and re-raises
    the [ValueError] of [strptime]; the text carried here is the printed
    line, the text of the exception itself is not modelled. *)
Definition _parse (d : option string) : result (option Datetime.date) :=
  match d with
  | None => Ok None
  | Some s =>
      if negb (Str.nonempty s) then Ok None
      else match strptime_Ymd s with
           | Some dt => Ok (Some dt)
           | None => Raise (ValueError ("Invalid date format: " ++ s ++ ". Expected YYYY-MM-DD."))
           end
  end.

(** [a or b] on optional dates, [b] being evaluated only when needed. *)
Definition or_parse (a b : option string) : result (option Datetime.date) :=
  x <- _parse a ;;
  match x with
  | Some _ => Ok x
  | None => _parse b
  end.

(** The loop that fills [dates] from [cur] up to [end]; adding a day to
    [date.max] overflows. The fuel is the number of days of the range. *)
Fixpoint date_loop (fuel : nat) (cur end_ : Datetime.date) (dates : list Datetime.date)
  : result (list Datetime.date) :=
  match fuel with
  | O => Ok dates
  | S k =>
      if cur <=? end_ then
        if Datetime.date_max <=? cur
        then Raise (OverflowError "date value out of range")
        else date_loop k (cur + 1) end_ (dates ++ [cur])%list
      else Ok dates
  end.

(** What the date arguments decide: no date was asked for, the run
    stops on a printed message, or one collection per listed date. *)
Inductive DatePlan : Type :=
  | NoDates
  | Stop (message : string)
  | PerDate (dates : list Datetime.date).

Definition truthy_arg (a : option string) : bool := Py.truthy a.

(** The date stage of [main]. *)
Definition plan_dates (args : Args) : result DatePlan :=
  if (truthy_arg (date_arg args) || truthy_arg (start_date args)
      || truthy_arg (end_date args))%bool then
    if truthy_arg (date_arg args) then
      single <- _parse (date_arg args) ;;
      match single with
      | None => Ok (Stop "Invalid --date value")
      | Some d => Ok (PerDate [d])
      end
    else
      start <- or_parse (start_date args) (end_date args) ;;
      end_ <- or_parse (end_date args) (start_date args) ;;
      match start, end_ with
      | Some s, Some e =>
          if e <? s then Ok (Stop "Start date must be on or before end date.")
          else
            dates <- date_loop (S (Z.to_nat (e - s))) s e [] ;;
            Ok (PerDate dates)
      | _, _ =>
          Ok (Stop "Both --start-date and --end-date must be provided, or use --date for a single date.")
      end
  else Ok NoDates.

(** A workbook written by [main]: the date of its name, whether it is
    the error workbook, and its rows. *)
Record Report := mkReport {
  report_date : string;
  errors_only : bool;
  rows : list Row
}.

Definition is_error_row (row : Row) : bool :=
  let d := latest_file_date row in
  (Str.startswith (Str.lower d) "error"
   || Str.startswith (Str.lower d) "connection error"
   || String.eqb d "Folder not configured")%bool.

Definition reports_of (label : string) (rows : list Row) : list Report :=
  match rows with
  | [] => []
  | _ =>
      mkReport label false rows ::
      (match filter is_error_row rows with
       | [] => []
       | errs => [mkReport label true errs]
       end)
  end.

Section Run.

Variable utcoffset : Z -> Z.
Variable net : Sftp.Network.
(** The clock of the run: the local day, and the day of the name of the
    default workbook ([run_started]). *)
Variable now_date : Datetime.date.
Variable file : option string.
(** What the file system answers: the creation of the result, error and
    log directories, the opening of the log file, and the writing of one
    workbook ([DataFrame(rows).to_excel]). None of the three is guarded
    by a [try] in [main]. *)
Variable make_dirs : result unit.
Variable open_log : result unit.
Variable to_excel : Report -> result unit.

(** The workbooks in the order in which they are written; the first
    failure is raised. *)
Fixpoint write_all (reports : list Report) : result (list Report) :=
  match reports with
  | [] => Ok []
  | r :: rest =>
      _ <- to_excel r ;;
      written <- write_all rest ;;
      Ok (r :: written)
  end.

(** The rows collected for the date [dt] of a run by dates. *)
Definition collect_for (args : Args) (dt : Datetime.date) : result (list Row) :=
  collect_latest_file_details utcoffset net now_date
    (folder_arg args) (arg_previous_day args)
    (negb (arg_previous_day args)) (Some dt)
    (account args)
    (Some (match skip_arg args with Some l => l | None => [] end))
    file.

(** The loop over [dates]: a date without rows is skipped, the others
    get their workbook and, when some row is an error row, their error
    workbook. *)
Fixpoint per_date_reports (args : Args) (dates : list Datetime.date)
  : result (list Report) :=
  match dates with
  | [] => Ok []
  | dt :: r =>
      rows <- collect_for args dt ;;
      written <- write_all (reports_of (Datetime.strftime_mdY_dashed dt) rows) ;;
      rest <- per_date_reports args r ;;
      Ok (written ++ rest)%list
  end.

(** [main]: the workbooks written by the run. A stop on a message
    returns before anything is created. *)
Definition main (args : Args) : result (list Report) :=
  let today_only := (arg_today_only args || latest args)%bool in
  plan <- plan_dates args ;;
  let today_only :=
    if (negb today_only && negb (arg_previous_day args))%bool then true
    else today_only in
  match plan with
  | Stop _ => Ok []
  | PerDate (d :: ds) =>
      _ <- make_dirs ;;
      _ <- open_log ;;
      per_date_reports args (d :: ds)
  | PerDate [] | NoDates =>
      _ <- make_dirs ;;
      _ <- open_log ;;
      rows <- collect_latest_file_details utcoffset net now_date
                (folder_arg args) (arg_previous_day args) today_only None
                (account args)
                (Some (match skip_arg args with Some l => l | None => [] end))
                file ;;
      write_all (reports_of (Datetime.strftime_mdY_dashed now_date) rows)
  end.

End Run.

End Main.

(** ** src/config.py: where the credentials file is looked for *)

Module CredPath.

Section Paths.

(** [pathlib.Path], with its equality, the [/] operator, [.parent] and
    [.exists()]. *)
Variable Path : Type.
Variable path_eqb : Path -> Path -> bool.
Variable join : Path -> string -> Path.
Variable parent : Path -> Path.
Variable path_exists : Path -> bool.

(** The loop that removes duplicates and keeps the order: [seen] is the
    set of the paths met so far. *)
Fixpoint uniq_loop (candidates seen uniq : list Path) : list Path :=
  match candidates with
  | [] => uniq
  | p :: r =>
      if existsb (path_eqb p) seen then uniq_loop r seen uniq
      else uniq_loop r (p :: seen) (uniq ++ [p])%list
  end.

(** [env_path] is the expanded path of a non-empty [CREDENTIALS_PATH],
    [here] is the resolved path of the module, [meipass] the path of a
    set [sys._MEIPASS]. *)
Definition _candidate_credentials_paths (env_path : option Path) (here cwd : Path)
    (meipass : option Path) : list Path :=
  let candidates := match env_path with Some e => [e] | None => [] end in
  let src_dir := parent here in
  let root_dir := parent src_dir in
  let candidates :=
    (candidates ++
     [join src_dir "credentials.txt"; join root_dir "credentials.txt";
      join (join cwd "src") "credentials.txt"; join cwd "credentials.txt"])%list in
  let candidates :=
    match meipass with
    | Some m => (candidates ++ [join (join m "src") "credentials.txt"])%list
    | None => candidates
    end in
  uniq_loop candidates [] [].

Definition _resolve_credentials_path (env_path : option Path) (here cwd : Path)
    (meipass : option Path) : Path :=
  match find path_exists (_candidate_credentials_paths env_path here cwd meipass) with
  | Some p => p
  | None => join (parent here) "credentials.txt"
  end.

End Paths.

End CredPath.

(** ** check_date_range_files.py *)

Module DateRange.

(** A row of [all_results]: a dictionary from column names to texts. *)
Definition Row := Py.dict string.

(** [d.strftime('%Y-%m-%d')] *)
Definition strftime_Ymd (d0 : Datetime.date) : string :=
  let '(y, m, d) := Datetime.civil_from_days d0 in
  Datetime.pad4 y ++ "-" ++ Datetime.pad2 m ++ "-" ++ Datetime.pad2 d.

(** The list of the dates from [start_date] to [end_date]: the same loop
    as in [main], run for the number of days of the range. *)
Definition date_range (start_date end_date : Datetime.date)
  : result (list Datetime.date) :=
  Main.date_loop (Z.to_nat (end_date - start_date + 1)) start_date end_date [].

Definition conn_error_row (account_name : string) (exc : exn)
    (date : Datetime.date) : Row :=
  [("Account Name", account_name); ("Folder", "-");
   ("Date", strftime_Ymd date); ("File Name", "-");
   ("LastFileDate", "Connection error: " ++ exn_str exc)].

Definition no_folders_row (account_name : string) (date : Datetime.date) : Row :=
  [("Account Name", account_name); ("Folder", "-");
   ("Date", strftime_Ymd date); ("File Name", "-");
   ("File DateTime", "No folders configured")].

(** [filename if filename else "No file found"], [file_dt if file_dt else "-"] *)
Definition or_default (o : option string) (default : string) : string :=
  match o with
  | Some x => if Str.nonempty x then x else default
  | None => default
  end.

Definition result_row (account_name folder_text : string) (check_date : Datetime.date)
    (found : option string * option string) : Row :=
  [("Account Name", account_name); ("Folder", folder_text);
   ("Date", strftime_Ymd check_date);
   ("File Name", or_default (fst found) "No file found");
   ("LastFileDate", or_default (snd found) "-")].

Definition folder_error_row (account_name folder_label : string)
    (check_date : Datetime.date) (exc : exn) : Row :=
  [("Account Name", account_name); ("Folder", folder_label);
   ("Date", strftime_Ymd check_date); ("File Name", "-");
   ("LastFileDate", "Error: " ++ exn_str exc)].

Section Check.

Variable utcoffset : Z -> Z.
Variable net : Sftp.Network.

(** The rows of one folder for one date: the body of the loop over
    [date_range], with its [except Exception] clause. *)
Definition folder_date_rows (connector : Sftp.SFTPConnector) (account_name : string)
    (fd : Config.Folder) (check_date : Datetime.date) : list Row :=
  let folder_label := Config.label fd in
  let folder_path := Config.path fd in
  let filters := match Config.filters fd with Some l => l | None => [] end in
  if negb (Py.is_nil filters) then
    match Sftp.get_latest_files_per_prefix utcoffset connector folder_path filters
            (Some check_date) with
    | Ok prefix_results =>
        map (fun item : string * (option string * option string) =>
               result_row account_name
                 (folder_label ++ " (" ++ fst item ++ ")") check_date (snd item))
            prefix_results
    | Raise exc => [folder_error_row account_name folder_label check_date exc]
    end
  else
    match Sftp.get_latest_file_info_on_date utcoffset connector folder_path
            check_date None with
    | Ok found => [result_row account_name folder_label check_date found]
    | Raise exc => [folder_error_row account_name folder_label check_date exc]
    end.

(** The rows of one connected account. *)
Definition connected_rows (connector : Sftp.SFTPConnector) (config : Config.Account)
    (dates : list Datetime.date) : list Row :=
  let folders := Config.folders config in
  if Py.is_nil folders then map (no_folders_row (Config.name config)) dates
  else
    flat_map
      (fun fd => flat_map (folder_date_rows connector (Config.name config) fd) dates)
      folders.

(** The body of the loop over [configs]. *)
Definition account_rows (config : Config.Account) (dates : list Datetime.date)
  : result (list Row) :=
  let account_name := Config.name config in
  h <- Main.getitem "host" (Config.host config) ;;
  u <- Main.getitem "username" (Config.username config) ;;
  pw <- Main.getitem "password" (Config.password config) ;;
  let connector :=
    Sftp.new h (match Config.port config with Some p => p | None => 22 end) u pw in
  match Sftp.connect net connector with
  | (_, Raise exc) => Ok (map (conn_error_row account_name exc) dates)
  | (connector, Ok _) => Ok (connected_rows connector config dates)
  end.

Fixpoint collect_rows (configs : list Config.Account) (dates : list Datetime.date)
    (all_results : list Row) : result (list Row) :=
  match configs with
  | [] => Ok all_results
  | config :: r =>
      rows <- account_rows config dates ;;
      collect_rows r dates (all_results ++ rows)%list
  end.

Definition check_files_for_date_range (file : option string)
    (start_date end_date : Datetime.date) : result (list Row) :=
  configs <- Config.load_multiple_configs_from_file file ;;
  dates <- date_range start_date end_date ;;
  collect_rows configs dates [].

End Check.

End DateRange.

(** ** Sample data: a small server and a credentials file *)

Module Sample.

Import Sftp.

Definition utc : Z -> Z := fun _ => 0.

(** old.csv, 2025-10-12 08:00:00, and new.csv, 2025-10-14 09:30:00. *)
Definition old_csv : SFTPAttributes := mkAttr "old.csv" (Some S_IFREG) 1760256000.
Definition new_csv : SFTPAttributes := mkAttr "new.csv" (Some S_IFREG) 1760434200.
Definition tie_csv : SFTPAttributes := mkAttr "tie.csv" (Some S_IFREG) 1760434200.
Definition fleet_dir : SFTPAttributes := mkAttr "RevAI_Fleet" (Some S_IFDIR) 1760000000.
Definition report_csv : SFTPAttributes := mkAttr "report.csv" (Some S_IFREG) 1760434200.

Definition server (p : string) : listing :=
  if String.eqb p "/data" then Listed [old_csv; new_csv; tie_csv]
  else if String.eqb p "/base" then Listed [fleet_dir]
  else if String.eqb p "/base/RevAI_Fleet" then Listed [report_csv]
  else if String.eqb p "/broken" then ListingFailed "Permission denied"
  else NoSuchFile.

Definition connector : SFTPConnector :=
  mkConnector "sftp.example.com" 22 "user" "secret"
    (Some (mkSsh false)) (Some (mkSftp server false)).

(** 2025-10-14 and 2025-10-12 as day counts. *)
Definition oct14 : Datetime.date := 20375.
Definition oct12 : Datetime.date := 20373.

End Sample.

(** ** Vocabulary of the statements *)

Section Vocabulary.

Variable utc : Z -> Z.

(** The formatted local time of an entry. *)
Definition stamp (f : Sftp.SFTPAttributes) : string :=
  Datetime.strftime_mdY_HMS (Datetime.fromtimestamp utc (Sftp.st_mtime f)).

(** The selection of the latest entry among those that pass a test [p],
    as the three date policies do it. *)
Definition pick (p : Sftp.SFTPAttributes -> bool) (files : list Sftp.SFTPAttributes)
  : result (option string * option string) :=
  if Py.is_nil files then Ok (None, None)
  else if Py.is_nil (filter p files) then Ok (None, None)
  else Sftp.latest_of utc (filter p files).

End Vocabulary.

(** [P] holds on the [n] integers from [lo] on. *)
Fixpoint all_from (P : Z -> bool) (lo : Z) (n : nat) : bool :=
  match n with
  | O => true
  | S k => (P lo && all_from P (lo + 1) k)%bool
  end.

Definition two_digits (s : string) : bool :=
  match s with
  | String a (String b EmptyString) => (Str.is_digit a && Str.is_digit b)%bool
  | _ => false
  end.

Definition four_digits (s : string) : bool :=
  match s with
  | String a (String b (String c (String d EmptyString))) =>
      (Str.is_digit a && Str.is_digit b && Str.is_digit c && Str.is_digit d)%bool
  | _ => false
  end.

Definition civil_in_range (days : Z) : bool :=
  let '(y, m, d) := Datetime.civil_from_days days in
  ((1000 <=? y) && (y <? 10000) && (1 <=? m) && (m <=? 12)
   && (1 <=? d) && (d <=? 31))%bool.

(** A text of the form MM/DD/YYYY HH:MM:SS. *)
Definition is_mdY_HMS (s : string) : bool :=
  match list_ascii_of_string s with
  | [m1; m2; s1; d1; d2; s2; y1; y2; y3; y4; sp; h1; h2; c1; n1; n2; c2; e1; e2] =>
      (forallb Str.is_digit [m1; m2; d1; d2; y1; y2; y3; y4; h1; h2; n1; n2; e1; e2]
       && Ascii.eqb s1 "/" && Ascii.eqb s2 "/" && Ascii.eqb sp " "
       && Ascii.eqb c1 ":" && Ascii.eqb c2 ":")%bool
  | _ => false
  end.

(** [name] starts, without regard to case, with one of [filters]. *)
Definition starts_with_filter (name : string) (filters : list string) : bool :=
  existsb (fun s => Str.startswith (Str.lower name) (Str.lower s)) filters.

(** [f] is a regular file listed in [folder] itself whose name starts
    with one of the filters. *)
Definition from_folder (self : Sftp.SFTPConnector) (folder : string)
    (filters : list string) (f : Sftp.SFTPAttributes) : Prop :=
  exists entries,
    Sftp.list_files_in_folder self folder = Ok entries
    /\ In f entries /\ Sftp.is_reg f = true
    /\ starts_with_filter (Sftp.filename f) filters = true.

(** [f] is a regular file listed directly inside a sub-directory of
    [folder] whose name starts with one of the filters. *)
Definition from_subfolder (self : Sftp.SFTPConnector) (folder : string)
    (filters : list string) (f : Sftp.SFTPAttributes) : Prop :=
  exists entries d sub,
    Sftp.list_files_in_folder self folder = Ok entries
    /\ In d entries /\ Sftp.is_dir d = true
    /\ starts_with_filter (Sftp.filename d) filters = true
    /\ Sftp.list_files_in_folder self
         (Str.rstrip_chars "/" folder ++ "/" ++ Sftp.filename d) = Ok sub
    /\ In f sub /\ Sftp.is_reg f = true.

(** [name] is returned by one of the four selection operations on
    [folder] with the filters (or prefixes) [filters]. *)
Definition returned_name (utc : Z -> Z) (self : Sftp.SFTPConnector)
    (folder : string) (filters : list string) (name : string) : Prop :=
  (exists ts, Sftp.get_latest_file_info utc self folder (Some filters)
              = Ok (Some name, ts))
  \/ (exists d ts, Sftp.get_latest_file_info_on_date utc self folder d (Some filters)
                   = Ok (Some name, ts))
  \/ (exists d ts, Sftp.get_latest_file_info_before_date utc self folder d (Some filters)
                   = Ok (Some name, ts))
  \/ (exists od dict k ts,
        Sftp.get_latest_files_per_prefix utc self folder filters od = Ok dict
        /\ Py.dict_get dict k = Some (Some name, ts)).

(** The selection with the single filter [p]: the latest file of any
    date, or the latest file of the date [od] when one is given. *)
Definition single_selection (utc : Z -> Z) (self : Sftp.SFTPConnector)
    (folder : string) (od : option Datetime.date) (p : string)
  : result (option string * option string) :=
  match od with
  | None => Sftp.get_latest_file_info utc self folder (Some [p])
  | Some d => Sftp.get_latest_file_info_on_date utc self folder d (Some [p])
  end.

(** *** A credentials file and a second, unreachable, network *)

Definition nl : string := String (ascii_of_nat 10) EmptyString.

Definition credentials : string :=
  "Wheels FTP" ++ nl ++
  "host: sftp.example.com" ++ nl ++
  "username: wheels" ++ nl ++
  "password: secret" ++ nl ++
  "Bookings: /data" ++ nl ++
  "Reports: '/base'" ++ nl ++
  "'RevAI_Fleet' 'in/out'" ++ nl ++
  "-- 'Skipped'" ++ nl ++
  "----------" ++ nl ++
  "No password" ++ nl ++
  "host: other.example.com" ++ nl ++
  "username: nobody" ++ nl.

Definition wheels : Config.Account :=
  Config.mkAccount "Wheels FTP"
    [Config.mkFolder "Bookings" "/data" (Some []);
     Config.mkFolder "Reports" "/base" (Some ["RevAI_Fleet"])]
    (Some "sftp.example.com") (Some 22) (Some "wheels") (Some "secret").

(** The state of the loop over the lines of the first block once the
    line of the Reports folder is read. *)
Definition after_reports : Config.BlockState :=
  Config.scan_block "Wheels FTP"
    ["host: sftp.example.com"; "username: wheels"; "password: secret";
     "Bookings: /data"; "Reports: '/base'"].

(** A network on which every connection attempt times out, and one on
    which every host is the sample server. *)
Definition net_down : Sftp.Network :=
  fun _ _ _ _ => Raise (OtherException "timed out").
Definition net_up : Sftp.Network := fun _ _ _ _ => Ok Sample.server.

(** The dates from [s] to [e], both included. *)
Definition days_between (s e : Datetime.date) : list Datetime.date :=
  map (fun i => s + Z.of_nat i) (seq 0 (Z.to_nat (e - s + 1))).

Definition no_args : Main.Args :=
  Main.mkArgs None None None false false false None None None None.

(** Only [--start-date 2025-10-14]. *)
Definition start_only : Main.Args :=
  Main.mkArgs None None None false false false None None (Some "2025-10-14") None.

(** [--date 2025-10-12 --start-date 2025-10-14 --end-date 2025-10-15] *)
Definition date_and_range : Main.Args :=
  Main.mkArgs None None None false false false None
    (Some "2025-10-12") (Some "2025-10-14") (Some "2025-10-15").

(** [--start-date 2025-10-12 --end-date 2025-10-14] *)
Definition full_range : Main.Args :=
  Main.mkArgs None None None false false false None
    None (Some "2025-10-12") (Some "2025-10-14").

(** [last_folder] is unset while the block has no folder, and is the
    index of the last folder afterwards. *)
Definition last_folder_ok (st : Config.BlockState) : Prop :=
  match Config.last_folder st with
  | None => Config.folders (Config.account st) = []
  | Some i => S i = List.length (Config.folders (Config.account st))
  end.

Definition labels_nonempty (fs : list Config.Folder) : Prop :=
  Forall (fun fd => Config.label fd <> EmptyString) fs.

(** The five columns that the summary of the date-range script reads. *)
Definition has_columns (row : DateRange.Row) : bool :=
  forallb (fun k => match Py.dict_get row k with Some _ => true | None => false end)
    ["Account Name"; "Folder"; "Date"; "File Name"; "LastFileDate"].

(** The filters of a folder, an absent key read as the empty list. *)
Definition filters_of (fd : Config.Folder) : list string :=
  match Config.filters fd with Some l => l | None => [] end.

(** The quoted segment of a line that [_parse_folder_value] takes for a
    path: the first one with a slash. *)
Definition path_like_segment (line : string) : option string :=
  find Config.looks_like_path (Config.quoted_segments (Str.strip line)).

Definition has_credentials (a : Config.Account) : Prop :=
  Config.host a <> None /\ Config.username a <> None /\ Config.password a <> None.

Definition paths_nonempty (fs : list Config.Folder) : Prop :=
  Forall (fun fd => Config.path fd <> EmptyString) fs.

(** The three shapes of the outcome of a selection: the listing of the
    folder itself failed and the failure is raised, nothing was found,
    or a name comes with a formatted time. *)
Definition well_shaped (self : Sftp.SFTPConnector) (folder : string)
    (r : result (option string * option string)) : Prop :=
  (exists e, r = Raise e /\ Sftp.list_files_in_folder self folder = Raise e)
  \/ r = Ok (None, None)
  \/ (exists name ts, r = Ok (Some name, Some ts) /\ is_mdY_HMS ts = true).

(** The outcome of a selection without regard to the text of the time:
    the failure of the listing of the folder, nothing, or a name and a
    time together. *)
Definition paired (self : Sftp.SFTPConnector) (folder : string)
    (r : result (option string * option string)) : Prop :=
  (exists e, r = Raise e /\ Sftp.list_files_in_folder self folder = Raise e)
  \/ r = Ok (None, None)
  \/ (exists name ts, r = Ok (Some name, Some ts)).

(** The entries that a session can list carry an unsigned 32-bit
    modification time. *)
Definition mtimes_in_range (self : Sftp.SFTPConnector) : Prop :=
  forall p l, Sftp.list_files_in_folder self p = Ok l ->
    Forall (fun e => 0 <= Sftp.st_mtime e < 4294967296) l.

(** The entries that a session can list carry a mode. An entry without
    one makes [S_ISREG] and [S_ISDIR] raise a [TypeError] in the source,
    which [Sftp.is_reg] and [Sftp.is_dir] do not show. *)
Definition modes_set (self : Sftp.SFTPConnector) : Prop :=
  forall p l, Sftp.list_files_in_folder self p = Ok l ->
    Forall (fun e => Sftp.st_mode e <> None) l.

(** A second connector to the sample server, with other credentials. *)
Definition other_connector : Sftp.SFTPConnector :=
  Sftp.mkConnector "mirror.example.com" 2222 "guest" "guest"
    (Some (Sftp.mkSsh false)) (Some (Sftp.mkSftp Sample.server false)).


(** * Properties *)

(** ** The first maximum of a list *)

Section MaxFrom.

Context {A : Type} (key : A -> Z).

Lemma max_from_first (l : list A) : forall b,
  exists pre post,
    b :: l = (pre ++ Py.max_from key b l :: post)%list
    /\ (forall x, In x pre -> key x < key (Py.max_from key b l))
    /\ (forall x, In x post -> key x <= key (Py.max_from key b l)).
Proof.
  induction l as [|x r IH]; intros b.
  - exists [], []. simpl. repeat split; intros y []; contradiction.
  - simpl. destruct (Z.ltb_spec (key b) (key x)) as [Hlt|Hge].
    + destruct (IH x) as (pre & post & E & Hpre & Hpost).
      exists (b :: pre), post. split; [simpl; now rewrite E|]. split; [|exact Hpost].
      intros y [<-|Hy]; [|now apply Hpre].
      assert (Hx : In x (pre ++ Py.max_from key x r :: post)%list)
        by (rewrite <- E; now left).
      apply in_app_or in Hx. destruct Hx as [Hx|[Hx|Hx]].
      * specialize (Hpre _ Hx). lia.
      * rewrite Hx. exact Hlt.
      * specialize (Hpost _ Hx). lia.
    + destruct (IH b) as (pre & post & E & Hpre & Hpost).
      destruct pre as [|b' pre'].
      * simpl in E. injection E as Eb Er.
        rewrite <- Eb in Hpost. rewrite <- Eb.
        exists [], (x :: r). simpl.
        split; [reflexivity|]. split; [intros y []|].
        intros y [<-|Hy]; [lia|]. apply Hpost. rewrite <- Er. exact Hy.
      * simpl in E. injection E as Eb Er. subst b'.
        exists (b :: x :: pre'), post. split; [simpl; now rewrite <- Er|].
        split; [|exact Hpost].
        intros y [<-|[<-|Hy]].
        -- apply Hpre. now left.
        -- assert (key b < key (Py.max_from key b r)) by (apply Hpre; now left). lia.
        -- apply Hpre. now right.
Qed.

Lemma max_from_in (l : list A) (b : A) : In (Py.max_from key b l) (b :: l).
Proof.
  destruct (max_from_first l b) as (pre & post & E & _). rewrite E.
  apply in_or_app. right. now left.
Qed.

Lemma max_from_upper (l : list A) (b x : A) :
  In x (b :: l) -> key x <= key (Py.max_from key b l).
Proof.
  destruct (max_from_first l b) as (pre & post & E & Hpre & Hpost). rewrite E.
  intros H. apply in_app_or in H. destruct H as [H|[H|H]].
  - specialize (Hpre _ H). lia.
  - subst x. lia.
  - now apply Hpost.
Qed.

End MaxFrom.

(** ** Selection among the candidates *)

Section SelectionFacts.

Variable utc : Z -> Z.

Lemma latest_of_cons (f : Sftp.SFTPAttributes) (r : list Sftp.SFTPAttributes) :
  Sftp.latest_of utc (f :: r) =
  Ok (Some (Sftp.filename (Py.max_from Sftp.st_mtime f r)),
      Some (stamp utc (Py.max_from Sftp.st_mtime f r))).
Proof. reflexivity. Qed.

Lemma pick_some p files name ts :
  pick utc p files = Ok (Some name, ts) ->
  exists f, In f files /\ p f = true /\ Sftp.filename f = name
    /\ ts = Some (stamp utc f)
    /\ forall g, In g files -> p g = true -> Sftp.st_mtime g <= Sftp.st_mtime f.
Proof.
  unfold pick. destruct files as [|f0 r0]; [discriminate|]. cbn [Py.is_nil].
  destruct (filter p (f0 :: r0)) as [|f r] eqn:E; [discriminate|].
  cbn [Py.is_nil]. rewrite latest_of_cons. intros H. injection H as Hn Ht.
  set (m := Py.max_from Sftp.st_mtime f r) in *.
  assert (Hm : In m (f :: r)) by apply max_from_in.
  rewrite <- E in Hm. apply filter_In in Hm. destruct Hm as [Hin Hp].
  exists m. repeat split; auto.
  intros g Hg Hpg. apply max_from_upper. rewrite <- E. apply filter_In. now split.
Qed.

Lemma pick_none p files :
  (forall f, In f files -> p f = false) -> pick utc p files = Ok (None, None).
Proof.
  intros H. unfold pick. destruct (Py.is_nil files); [reflexivity|].
  destruct (filter p files) as [|f r] eqn:E; [reflexivity|].
  assert (Hf : In f (filter p files)) by (rewrite E; now left).
  apply filter_In in Hf. destruct Hf as [Hin Hp]. rewrite (H _ Hin) in Hp. discriminate.
Qed.

Lemma pick_found p files :
  (exists f, In f files /\ p f = true) ->
  exists name ts, pick utc p files = Ok (Some name, Some ts).
Proof.
  intros (f & Hin & Hp). unfold pick.
  destruct files as [|f0 r0]; [destruct Hin|]. cbn [Py.is_nil].
  destruct (filter p (f0 :: r0)) as [|g r] eqn:E.
  - assert (Hf : In f (filter p (f0 :: r0))) by (apply filter_In; now split).
    rewrite E in Hf. destruct Hf.
  - cbn [Py.is_nil]. rewrite latest_of_cons. eauto.
Qed.

Lemma on_date_pick self folder d filters files :
  Sftp._collect_candidate_files self folder filters = Ok files ->
  Sftp.get_latest_file_info_on_date utc self folder d filters =
  pick utc (fun f => Sftp.to_local_date utc f =? d) files.
Proof.
  intros H. unfold Sftp.get_latest_file_info_on_date. rewrite H. reflexivity.
Qed.

Lemma before_date_pick self folder d filters files :
  Sftp._collect_candidate_files self folder filters = Ok files ->
  Sftp.get_latest_file_info_before_date utc self folder d filters =
  pick utc (fun f => Sftp.to_local_date utc f <? d) files.
Proof.
  intros H. unfold Sftp.get_latest_file_info_before_date. rewrite H. reflexivity.
Qed.

Lemma latest_pick self folder filters files :
  Sftp._collect_candidate_files self folder filters = Ok files ->
  Sftp.get_latest_file_info utc self folder filters = pick utc (fun _ => true) files.
Proof.
  intros H. unfold Sftp.get_latest_file_info. rewrite H. unfold pick. cbn [bind].
  destruct files as [|f r]; [reflexivity|]. cbn [Py.is_nil].
  assert (E : filter (fun _ : Sftp.SFTPAttributes => true) (f :: r) = f :: r).
  { apply forallb_filter_id. apply forallb_forall. reflexivity. }
  rewrite E. reflexivity.
Qed.

(** C3. [get_latest_file_info_on_date] returns a file only when its
    local calendar date is [d], and then one of greatest modification
    time among the candidates of that date; it returns [(None, None)]
    when no candidate has local date [d], whatever the other dates; it
    returns a file whenever a candidate has local date [d]. *)
Theorem latest_on_date_correct self folder d filters files :
  Sftp._collect_candidate_files self folder filters = Ok files ->
  (forall name ts,
     Sftp.get_latest_file_info_on_date utc self folder d filters
       = Ok (Some name, ts) ->
     exists f, In f files /\ Sftp.filename f = name
       /\ Sftp.to_local_date utc f = d /\ ts = Some (stamp utc f)
       /\ forall g, In g files -> Sftp.to_local_date utc g = d ->
            Sftp.st_mtime g <= Sftp.st_mtime f)
  /\ ((forall f, In f files -> Sftp.to_local_date utc f <> d) ->
      Sftp.get_latest_file_info_on_date utc self folder d filters
        = Ok (None, None))
  /\ ((exists f, In f files /\ Sftp.to_local_date utc f = d) ->
      exists name ts,
        Sftp.get_latest_file_info_on_date utc self folder d filters
          = Ok (Some name, Some ts)).
Proof.
  intros H. rewrite (on_date_pick _ _ _ _ _ H). repeat split.
  - intros name ts Hp. apply pick_some in Hp.
    destruct Hp as (f & Hin & Hd & Hn & Hts & Hmax).
    exists f. repeat split; auto; [now apply Z.eqb_eq|].
    intros g Hg Hgd. apply Hmax; [exact Hg|]. now apply Z.eqb_eq.
  - intros Hno. apply pick_none. intros f Hf. apply Z.eqb_neq. now apply Hno.
  - intros (f & Hin & Hd). apply pick_found. exists f. split; [exact Hin|].
    now apply Z.eqb_eq.
Qed.

(** C5. [get_latest_file_info_before_date] never returns a file whose
    local calendar date is [d] or later: a returned file has a local date
    strictly before [d] and the greatest modification time among such
    candidates; it returns [(None, None)] when no candidate is strictly
    before [d], and a file whenever one is. *)
Theorem latest_before_date_correct self folder d filters files :
  Sftp._collect_candidate_files self folder filters = Ok files ->
  (forall name ts,
     Sftp.get_latest_file_info_before_date utc self folder d filters
       = Ok (Some name, ts) ->
     exists f, In f files /\ Sftp.filename f = name
       /\ Sftp.to_local_date utc f < d /\ ts = Some (stamp utc f)
       /\ forall g, In g files -> Sftp.to_local_date utc g < d ->
            Sftp.st_mtime g <= Sftp.st_mtime f)
  /\ ((forall f, In f files -> d <= Sftp.to_local_date utc f) ->
      Sftp.get_latest_file_info_before_date utc self folder d filters
        = Ok (None, None))
  /\ ((exists f, In f files /\ Sftp.to_local_date utc f < d) ->
      exists name ts,
        Sftp.get_latest_file_info_before_date utc self folder d filters
          = Ok (Some name, Some ts)).
Proof.
  intros H. rewrite (before_date_pick _ _ _ _ _ H). repeat split.
  - intros name ts Hp. apply pick_some in Hp.
    destruct Hp as (f & Hin & Hd & Hn & Hts & Hmax).
    exists f. repeat split; auto; [now apply Z.ltb_lt|].
    intros g Hg Hgd. apply Hmax; [exact Hg|]. now apply Z.ltb_lt.
  - intros Hno. apply pick_none. intros f Hf. apply Z.ltb_ge. now apply Hno.
  - intros (f & Hin & Hd). apply pick_found. exists f. split; [exact Hin|].
    now apply Z.ltb_lt.
Qed.

End SelectionFacts.

(** ** The result depends on the listing only *)

Section Determinism.

Variable utc : Z -> Z.

Lemma collect_ext c1 c2 folder filters :
  (forall p, Sftp.list_files_in_folder c1 p = Sftp.list_files_in_folder c2 p) ->
  Sftp._collect_candidate_files c1 folder filters
  = Sftp._collect_candidate_files c2 folder filters.
Proof.
  intros H. unfold Sftp._collect_candidate_files. rewrite H.
  destruct (Sftp.list_files_in_folder c2 folder) as [entries|e]; [|reflexivity].
  cbn [bind].
  assert (E : forall l, flat_map (Sftp.subfolder_files c1 folder) l
                      = flat_map (Sftp.subfolder_files c2 folder) l).
  { intros l. apply flat_map_ext. intros d. unfold Sftp.subfolder_files.
    now rewrite H. }
  now rewrite E.
Qed.

Lemma per_prefix_loop_ext c1 c2 folder od ps :
  (forall p, Sftp.list_files_in_folder c1 p = Sftp.list_files_in_folder c2 p) ->
  forall acc,
  Sftp.per_prefix_loop utc c1 folder od ps acc
  = Sftp.per_prefix_loop utc c2 folder od ps acc.
Proof.
  intros H. induction ps as [|p r IH]; intros acc; [reflexivity|].
  cbn [Sftp.per_prefix_loop]. unfold Sftp.per_prefix_step.
  rewrite (collect_ext c1 c2 folder (Some [p]) H).
  destruct (Sftp._collect_candidate_files c2 folder (Some [p])) as [files|e];
    [|reflexivity].
  cbn [bind]. destruct (Py.is_nil files); cbn [bind]; [apply IH|].
  destruct od as [today|].
  - destruct (Py.is_nil _); cbn [bind]; [apply IH|].
    destruct (Sftp.latest_of utc _); cbn [bind]; [apply IH|reflexivity].
  - destruct (Sftp.latest_of utc _); cbn [bind]; [apply IH|reflexivity].
Qed.

(** C8. Selection is a function of the listing: two connectors that
    list the same entries in the same order get the same answer from
    every selection operation, whatever else differs between them, so a
    second call on an unchanged listing repeats the first. The answer is
    fixed by the order of the entries: among the candidates of greatest
    modification time, the first one in listing order is returned. *)
Theorem selection_deterministic c1 c2 folder filters :
  (forall p, Sftp.list_files_in_folder c1 p = Sftp.list_files_in_folder c2 p) ->
  Sftp.get_latest_file_info utc c1 folder filters
    = Sftp.get_latest_file_info utc c2 folder filters
  /\ (forall d, Sftp.get_latest_file_info_on_date utc c1 folder d filters
              = Sftp.get_latest_file_info_on_date utc c2 folder d filters)
  /\ (forall d, Sftp.get_latest_file_info_before_date utc c1 folder d filters
              = Sftp.get_latest_file_info_before_date utc c2 folder d filters)
  /\ (forall prefixes od,
        Sftp.get_latest_files_per_prefix utc c1 folder prefixes od
        = Sftp.get_latest_files_per_prefix utc c2 folder prefixes od)
  /\ (forall files,
        Sftp._collect_candidate_files c1 folder filters = Ok files ->
        files <> [] ->
        exists pre f post,
          files = (pre ++ f :: post)%list
          /\ (forall x, In x pre -> Sftp.st_mtime x < Sftp.st_mtime f)
          /\ (forall x, In x post -> Sftp.st_mtime x <= Sftp.st_mtime f)
          /\ Sftp.get_latest_file_info utc c2 folder filters
             = Ok (Some (Sftp.filename f), Some (stamp utc f))).
Proof.
  intros H. pose proof (collect_ext c1 c2 folder filters H) as E.
  split; [|split; [|split; [|split]]].
  - unfold Sftp.get_latest_file_info. now rewrite E.
  - intros d. unfold Sftp.get_latest_file_info_on_date. now rewrite E.
  - intros d. unfold Sftp.get_latest_file_info_before_date. now rewrite E.
  - intros prefixes od. unfold Sftp.get_latest_files_per_prefix.
    now apply per_prefix_loop_ext.
  - intros files Hf Hne. rewrite E in Hf.
    unfold Sftp.get_latest_file_info. rewrite Hf. cbn [bind].
    destruct files as [|f0 r]; [now elim Hne|]. cbn [Py.is_nil].
    destruct (max_from_first Sftp.st_mtime r f0) as (pre & post & Ed & Hpre & Hpost).
    exists pre, (Py.max_from Sftp.st_mtime f0 r), post.
    split; [exact Ed|]. split; [exact Hpre|]. split; [exact Hpost|].
    apply latest_of_cons.
Qed.

End Determinism.

(** On the sample server two files share the greatest modification time;
    both connectors answer with the first of them. *)
Lemma selection_deterministic_witness :
  Sftp.get_latest_file_info Sample.utc Sample.connector "/data" None
  = Sftp.get_latest_file_info Sample.utc other_connector "/data" None
  /\ Sftp.get_latest_file_info Sample.utc other_connector "/data" None
     = Ok (Some "new.csv", Some "10/14/2025 09:30:00").
Proof.
  destruct (selection_deterministic Sample.utc Sample.connector other_connector
              "/data" None (fun p => eq_refl)) as (H & _ & _ & _ & _).
  split; [exact H|]. vm_compute. reflexivity.
Defined.

Lemma latest_on_date_correct_witness :
  exists name ts,
    Sftp.get_latest_file_info_on_date Sample.utc Sample.connector "/data"
      Sample.oct12 None = Ok (Some name, Some ts).
Proof.
  apply (latest_on_date_correct Sample.utc Sample.connector "/data" Sample.oct12
           None [Sample.old_csv; Sample.new_csv; Sample.tie_csv] eq_refl).
  exists Sample.old_csv. split; [now left|reflexivity].
Defined.

Lemma latest_before_date_correct_witness :
  exists name ts,
    Sftp.get_latest_file_info_before_date Sample.utc Sample.connector "/data"
      Sample.oct14 None = Ok (Some name, Some ts).
Proof.
  apply (latest_before_date_correct Sample.utc Sample.connector "/data" Sample.oct14
           None [Sample.old_csv; Sample.new_csv; Sample.tie_csv] eq_refl).
  exists Sample.old_csv. split; [now left|]. vm_compute. reflexivity.
Defined.

(** ** The format of the time stamp *)

Lemma all_from_spec (P : Z -> bool) (n : nat) : forall lo,
  all_from P lo n = true ->
  forall z, lo <= z < lo + Z.of_nat n -> P z = true.
Proof.
  induction n as [|k IH]; intros lo H z Hz; [lia|].
  cbn [all_from] in H. apply andb_prop in H. destruct H as [H0 Hr].
  destruct (Z.eq_dec z lo) as [->|Hne]; [exact H0|].
  apply (IH (lo + 1) Hr). lia.
Qed.

Lemma range_check (P : Z -> bool) (lo n : Z) :
  all_from P lo (Z.to_nat n) = true ->
  forall z, lo <= z < lo + n -> P z = true.
Proof.
  intros H z Hz. apply (all_from_spec P (Z.to_nat n) lo H). lia.
Qed.

Lemma pad2_two_digits n : 0 <= n < 100 -> two_digits (Datetime.pad2 n) = true.
Proof.
  intros H. apply (range_check (fun n => two_digits (Datetime.pad2 n)) 0 100);
    [vm_compute; reflexivity|lia].
Qed.

Lemma pad4_four_digits y : 1000 <= y < 10000 -> four_digits (Datetime.pad4 y) = true.
Proof.
  intros H. apply (range_check (fun n => four_digits (Datetime.pad4 n)) 1000 9000);
    [vm_compute; reflexivity|lia].
Qed.

(** From 1969-12-30 to 2106-02-10 the civil fields are a four-digit
    year, a month and a day of the month. *)
Lemma civil_fields_in_range days :
  -2 <= days < 49715 -> civil_in_range days = true.
Proof.
  intros H. apply (range_check civil_in_range (-2) 49717);
    [vm_compute; reflexivity|lia].
Qed.

Lemma two_digits_inv s :
  two_digits s = true ->
  exists a b, s = String a (String b EmptyString)
    /\ Str.is_digit a = true /\ Str.is_digit b = true.
Proof.
  destruct s as [|a [|b [|c s]]]; try discriminate. cbn [two_digits].
  intros H. apply andb_prop in H. destruct H. eauto.
Qed.

Lemma four_digits_inv s :
  four_digits s = true ->
  exists a b c d, s = String a (String b (String c (String d EmptyString)))
    /\ Str.is_digit a = true /\ Str.is_digit b = true
    /\ Str.is_digit c = true /\ Str.is_digit d = true.
Proof.
  destruct s as [|a [|b [|c [|d [|e s]]]]]; try discriminate. cbn [four_digits].
  intros H. apply andb_prop in H. destruct H as [H Hd].
  apply andb_prop in H. destruct H as [H Hc].
  apply andb_prop in H. destruct H as [Ha Hb].
  exists a, b, c, d. repeat split; assumption.
Qed.

Lemma strftime_shape dt :
  -172800 <= dt < 4295376000 ->
  is_mdY_HMS (Datetime.strftime_mdY_HMS dt) = true.
Proof.
  intros H. unfold Datetime.strftime_mdY_HMS.
  assert (Hd : -2 <= Datetime.date_of dt < 49715).
  { unfold Datetime.date_of. split.
    - apply Z.div_le_lower_bound; lia.
    - apply Z.div_lt_upper_bound; lia. }
  pose proof (civil_fields_in_range _ Hd) as Hc. unfold civil_in_range in Hc.
  destruct (Datetime.civil_from_days (Datetime.date_of dt)) as [[y m] d].
  repeat (apply andb_prop in Hc; destruct Hc as [Hc ?]).
  assert (Hs : 0 <= dt mod 86400 < 86400) by (apply Z.mod_pos_bound; lia).
  set (sod := dt mod 86400) in *.
  assert (Hh : 0 <= sod / 3600 < 100).
  { split; [apply Z.div_pos; lia|apply Z.div_lt_upper_bound; lia]. }
  assert (Hm' : 0 <= sod mod 3600 < 3600) by (apply Z.mod_pos_bound; lia).
  assert (Hmi : 0 <= sod mod 3600 / 60 < 100).
  { split; [apply Z.div_pos; lia|apply Z.div_lt_upper_bound; lia]. }
  assert (Hse : 0 <= sod mod 60 < 100).
  { pose proof (Z.mod_pos_bound sod 60). lia. }
  destruct (two_digits_inv _ (pad2_two_digits m ltac:(lia))) as (m1 & m2 & -> & ? & ?).
  destruct (two_digits_inv _ (pad2_two_digits d ltac:(lia))) as (d1 & d2 & -> & ? & ?).
  destruct (four_digits_inv _ (pad4_four_digits y ltac:(lia)))
    as (y1 & y2 & y3 & y4 & -> & ? & ? & ? & ?).
  destruct (two_digits_inv _ (pad2_two_digits _ Hh)) as (h1 & h2 & -> & ? & ?).
  destruct (two_digits_inv _ (pad2_two_digits _ Hmi)) as (n1 & n2 & -> & ? & ?).
  destruct (two_digits_inv _ (pad2_two_digits _ Hse)) as (e1 & e2 & -> & ? & ?).
  cbn. repeat match goal with E : Str.is_digit _ = true |- _ => rewrite E; clear E end.
  reflexivity.
Qed.

(** ** Where the candidates come from *)

Lemma in_collected self folder lowered entries f :
  In f (flat_map (Sftp.subfolder_files self folder)
          (filter (Sftp.name_matches lowered) (filter Sftp.is_dir entries))) ->
  exists d sub,
    In d entries /\ Sftp.is_dir d = true /\ Sftp.name_matches lowered d = true
    /\ Sftp.list_files_in_folder self
         (Str.rstrip_chars "/" folder ++ "/" ++ Sftp.filename d) = Ok sub
    /\ In f sub /\ Sftp.is_reg f = true.
Proof.
  intros H. apply in_flat_map in H. destruct H as (d & Hd & Hf).
  apply filter_In in Hd. destruct Hd as [Hd Hm].
  apply filter_In in Hd. destruct Hd as [Hd Hdir].
  unfold Sftp.subfolder_files in Hf.
  destruct (Sftp.list_files_in_folder self _) as [sub|e] eqn:E; [|destruct Hf].
  apply filter_In in Hf. destruct Hf as [Hf Hr].
  exists d, sub. repeat split; assumption.
Qed.

Lemma collect_origin self folder filters files f :
  Sftp._collect_candidate_files self folder filters = Ok files ->
  In f files ->
  exists entries,
    Sftp.list_files_in_folder self folder = Ok entries
    /\ ((In f entries /\ Sftp.is_reg f = true
         /\ (Sftp.lowered_filters filters = []
             \/ Sftp.name_matches (Sftp.lowered_filters filters) f = true))
        \/ (Sftp.lowered_filters filters <> []
            /\ exists d sub,
                 In d entries /\ Sftp.is_dir d = true
                 /\ Sftp.name_matches (Sftp.lowered_filters filters) d = true
                 /\ Sftp.list_files_in_folder self
                      (Str.rstrip_chars "/" folder ++ "/" ++ Sftp.filename d) = Ok sub
                 /\ In f sub /\ Sftp.is_reg f = true)).
Proof.
  unfold Sftp._collect_candidate_files.
  destruct (Sftp.list_files_in_folder self folder) as [entries|e]; [|discriminate].
  cbn [bind]. intros H Hin. exists entries. split; [reflexivity|].
  destruct (Sftp.lowered_filters filters) as [|s0 ls] eqn:El.
  - cbn [Py.is_nil negb andb] in H.
    destruct (filter Sftp.is_reg entries) as [|g r] eqn:Ef;
      cbn [Py.is_nil negb] in H; injection H as <-; [destruct Hin|].
    left. rewrite <- Ef in Hin. apply filter_In in Hin. destruct Hin. auto.
  - assert (Hsub :
      In f (flat_map (Sftp.subfolder_files self folder)
              (filter (Sftp.name_matches (s0 :: ls)) (filter Sftp.is_dir entries))) ->
      (In f entries /\ Sftp.is_reg f = true
       /\ (s0 :: ls = [] \/ Sftp.name_matches (s0 :: ls) f = true))
      \/ (s0 :: ls <> []
          /\ exists d sub,
               In d entries /\ Sftp.is_dir d = true
               /\ Sftp.name_matches (s0 :: ls) d = true
               /\ Sftp.list_files_in_folder self
                    (Str.rstrip_chars "/" folder ++ "/" ++ Sftp.filename d) = Ok sub
               /\ In f sub /\ Sftp.is_reg f = true)).
    { intros Hc. right. split; [discriminate|]. now apply in_collected. }
    cbn [Py.is_nil negb andb] in H.
    destruct (filter Sftp.is_reg entries) as [|g r] eqn:Ef; cbn [Py.is_nil negb] in H.
    + destruct (flat_map _ _) as [|c cs] eqn:Ec;
        cbn [Py.is_nil negb] in H; injection H as <-; [destruct Hin|].
      apply Hsub. exact Hin.
    + destruct (filter (Sftp.name_matches (s0 :: ls)) (g :: r)) as [|h t] eqn:Em;
        cbn [Py.is_nil negb] in H.
      * destruct (flat_map _ _) as [|c cs] eqn:Ec;
          cbn [Py.is_nil negb] in H; injection H as <-; [destruct Hin|].
        apply Hsub. exact Hin.
      * injection H as <-. left. rewrite <- Em in Hin.
        apply filter_In in Hin. destruct Hin as [Hin Hm].
        rewrite <- Ef in Hin. apply filter_In in Hin. destruct Hin. auto.
Qed.

(** A candidate is an entry of some listing of the session. *)
Lemma collect_listed self folder filters files f :
  Sftp._collect_candidate_files self folder filters = Ok files ->
  In f files ->
  exists p l, Sftp.list_files_in_folder self p = Ok l /\ In f l.
Proof.
  intros H Hin. destruct (collect_origin _ _ _ _ _ H Hin) as (entries & Hl & [Ha|Hb]).
  - exists folder, entries. tauto.
  - destruct Hb as (_ & d & sub & _ & _ & _ & Hs & Hf & _). eauto.
Qed.

(** The candidates are collected whenever the folder itself is listed,
    and their collection fails exactly as that listing fails. *)
Lemma collect_total self folder filters :
  match Sftp.list_files_in_folder self folder with
  | Ok _ => exists files, Sftp._collect_candidate_files self folder filters = Ok files
  | Raise e => Sftp._collect_candidate_files self folder filters = Raise e
  end.
Proof.
  unfold Sftp._collect_candidate_files.
  destruct (Sftp.list_files_in_folder self folder) as [entries|e]; [|reflexivity].
  cbn [bind].
  repeat match goal with
         | |- context [if ?b then _ else _] => destruct b
         end; eauto.
Qed.

Lemma pick_shape utc p files :
  pick utc p files = Ok (None, None)
  \/ exists f, In f files /\ pick utc p files
                 = Ok (Some (Sftp.filename f), Some (stamp utc f)).
Proof.
  unfold pick. destruct files as [|f0 r0]; [now left|]. cbn [Py.is_nil].
  destruct (filter p (f0 :: r0)) as [|f r] eqn:E; [now left|]. cbn [Py.is_nil].
  right. exists (Py.max_from Sftp.st_mtime f r). split; [|apply latest_of_cons].
  assert (H : In (Py.max_from Sftp.st_mtime f r) (f :: r)) by apply max_from_in.
  rewrite <- E in H. apply filter_In in H. tauto.
Qed.

Lemma selection_paired utc self folder filters p
    (op : result (option string * option string)) :
  (forall files, Sftp._collect_candidate_files self folder filters = Ok files ->
                 op = pick utc p files) ->
  (forall e, Sftp._collect_candidate_files self folder filters = Raise e ->
             op = Raise e) ->
  (exists e, op = Raise e /\ Sftp.list_files_in_folder self folder = Raise e)
  \/ op = Ok (None, None)
  \/ (exists files f,
        Sftp._collect_candidate_files self folder filters = Ok files
        /\ In f files
        /\ op = Ok (Some (Sftp.filename f), Some (stamp utc f))).
Proof.
  intros Hok Herr. pose proof (collect_total self folder filters) as Ht.
  destruct (Sftp.list_files_in_folder self folder) as [entries|e] eqn:El.
  - destruct Ht as (files & Hc). rewrite (Hok _ Hc).
    destruct (pick_shape utc p files) as [Hn|(f & Hin & Hs)].
    + right. left. exact Hn.
    + right. right. exists files, f. auto.
  - left. exists e. split; [now apply Herr|reflexivity].
Qed.

Lemma stamp_shape utc f :
  (forall t, -86400 <= utc t <= 86400) ->
  0 <= Sftp.st_mtime f < 4294967296 -> is_mdY_HMS (stamp utc f) = true.
Proof.
  intros Hb H. unfold stamp, Datetime.fromtimestamp. apply strftime_shape.
  pose proof (Hb (Sftp.st_mtime f)). lia.
Qed.

Section Shape.

Variable utc : Z -> Z.
Variable self : Sftp.SFTPConnector.
Variable folder : string.
Variable filters : option (list string).

Lemma selection_shape p (op : result (option string * option string)) :
  (forall files, Sftp._collect_candidate_files self folder filters = Ok files ->
                 op = pick utc p files) ->
  (forall e, Sftp._collect_candidate_files self folder filters = Raise e ->
             op = Raise e) ->
  paired self folder op
  /\ ((forall t, -86400 <= utc t <= 86400) -> mtimes_in_range self ->
      well_shaped self folder op).
Proof.
  intros Hok Herr.
  destruct (selection_paired utc self folder filters p op Hok Herr)
    as [H|[H|(files & f & Hc & Hin & H)]].
  - split; [now left|]. intros _ _. now left.
  - split; [right; now left|]. intros _ _. right. now left.
  - split; [right; right; eauto|]. intros Hb Hr. right. right.
    exists (Sftp.filename f), (stamp utc f). split; [exact H|].
    apply stamp_shape; [exact Hb|].
    destruct (collect_listed _ _ _ _ _ Hc Hin) as (q & l & Hl & Hfl).
    specialize (Hr _ _ Hl). rewrite Forall_forall in Hr. now apply Hr.
Qed.

(** C10. Each of the three selection functions either raises the
    failure of the listing of the folder, or returns [(None, None)], or
    returns a name and a time together: a pair with exactly one
    component set is never returned. The time is written
    MM/DD/YYYY HH:MM:SS, for modification times in the unsigned 32-bit
    range of the protocol and a local clock within a day of UTC, where
    the year has four digits. *)
Theorem selection_both_or_neither d :
  (paired self folder (Sftp.get_latest_file_info utc self folder filters)
   /\ paired self folder
        (Sftp.get_latest_file_info_on_date utc self folder d filters)
   /\ paired self folder
        (Sftp.get_latest_file_info_before_date utc self folder d filters))
  /\ ((forall t, -86400 <= utc t <= 86400) -> mtimes_in_range self ->
      well_shaped self folder (Sftp.get_latest_file_info utc self folder filters)
      /\ well_shaped self folder
           (Sftp.get_latest_file_info_on_date utc self folder d filters)
      /\ well_shaped self folder
           (Sftp.get_latest_file_info_before_date utc self folder d filters)).
Proof.
  assert (H1 := selection_shape (fun _ => true)
                  (Sftp.get_latest_file_info utc self folder filters)).
  assert (H2 := selection_shape (fun f => Sftp.to_local_date utc f =? d)
                  (Sftp.get_latest_file_info_on_date utc self folder d filters)).
  assert (H3 := selection_shape (fun f => Sftp.to_local_date utc f <? d)
                  (Sftp.get_latest_file_info_before_date utc self folder d filters)).
  destruct H1 as [P1 W1].
  { intros files H. now apply latest_pick. }
  { intros e H. unfold Sftp.get_latest_file_info. now rewrite H. }
  destruct H2 as [P2 W2].
  { intros files H. now apply on_date_pick. }
  { intros e H. unfold Sftp.get_latest_file_info_on_date. now rewrite H. }
  destruct H3 as [P3 W3].
  { intros files H. now apply before_date_pick. }
  { intros e H. unfold Sftp.get_latest_file_info_before_date. now rewrite H. }
  split; [tauto|]. intros Hb Hr. auto.
Qed.

End Shape.

Lemma sample_mtimes_in_range_aux p l :
  Sftp.list_files_in_folder Sample.connector p = Ok l ->
  Forall (fun e => 0 <= Sftp.st_mtime e < 4294967296) l.
Proof.
  unfold Sftp.list_files_in_folder, Sample.connector, Sample.server.
  cbn [Sftp.sftp Sftp.sftp_closed Sftp.listdir_attr].
  repeat match goal with
         | |- context [String.eqb p ?s] => destruct (String.eqb p s)
         end;
    intros H; try discriminate; injection H as <-;
    repeat constructor; cbn; lia.
Qed.

Lemma sample_modes_set_aux p l :
  Sftp.list_files_in_folder Sample.connector p = Ok l ->
  Forall (fun e => Sftp.st_mode e <> None) l.
Proof.
  unfold Sftp.list_files_in_folder, Sample.connector, Sample.server.
  cbn [Sftp.sftp Sftp.sftp_closed Sftp.listdir_attr].
  repeat match goal with
         | |- context [String.eqb p ?s] => destruct (String.eqb p s)
         end;
    intros H; try discriminate; injection H as <-;
    repeat constructor; cbn; discriminate.
Qed.

Lemma selection_both_or_neither_witness :
  well_shaped Sample.connector "/data"
    (Sftp.get_latest_file_info Sample.utc Sample.connector "/data" None)
  /\ well_shaped Sample.connector "/data"
       (Sftp.get_latest_file_info_on_date Sample.utc Sample.connector "/data"
          Sample.oct12 None)
  /\ well_shaped Sample.connector "/data"
       (Sftp.get_latest_file_info_before_date Sample.utc Sample.connector "/data"
          Sample.oct12 None).
Proof.
  apply (selection_both_or_neither Sample.utc Sample.connector "/data" None
           Sample.oct12).
  - intros t. unfold Sample.utc. lia.
  - intros p l. apply sample_mtimes_in_range_aux.
Defined.

(** ** Lower case and filters *)

Lemma lower_char_idem c : Str.lower_char (Str.lower_char c) = Str.lower_char c.
Proof. destruct c as [[] [] [] [] [] [] [] []]; reflexivity. Qed.

Lemma lower_idem s : Str.lower (Str.lower s) = Str.lower s.
Proof.
  induction s as [|c r IH]; [reflexivity|].
  cbn [Str.lower]. now rewrite lower_char_idem, IH.
Qed.

Lemma nonempty_lower s : Str.nonempty (Str.lower s) = Str.nonempty s.
Proof. now destruct s. Qed.

Lemma nonempty_false s : Str.nonempty s = false -> s = EmptyString.
Proof. destruct s; [reflexivity|discriminate]. Qed.

Lemma prefix_empty s : String.prefix EmptyString s = true.
Proof. now destruct s. Qed.

Lemma name_matches_filters l e :
  Sftp.name_matches (Sftp.lowered_filters (Some l)) e = true ->
  starts_with_filter (Sftp.filename e) l = true.
Proof.
  unfold Sftp.name_matches, Sftp.lowered_filters, starts_with_filter.
  intros H. apply existsb_exists in H. destruct H as (s & Hs & Hp).
  apply in_map_iff in Hs. destruct Hs as (s0 & <- & Hs0).
  apply filter_In in Hs0. destruct Hs0 as [Hs0 _].
  apply existsb_exists. eauto.
Qed.

Lemma no_lowered_filters l name :
  l <> [] -> Sftp.lowered_filters (Some l) = [] ->
  starts_with_filter name l = true.
Proof.
  destruct l as [|s r]; [intros H; now elim H|]. intros _.
  unfold Sftp.lowered_filters. cbn [filter].
  destruct (Str.nonempty s) eqn:E; [discriminate|]. intros _.
  apply nonempty_false in E. subst s. unfold starts_with_filter. cbn [existsb].
  unfold Str.startswith. cbn [Str.lower]. now rewrite prefix_empty.
Qed.

Lemma candidate_origin self folder l files f :
  l <> [] ->
  Sftp._collect_candidate_files self folder (Some l) = Ok files ->
  In f files ->
  from_folder self folder l f \/ from_subfolder self folder l f.
Proof.
  intros Hne H Hin.
  destruct (collect_origin _ _ _ _ _ H Hin) as (entries & Hl & [Ha|Hb]).
  - left. destruct Ha as (Hi & Hr & Hm). exists entries.
    repeat split; auto.
    destruct Hm as [Hm|Hm]; [now apply no_lowered_filters|now apply name_matches_filters].
  - right. destruct Hb as (_ & d & sub & Hd & Hdir & Hm & Hs & Hf & Hr).
    exists entries, d, sub. repeat split; auto. now apply name_matches_filters.
Qed.

Lemma starts_with_filter_mono name p l :
  In p l -> starts_with_filter name [Str.lower p] = true ->
  starts_with_filter name l = true.
Proof.
  unfold starts_with_filter. cbn [existsb]. rewrite orb_false_r, lower_idem.
  intros Hin H. apply existsb_exists. eauto.
Qed.

Lemma collect_lowered self folder f1 f2 :
  Sftp.lowered_filters f1 = Sftp.lowered_filters f2 ->
  Sftp._collect_candidate_files self folder f1
  = Sftp._collect_candidate_files self folder f2.
Proof. intros H. unfold Sftp._collect_candidate_files. now rewrite H. Qed.

Lemma lowered_single_lower p :
  Sftp.lowered_filters (Some [Str.lower p]) = Sftp.lowered_filters (Some [p]).
Proof.
  unfold Sftp.lowered_filters. cbn [filter]. rewrite nonempty_lower.
  destruct (Str.nonempty p); [|reflexivity]. cbn [map]. now rewrite lower_idem.
Qed.

(** ** The dictionary of the per-prefix variant *)

Section Dict.

Context {V : Type}.

Lemma dict_get_set (d : Py.dict V) k v k' :
  Py.dict_get (Py.dict_set d k v) k'
  = if String.eqb k k' then Some v else Py.dict_get d k'.
Proof.
  induction d as [|[k0 v0] r IH]; cbn [Py.dict_set Py.dict_get].
  - reflexivity.
  - destruct (String.eqb k0 k) eqn:E0.
    + apply String.eqb_eq in E0. subst k0. cbn [Py.dict_get].
      now destruct (String.eqb k k').
    + cbn [Py.dict_get]. rewrite IH.
      destruct (String.eqb k0 k') eqn:E1; [|reflexivity].
      apply String.eqb_eq in E1. subst k'.
      rewrite String.eqb_sym, E0. reflexivity.
Qed.

Lemma keys_set_in (d : Py.dict V) k v k' :
  In k' (Py.keys (Py.dict_set d k v)) <-> In k' (Py.keys d) \/ k' = k.
Proof.
  unfold Py.keys. induction d as [|[k0 v0] r IH]; cbn [Py.dict_set map fst In].
  - intuition.
  - destruct (String.eqb k0 k) eqn:E0; cbn [map fst In].
    + apply String.eqb_eq in E0. subst k0. intuition.
    + rewrite IH. intuition.
Qed.

Lemma keys_set_nodup (d : Py.dict V) k v :
  NoDup (Py.keys d) -> NoDup (Py.keys (Py.dict_set d k v)).
Proof.
  induction d as [|[k0 v0] r IH]; cbn [Py.dict_set].
  - intros _. repeat constructor. intros [].
  - intros H. inversion H as [|? ? Hn Hr]; subst.
    destruct (String.eqb k0 k) eqn:E0.
    + exact H.
    + change (NoDup (k0 :: Py.keys (Py.dict_set r k v))). constructor; [|now apply IH].
      intros Hin. apply keys_set_in in Hin. destruct Hin as [Hin| ->].
      * now apply Hn.
      * rewrite String.eqb_refl in E0. discriminate.
Qed.

End Dict.

(** ** The per-prefix variant *)

Section PerPrefix.

Variable utc : Z -> Z.
Variable self : Sftp.SFTPConnector.
Variable folder : string.
Variable od : option Datetime.date.

Lemma per_prefix_step_eq acc p :
  Sftp.per_prefix_step utc self folder od acc p
  = (r <- single_selection utc self folder od p ;; Ok (Py.dict_set acc p r)).
Proof.
  unfold Sftp.per_prefix_step, single_selection, Sftp.get_latest_file_info,
    Sftp.get_latest_file_info_on_date.
  destruct (Sftp._collect_candidate_files self folder (Some [p])) as [files|e];
    cbn [bind]; [|now destruct od].
  destruct files as [|f r]; cbn [Py.is_nil]; [now destruct od|].
  destruct od as [today|].
  - destruct (filter _ (f :: r)) as [|g t]; cbn [Py.is_nil bind]; [reflexivity|].
    now rewrite latest_of_cons.
  - now rewrite latest_of_cons.
Qed.

Lemma per_prefix_loop_spec ps : forall acc d,
  Sftp.per_prefix_loop utc self folder od ps acc = Ok d ->
  (forall k, ~ In k ps -> Py.dict_get d k = Py.dict_get acc k)
  /\ (forall k, In k ps ->
        exists r, single_selection utc self folder od k = Ok r
                  /\ Py.dict_get d k = Some r)
  /\ (NoDup (Py.keys acc) -> NoDup (Py.keys d))
  /\ (forall k, In k (Py.keys d) <-> In k (Py.keys acc) \/ In k ps).
Proof.
  induction ps as [|p r IH]; intros acc d H.
  - cbn in H. injection H as <-.
    split; [reflexivity|]. split; [intros k []|]. split; [auto|].
    intros k. cbn [In]. tauto.
  - cbn [Sftp.per_prefix_loop] in H. rewrite per_prefix_step_eq in H.
    destruct (single_selection utc self folder od p) as [rp|e] eqn:Es;
      cbn [bind] in H; [|discriminate].
    destruct (IH _ _ H) as (H1 & H2 & H3 & H4).
    split; [|split; [|split]].
    + intros k Hk. rewrite H1 by (intros Hin; apply Hk; now right).
      rewrite dict_get_set. destruct (String.eqb p k) eqn:E; [|reflexivity].
      apply String.eqb_eq in E. elim Hk. now left.
    + intros k Hk. destruct (in_dec string_dec k r) as [Hin|Hnin].
      * now apply H2.
      * destruct Hk as [<-|Hk]; [|contradiction].
        exists rp. split; [exact Es|]. rewrite (H1 _ Hnin), dict_get_set.
        now rewrite String.eqb_refl.
    + intros Hn. apply H3. now apply keys_set_nodup.
    + intros k. rewrite H4, keys_set_in. cbn [In]. intuition.
Qed.

Lemma per_prefix_loop_total ps :
  (forall p, exists r, single_selection utc self folder od p = Ok r) ->
  forall acc, exists d, Sftp.per_prefix_loop utc self folder od ps acc = Ok d.
Proof.
  intros Ht. induction ps as [|p r IH]; intros acc; [now exists acc|].
  cbn [Sftp.per_prefix_loop]. rewrite per_prefix_step_eq.
  destruct (Ht p) as (rp & ->). cbn [bind]. apply IH.
Qed.

Lemma single_selection_total p entries :
  Sftp.list_files_in_folder self folder = Ok entries ->
  exists r, single_selection utc self folder od p = Ok r.
Proof.
  intros Hl. pose proof (collect_total self folder (Some [p])) as Ht.
  rewrite Hl in Ht. destruct Ht as (files & Hc).
  unfold single_selection. destruct od as [d|].
  - rewrite (on_date_pick utc _ _ d _ _ Hc).
    destruct (pick_shape utc (fun f => Sftp.to_local_date utc f =? d) files)
      as [->|(f & _ & ->)]; eauto.
  - rewrite (latest_pick utc _ _ _ _ Hc).
    destruct (pick_shape utc (fun _ => true) files) as [->|(f & _ & ->)]; eauto.
Qed.

Lemma single_selection_lower p :
  single_selection utc self folder od (Str.lower p)
  = single_selection utc self folder od p.
Proof.
  unfold single_selection, Sftp.get_latest_file_info,
    Sftp.get_latest_file_info_on_date.
  rewrite (collect_lowered self folder (Some [Str.lower p]) (Some [p])
             (lowered_single_lower p)).
  reflexivity.
Qed.

Lemma in_lowered_prefixes prefixes k :
  In k (map Str.lower (filter Str.nonempty prefixes))
  <-> exists p, In p prefixes /\ p <> EmptyString /\ k = Str.lower p.
Proof.
  rewrite in_map_iff. split.
  - intros (p & <- & Hp). apply filter_In in Hp. destruct Hp as [Hp Hn].
    exists p. repeat split; auto. intros ->. discriminate.
  - intros (p & Hp & Hn & ->). exists p. split; [reflexivity|].
    apply filter_In. split; [exact Hp|]. destruct p; [now elim Hn|reflexivity].
Qed.

(** C9, as the code has it. [get_latest_files_per_prefix] returns a
    dictionary whenever the folder can be listed; its keys are the
    lower-cased non-empty prefixes, each once; and for every non-empty
    prefix the entry under its lower-cased key is the result of the
    selection run with that prefix as the only filter (the latest file of
    any date, or of [on_date] when it is given). Empty prefixes get no
    entry. *)
Theorem per_prefix_correct prefixes :
  ((exists entries, Sftp.list_files_in_folder self folder = Ok entries) ->
   exists d, Sftp.get_latest_files_per_prefix utc self folder prefixes od = Ok d)
  /\ forall d,
       Sftp.get_latest_files_per_prefix utc self folder prefixes od = Ok d ->
       NoDup (Py.keys d)
       /\ (forall k, In k (Py.keys d) <->
             exists p, In p prefixes /\ p <> EmptyString /\ k = Str.lower p)
       /\ (forall p, In p prefixes -> p <> EmptyString ->
             exists r, Py.dict_get d (Str.lower p) = Some r
                       /\ single_selection utc self folder od p = Ok r).
Proof.
  unfold Sftp.get_latest_files_per_prefix. split.
  - intros (entries & Hl). apply per_prefix_loop_total.
    intros p. now apply (single_selection_total p entries).
  - intros d H. destruct (per_prefix_loop_spec _ _ _ H) as (_ & H2 & H3 & H4).
    split; [apply H3; constructor|]. split.
    + intros k. rewrite H4, <- in_lowered_prefixes. cbn. tauto.
    + intros p Hp Hn.
      destruct (H2 (Str.lower p)) as (r & Hs & Hg).
      { apply in_lowered_prefixes. eauto. }
      exists r. split; [exact Hg|]. now rewrite <- single_selection_lower.
Qed.

End PerPrefix.

Lemma per_prefix_correct_witness :
  exists r,
    Py.dict_get
      [("new", (Some "new.csv", Some "10/14/2025 09:30:00"));
       ("old", (Some "old.csv", Some "10/12/2025 08:00:00"))]
      (Str.lower "OLD") = Some r
    /\ single_selection Sample.utc Sample.connector "/data" None "OLD" = Ok r.
Proof.
  destruct (per_prefix_correct Sample.utc Sample.connector "/data" None
              ["New"; ""; "OLD"; "new"]) as [_ H].
  apply (H _ eq_refl); [cbn; tauto|discriminate].
Defined.

(** C9, as stated, fails on an empty prefix: the dictionary has no entry
    for it, although the selection with that prefix as the only filter
    finds a file. One prefix, no result. *)
Lemma per_prefix_empty_prefix_counterexample :
  exists d,
    Sftp.get_latest_files_per_prefix Sample.utc Sample.connector "/data"
      [EmptyString] None = Ok d
    /\ Py.dict_get d (Str.lower EmptyString) = None
    /\ List.length d <> List.length [EmptyString]
    /\ single_selection Sample.utc Sample.connector "/data" None EmptyString
       = Ok (Some "new.csv", Some "10/14/2025 09:30:00").
Proof.
  exists []. repeat split; try reflexivity. discriminate.
Qed.

(** ** Names and filters *)

Section Names.

Variable utc : Z -> Z.
Variable self : Sftp.SFTPConnector.
Variable folder : string.

Lemma picked_candidate p filters files name ts :
  Sftp._collect_candidate_files self folder filters = Ok files ->
  pick utc p files = Ok (Some name, ts) ->
  exists f, In f files /\ Sftp.filename f = name.
Proof.
  intros _ H. apply pick_some in H. destruct H as (f & Hin & _ & Hn & _). eauto.
Qed.

Lemma selected_candidate filters name :
  (exists ts, Sftp.get_latest_file_info utc self folder filters = Ok (Some name, ts))
  \/ (exists d ts, Sftp.get_latest_file_info_on_date utc self folder d filters
                   = Ok (Some name, ts))
  \/ (exists d ts, Sftp.get_latest_file_info_before_date utc self folder d filters
                   = Ok (Some name, ts)) ->
  exists files f,
    Sftp._collect_candidate_files self folder filters = Ok files
    /\ In f files /\ Sftp.filename f = name.
Proof.
  destruct (Sftp._collect_candidate_files self folder filters) as [files|e] eqn:Hc.
  - intros [(ts & H)|[(d & ts & H)|(d & ts & H)]].
    + rewrite (latest_pick utc _ _ _ _ Hc) in H.
      destruct (picked_candidate _ _ _ _ _ Hc H) as (f & ? & ?). eauto.
    + rewrite (on_date_pick utc _ _ d _ _ Hc) in H.
      destruct (picked_candidate _ _ _ _ _ Hc H) as (f & ? & ?). eauto.
    + rewrite (before_date_pick utc _ _ d _ _ Hc) in H.
      destruct (picked_candidate _ _ _ _ _ Hc H) as (f & ? & ?). eauto.
  - unfold Sftp.get_latest_file_info, Sftp.get_latest_file_info_on_date,
      Sftp.get_latest_file_info_before_date. rewrite Hc. cbn [bind].
    intros [(ts & H)|[(d & ts & H)|(d & ts & H)]]; discriminate.
Qed.

Lemma origin_mono p l f :
  In p l ->
  from_folder self folder [Str.lower p] f \/ from_subfolder self folder [Str.lower p] f ->
  from_folder self folder l f \/ from_subfolder self folder l f.
Proof.
  intros Hp [(entries & Hl & Hi & Hr & Hm)|(entries & d & sub & Hl & Hd & Hdir & Hm & Hs & Hf & Hr)].
  - left. exists entries. repeat split; auto. now apply (starts_with_filter_mono _ p).
  - right. exists entries, d, sub. repeat split; auto.
    now apply (starts_with_filter_mono _ p).
Qed.

(** C1, as the code has it. With a non-empty list of filters, a name
    returned by any of the four selection operations is the name of a
    regular file that is either listed in the folder itself and starts,
    without regard to case, with one of the filters, or listed directly
    inside a sub-directory of the folder whose name starts, without
    regard to case, with one of the filters. The files taken from such a
    sub-directory are not filtered by name. *)
Theorem returned_name_origin filters name :
  filters <> [] ->
  returned_name utc self folder filters name ->
  exists f, Sftp.filename f = name
    /\ (from_folder self folder filters f \/ from_subfolder self folder filters f).
Proof.
  intros Hne [H|[H|[H|H]]].
  - destruct (selected_candidate (Some filters) name) as (files & f & Hc & Hin & Hn);
      [now left|].
    exists f. split; [exact Hn|]. now apply (candidate_origin _ _ _ files).
  - destruct (selected_candidate (Some filters) name) as (files & f & Hc & Hin & Hn);
      [right; now left|].
    exists f. split; [exact Hn|]. now apply (candidate_origin _ _ _ files).
  - destruct (selected_candidate (Some filters) name) as (files & f & Hc & Hin & Hn);
      [right; now right|].
    exists f. split; [exact Hn|]. now apply (candidate_origin _ _ _ files).
  - destruct H as (od & dict & k & ts & Hd & Hg).
    unfold Sftp.get_latest_files_per_prefix in Hd.
    destruct (per_prefix_loop_spec utc self folder od _ _ _ Hd) as (H1 & H2 & _ & _).
    destruct (in_dec string_dec k (map Str.lower (filter Str.nonempty filters)))
      as [Hin|Hnin].
    + destruct (H2 _ Hin) as (r & Hs & Hg'). rewrite Hg in Hg'. injection Hg' as <-.
      apply in_lowered_prefixes in Hin. destruct Hin as (p & Hp & Hpn & ->).
      destruct (selected_candidate (Some [Str.lower p]) name)
        as (files & f & Hc & Hin & Hn).
      { unfold single_selection in Hs. destruct od as [d|].
        - right. left. eauto.
        - left. eauto. }
      exists f. split; [exact Hn|]. apply (origin_mono p); [exact Hp|].
      apply (candidate_origin _ _ _ files); [discriminate|exact Hc|exact Hin].
    + rewrite (H1 _ Hnin) in Hg. discriminate.
Qed.

End Names.

Lemma returned_name_origin_witness :
  exists f, Sftp.filename f = "report.csv"
    /\ (from_folder Sample.connector "/base" ["RevAI_Fleet"] f
        \/ from_subfolder Sample.connector "/base" ["RevAI_Fleet"] f).
Proof.
  apply (returned_name_origin Sample.utc Sample.connector "/base" ["RevAI_Fleet"]);
    [discriminate|].
  left. exists (Some "10/14/2025 09:30:00"). vm_compute. reflexivity.
Defined.

(** C1, as stated, fails on the sub-directory fallback: the folder only
    holds the directory RevAI_Fleet, the file report.csv inside it is
    returned, and its name does not start with the filter. *)
Lemma subfolder_name_counterexample :
  Sftp.get_latest_file_info Sample.utc Sample.connector "/base" (Some ["RevAI_Fleet"])
    = Ok (Some "report.csv", Some "10/14/2025 09:30:00")
  /\ Py.dict_get
       (match Sftp.get_latest_files_per_prefix Sample.utc Sample.connector "/base"
                ["RevAI_Fleet"] None with Ok d => d | Raise _ => [] end)
       "revai_fleet" = Some (Some "report.csv", Some "10/14/2025 09:30:00")
  /\ starts_with_filter "report.csv" ["RevAI_Fleet"] = false.
Proof. vm_compute. repeat split; reflexivity. Qed.

(** ** The accounts of the credentials file *)

Lemma or_root_nonempty p : Config.or_root p <> EmptyString.
Proof. unfold Config.or_root. destruct p; discriminate. Qed.

Lemma parse_folder_value_path raw p fs :
  Config._parse_folder_value raw = (p, fs) -> p <> EmptyString.
Proof.
  unfold Config._parse_folder_value. intros H. injection H as <- _.
  apply or_root_nonempty.
Qed.

Lemma Forall_list_set {A} (P : A -> Prop) (l : list A) : forall i v,
  Forall P l -> P v -> Forall P (Config.list_set l i v).
Proof.
  induction l as [|x r IH]; intros i v Hl Hv; [constructor|].
  inversion Hl; subst. destruct i; cbn; constructor; auto.
Qed.

Lemma append_folder_paths st fd :
  paths_nonempty (Config.folders (Config.account st)) ->
  Config.path fd <> EmptyString ->
  paths_nonempty (Config.folders (Config.account (Config.append_folder st fd))).
Proof.
  intros H Hp. unfold Config.append_folder, paths_nonempty. cbn.
  apply Forall_app. split; [exact H|]. now constructor.
Qed.

Lemma process_line_paths st line :
  paths_nonempty (Config.folders (Config.account st)) ->
  paths_nonempty (Config.folders (Config.account (Config.process_line st line))).
Proof.
  intros H. unfold Config.process_line.
  destruct (Str.startswith line "--"); [exact H|].
  destruct (negb (Str.has_char ":" line)).
  - destruct (Config.last_folder st) as [i|]; [|exact H].
    destruct (nth_error _ i) as [fd|] eqn:En; [|exact H].
    destruct (Config._parse_folder_value line) as [_p extra].
    destruct (negb (Py.is_nil extra)); [|exact H].
    cbn. apply Forall_list_set; [exact H|].
    unfold paths_nonempty in H. rewrite Forall_forall in H.
    cbn. apply H. eapply nth_error_In. exact En.
  - destruct (Str.split1 ":" line) as [raw_key rest].
    destruct (Config.key_in _ _).
    { destruct (Config.search_host _); destruct (Config.search_port _); exact H. }
    destruct (String.eqb _ "username"); [exact H|].
    destruct (String.eqb _ "password"); [exact H|].
    destruct (String.eqb _ "port").
    { destruct (Config.first_digits _); exact H. }
    destruct (String.eqb _ "folders"); [exact H|].
    destruct (Config.key_in _ ["folder"]).
    { destruct (Config._parse_folder_value _) as [p fs].
      apply append_folder_paths; [exact H|]. cbn. apply or_root_nonempty. }
    destruct (Config.key_in _ _); [exact H|].
    destruct (Config._parse_folder_value _) as [p fs] eqn:Ep.
    apply append_folder_paths; [exact H|]. cbn.
    exact (parse_folder_value_path _ _ _ Ep).
Qed.

Lemma scan_paths lines : forall st,
  paths_nonempty (Config.folders (Config.account st)) ->
  paths_nonempty (Config.folders (Config.account (fold_left Config.process_line lines st))).
Proof.
  induction lines as [|l r IH]; intros st H; [exact H|].
  cbn [fold_left]. apply IH. now apply process_line_paths.
Qed.

Lemma in_keep_some {A} (l : list (option A)) a :
  In a (Config.keep_some l) -> In (Some a) l.
Proof.
  induction l as [|[x|] r IH]; cbn; [tauto| |].
  - intros [->|H]; [now left|right; now apply IH].
  - intros H. right. now apply IH.
Qed.

Lemma finish_block_spec raw a :
  Config.finish_block raw = Some a ->
  has_credentials a
  /\ Config.host a = Config.host raw /\ Config.username a = Config.username raw
  /\ Config.password a = Config.password raw /\ Config.name a = Config.name raw
  /\ Config.port a <> None
  /\ (Config.folders raw = [] -> Config.folders a = [Config.root_folder])
  /\ (Config.folders raw <> [] -> Config.folders a = Config.folders raw).
Proof.
  unfold Config.finish_block, has_credentials.
  destruct raw as [n fs h p u pw]. cbn.
  destruct p as [p|]; cbn;
    destruct h as [h|]; try discriminate;
    destruct u as [u|]; try discriminate;
    destruct pw as [pw|]; try discriminate;
    destruct fs as [|fd fs]; cbn; intros H; injection H as <-; cbn;
    repeat split; try discriminate; try reflexivity; intros E; now elim E.
Qed.

Lemma finish_block_none raw :
  Config.host raw = None \/ Config.username raw = None \/ Config.password raw = None ->
  Config.finish_block raw = None.
Proof.
  unfold Config.finish_block. destruct raw as [n fs h p u pw]. cbn.
  intros [-> | [-> | ->]]; destruct p; cbn; try reflexivity;
    destruct h; try reflexivity; destruct u; reflexivity.
Qed.

(** C7. Every account returned by [load_multiple_configs_from_file]
    comes from a block of the file whose lines set host, username and
    password; it has them all. A block that lacks one of them gives no
    account. When the lines of the block defined no folder the account
    carries the implicit root folder, with path [/], alone; otherwise it
    carries the folders of the block. Every folder of the account has a
    non-empty path. *)
Theorem loaded_accounts_wellformed file accts a :
  Config.load_multiple_configs_from_file file = Ok accts ->
  In a accts ->
  exists content block first rest,
    file = Some content
    /\ In block (Config.split_blocks (String.length content) content)
    /\ Config.block_lines block = first :: rest
    /\ Config.finish_block (Config.account (Config.scan_block first rest)) = Some a
    /\ has_credentials a
    /\ has_credentials (Config.account (Config.scan_block first rest))
    /\ (Config.folders (Config.account (Config.scan_block first rest)) = [] ->
        Config.folders a = [Config.mkFolder "Root" "/" None])
    /\ (Config.folders (Config.account (Config.scan_block first rest)) <> [] ->
        Config.folders a
        = Config.folders (Config.account (Config.scan_block first rest)))
    /\ Config.folders a <> []
    /\ paths_nonempty (Config.folders a)
    /\ (forall raw',
          Config.host raw' = None \/ Config.username raw' = None
          \/ Config.password raw' = None ->
          Config.finish_block raw' = None).
Proof.
  destruct file as [content|]; [|discriminate]. cbn. intros H Hin.
  injection H as <-. unfold Config.parse_content in Hin.
  apply in_keep_some in Hin. apply in_map_iff in Hin.
  destruct Hin as (block & Hp & Hb). unfold Config.parse_block in Hp.
  destruct (Config.block_lines block) as [|first rest] eqn:El; [discriminate|].
  exists content, block, first, rest.
  destruct (finish_block_spec _ _ Hp) as (Hc & Hh & Hu & Hpw & Hn & Hport & Hroot & Hkeep).
  assert (Hpaths : paths_nonempty
            (Config.folders (Config.account (Config.scan_block first rest)))).
  { unfold Config.scan_block. apply scan_paths. constructor. }
  assert (Hraw : has_credentials (Config.account (Config.scan_block first rest))).
  { unfold has_credentials. rewrite <- Hh, <- Hu, <- Hpw. exact Hc. }
  split; [reflexivity|]. split; [exact Hb|]. split; [exact El|].
  split; [exact Hp|]. split; [exact Hc|]. split; [exact Hraw|].
  split; [exact Hroot|]. split; [exact Hkeep|]. split; [|split].
  - destruct (Config.folders (Config.account (Config.scan_block first rest)))
      as [|fd fs] eqn:Ef.
    + rewrite Hroot by reflexivity. discriminate.
    + rewrite Hkeep by discriminate. discriminate.
  - destruct (Config.folders (Config.account (Config.scan_block first rest)))
      as [|fd fs] eqn:Ef.
    + rewrite Hroot by reflexivity. repeat constructor. discriminate.
    + rewrite Hkeep by discriminate. exact Hpaths.
  - apply finish_block_none.
Qed.

Lemma loaded_accounts_wellformed_witness :
  has_credentials wheels /\ paths_nonempty (Config.folders wheels).
Proof.
  destruct (loaded_accounts_wellformed (Some credentials)
              (Config.parse_content credentials) wheels eq_refl)
    as (content & block & first & rest & _ & _ & _ & _ & Hc & _ & _ & _ & _ & Hp & _).
  - vm_compute. left. reflexivity.
  - split; [exact Hc|exact Hp].
Defined.

(** ** Continuation lines *)

Lemma split1_length sep s a b :
  Str.split1 sep s = (a, Some b) ->
  String.length s = S (String.length a + String.length b).
Proof.
  revert a b. induction s as [|c r IH]; intros a b; cbn [Str.split1]; [discriminate|].
  destruct (Ascii.eqb c sep).
  - intros H. injection H as <- <-. reflexivity.
  - destruct (Str.split1 sep r) as [a' b'] eqn:E. intros H. injection H as <- ->.
    cbn [String.length]. now rewrite (IH _ _ eq_refl).
Qed.

Lemma findall_quoted_shorter fuel : forall v s,
  In s (Config.findall_quoted fuel v) ->
  (String.length s < String.length v)%nat.
Proof.
  induction fuel as [|k IH]; intros v s; cbn [Config.findall_quoted]; [intros []|].
  destruct v as [|c r]; [intros []|].
  assert (Hr : In s (Config.findall_quoted k r) ->
               (String.length s < String.length (String c r))%nat).
  { intros H. apply IH in H. cbn [String.length]. lia. }
  destruct (Config.is_quote c); [|exact Hr].
  destruct (Str.split1 c r) as [content [rest|]] eqn:E; [|exact Hr].
  apply split1_length in E. cbn [String.length]. intros [<-|H]; [lia|].
  apply IH in H. lia.
Qed.

Lemma segment_shorter value s :
  In s (Config.quoted_segments value) ->
  (String.length s < String.length value)%nat /\ Str.nonempty s = true.
Proof.
  unfold Config.quoted_segments. intros H. apply filter_In in H.
  destruct H as [H Hn]. split; [now apply findall_quoted_shorter in H|exact Hn].
Qed.

(** ** The fuel of the scanners is enough *)

Lemma skip_length n : forall s,
  String.length (Config.skip n s) = (String.length s - n)%nat.
Proof.
  induction n as [|k IH]; intros s; cbn [Config.skip].
  - now rewrite Nat.sub_0_r.
  - destruct s as [|c r]; [reflexivity|]. cbn [String.length]. now rewrite IH.
Qed.

Lemma findall_quoted_fuel n : forall m v,
  (String.length v <= n)%nat -> (String.length v <= m)%nat ->
  Config.findall_quoted n v = Config.findall_quoted m v.
Proof.
  induction n as [|k IH]; intros m v Hn Hm.
  - destruct v as [|c r]; [now destruct m|cbn in Hn; lia].
  - destruct m as [|j]; [destruct v as [|c r]; [reflexivity|cbn in Hm; lia]|].
    cbn [Config.findall_quoted]. destruct v as [|c r]; [reflexivity|].
    cbn [String.length] in Hn, Hm.
    assert (Hr : Config.findall_quoted k r = Config.findall_quoted j r)
      by (apply IH; lia).
    destruct (Config.is_quote c); [|exact Hr].
    destruct (Str.split1 c r) as [content [rest|]] eqn:E; [|exact Hr].
    apply split1_length in E. f_equal. apply IH; lia.
Qed.

Lemma split_blocks_fuel n : forall m content,
  (String.length content <= n)%nat -> (String.length content <= m)%nat ->
  Config.split_blocks n content = Config.split_blocks m content.
Proof.
  induction n as [|k IH]; intros m content Hn Hm.
  - destruct content as [|c r]; [now destruct m|cbn in Hn; lia].
  - destruct m as [|j]; [destruct content as [|c r]; [reflexivity|cbn in Hm; lia]|].
    cbn [Config.split_blocks]. destruct content as [|c r]; [reflexivity|].
    cbn [String.length] in Hn, Hm.
    destruct (Nat.leb_spec 5 (Config.leading_dashes (String c r))) as [H5|_].
    + f_equal. apply IH; rewrite skip_length; cbn [String.length]; lia.
    + rewrite (IH j r) by lia. reflexivity.
Qed.

Lemma remove_ci_fuel pat n : forall m s,
  (String.length s <= n)%nat -> (String.length s <= m)%nat ->
  Config.remove_ci n pat s = Config.remove_ci m pat s.
Proof.
  induction n as [|k IH]; intros m s Hn Hm.
  - destruct s as [|c r]; [now destruct m|cbn in Hn; lia].
  - destruct m as [|j]; [destruct s as [|c r]; [reflexivity|cbn in Hm; lia]|].
    cbn [Config.remove_ci]. destruct s as [|c r]; [reflexivity|].
    cbn [String.length] in Hn, Hm.
    destruct (Str.nonempty pat) eqn:Ep; cbn [andb].
    + destruct (Str.startswith _ _).
      * destruct pat as [|pc pr]; [discriminate|].
        apply IH; rewrite skip_length; cbn [String.length]; lia.
      * f_equal. apply IH; lia.
    + f_equal. apply IH; lia.
Qed.

Lemma existsb_eqb_in x l : existsb (String.eqb x) l = true <-> In x l.
Proof.
  rewrite existsb_exists. split.
  - intros (y & Hy & E). apply String.eqb_eq in E. now subst.
  - intros H. exists x. split; [exact H|apply String.eqb_refl].
Qed.

Lemma extend_filters_spec extra : forall fs existing,
  (forall x, In x existing <->
             In x (map Str.lower (match fs with Some l => l | None => [] end))) ->
  exists added,
    match Config.extend_filters fs existing extra with Some l => l | None => [] end
    = ((match fs with Some l => l | None => [] end) ++ added)%list
    /\ (forall s, In s extra ->
          exists f, In f ((match fs with Some l => l | None => [] end) ++ added)%list
                    /\ Str.lower f = Str.lower s)
    /\ (forall f, In f added ->
          In f extra
          /\ ~ In (Str.lower f)
                 (map Str.lower (match fs with Some l => l | None => [] end)))
    /\ NoDup (map Str.lower added).
Proof.
  induction extra as [|f r IH]; intros fs existing Hex.
  - exists []. cbn. rewrite app_nil_r. repeat split; try tauto; constructor.
  - cbn [Config.extend_filters].
    set (base := match fs with Some l => l | None => [] end) in *.
    destruct (existsb (String.eqb (Str.lower f)) existing) eqn:E.
    + apply existsb_eqb_in in E. destruct (IH fs existing Hex) as (added & H1 & H2 & H3 & H4).
      fold base in H1, H2, H3.
      exists added. split; [exact H1|]. split; [|split; [|exact H4]].
      * intros s [<-|Hs]; [|now apply H2].
        apply Hex in E. apply in_map_iff in E. destruct E as (g & Hg & Hin).
        exists g. split; [apply in_or_app; now left|exact Hg].
      * intros g Hg. destruct (H3 g Hg). split; [now right|assumption].
    + assert (Hnin : ~ In (Str.lower f) existing).
      { intros Hin. apply existsb_eqb_in in Hin. rewrite Hin in E. discriminate. }
      destruct (IH (Some (base ++ [f])%list) (Str.lower f :: existing))
        as (added & H1 & H2 & H3 & H4).
      { intros x. rewrite map_app, in_app_iff. cbn. rewrite Hex. fold base. tauto. }
      exists (f :: added). rewrite H1, <- app_assoc. cbn [app].
      split; [reflexivity|]. split; [|split].
      * intros s [<-|Hs].
        -- exists f. split; [apply in_or_app; right; now left|reflexivity].
        -- destruct (H2 s Hs) as (g & Hg & El). exists g. split; [|exact El].
           rewrite <- app_assoc in Hg. exact Hg.
      * intros g [<-|Hg].
        -- split; [now left|]. intros Hin. apply Hnin. now apply Hex.
        -- destruct (H3 g Hg) as [Hr Hn]. split; [now right|].
           intros Hin. apply Hn. rewrite map_app, in_app_iff. now left.
      * cbn [map]. constructor; [|exact H4].
        intros Hin. apply in_map_iff in Hin. destruct Hin as (g & El & Hg).
        destruct (H3 g Hg) as [_ Hn]. apply Hn. rewrite El, map_app, in_app_iff.
        right. now left.
Qed.

Lemma list_set_nth {A} (l : list A) : forall i v,
  nth_error l i = Some v -> Config.list_set l i v = l.
Proof.
  induction l as [|x r IH]; intros i v; [reflexivity|].
  destruct i; cbn.
  - intros H. now injection H as ->.
  - intros H. now rewrite (IH _ _ H).
Qed.

Lemma extra_filters_of_line line _p extra :
  Config._parse_folder_value line = (_p, extra) ->
  (forall s, In s (Config.quoted_segments (Str.strip line)) ->
             path_like_segment line <> Some s -> In s extra)
  /\ (forall s, In s extra -> In s (Config.quoted_segments (Str.strip line))).
Proof.
  unfold Config._parse_folder_value, path_like_segment. intros H.
  injection H as _ <-. split.
  - intros s Hs Hp. apply filter_In. split; [exact Hs|].
    destruct (segment_shorter _ _ Hs) as [Hlen Hne]. rewrite Hne, andb_true_r.
    apply negb_true_iff. apply String.eqb_neq.
    destruct (find Config.looks_like_path _) as [seg|] eqn:Ef.
    + intros ->. now elim Hp.
    + destruct (Str.nonempty (Str.strip line)).
      * intros ->. lia.
      * intros ->. pose proof (find_none _ _ Ef _ Hs) as Hl. discriminate.
  - intros s Hs. apply filter_In in Hs. tauto.
Qed.

(** C6, as the code has it. On a line without a colon that does not
    start with two dashes, read while a folder has been defined in the
    block, the most recently defined folder keeps its label and path and
    its filters are extended at the end: every non-empty quoted segment of
    the line, except the first one that holds a slash (which is taken for a
    path), is a filter of the folder afterwards up to case; what is
    appended comes from the quoted segments, equals no earlier filter up to
    case, and holds no two entries equal up to case. Nothing else of the
    state changes. *)
Theorem continuation_line_filters st line i fd :
  Config.last_folder st = Some i ->
  nth_error (Config.folders (Config.account st)) i = Some fd ->
  Str.has_char ":" line = false ->
  Str.startswith line "--" = false ->
  exists fd' added,
    Config.process_line st line
    = Config.mkState
        (Config.set_folders (Config.account st)
           (Config.list_set (Config.folders (Config.account st)) i fd'))
        (Some i)
    /\ Config.label fd' = Config.label fd
    /\ Config.path fd' = Config.path fd
    /\ filters_of fd' = (filters_of fd ++ added)%list
    /\ (forall s, In s (Config.quoted_segments (Str.strip line)) ->
                  path_like_segment line <> Some s ->
                  exists f, In f (filters_of fd') /\ Str.lower f = Str.lower s)
    /\ (forall f, In f added ->
                  In f (Config.quoted_segments (Str.strip line))
                  /\ ~ In (Str.lower f) (map Str.lower (filters_of fd)))
    /\ NoDup (map Str.lower added).
Proof.
  intros Hlast Hnth Hcolon Hdash.
  destruct (Config._parse_folder_value line) as [_p extra] eqn:Ep.
  destruct (extra_filters_of_line _ _ _ Ep) as [Hseg Hsub].
  destruct (extend_filters_spec extra (Config.filters fd)
              (map Str.lower (filters_of fd))) as (added & H1 & H2 & H3 & H4);
    [intros x; reflexivity|].
  exists (Config.add_filters fd extra), added.
  split; [|split; [reflexivity|split; [reflexivity|split; [exact H1|split; [|split]]]]].
  - unfold Config.process_line. rewrite Hdash, Hcolon, Hlast, Hnth, Ep.
    cbn [negb]. destruct extra as [|e es]; cbn [Py.is_nil negb].
    + assert (Efd : Config.add_filters fd [] = fd) by now destruct fd.
      rewrite Efd, (list_set_nth _ _ _ Hnth).
      destruct st as [a lf]. cbn in Hlast |- *. subst lf. now destruct a.
    + reflexivity.
  - intros s Hs Hp. destruct (H2 s (Hseg _ Hs Hp)) as (f & Hf & El).
    exists f. split; [|exact El].
    assert (H1' : filters_of (Config.add_filters fd extra)
                  = (filters_of fd ++ added)%list) by exact H1.
    rewrite H1'. exact Hf.
  - intros f Hf. destruct (H3 f Hf). split; [now apply Hsub|assumption].
  - exact H4.
Qed.

Lemma continuation_line_filters_witness :
  exists fd' added,
    Config.process_line after_reports "'RevAI_Fleet' 'in/out' 'revai_fleet'"
    = Config.mkState
        (Config.set_folders (Config.account after_reports)
           (Config.list_set (Config.folders (Config.account after_reports)) 1 fd'))
        (Some 1%nat)
    /\ filters_of fd' = ([] ++ added)%list
    /\ NoDup (map Str.lower added).
Proof.
  destruct (continuation_line_filters after_reports
              "'RevAI_Fleet' 'in/out' 'revai_fleet'" 1
              (Config.mkFolder "Reports" "/base" (Some []))
              eq_refl eq_refl eq_refl eq_refl)
    as (fd' & added & H1 & _ & _ & H2 & _ & _ & H3).
  exists fd', added. repeat split; assumption.
Defined.

(** C6, as stated, fails in two ways. A line without a colon that starts
    with two dashes is skipped with its quoted segments; and a quoted
    segment that holds a slash is taken for a path and is not appended. *)
Lemma continuation_line_counterexample :
  (Str.has_char ":" "-- 'Skipped'" = false
   /\ Config.last_folder after_reports = Some 1%nat
   /\ In "Skipped" (Config.quoted_segments "-- 'Skipped'")
   /\ Config.process_line after_reports "-- 'Skipped'" = after_reports)
  /\ (Str.has_char ":" "'RevAI_Fleet' 'in/out'" = false
      /\ In "in/out" (Config.quoted_segments "'RevAI_Fleet' 'in/out'")
      /\ map filters_of
           (Config.folders
              (Config.account
                 (Config.process_line after_reports "'RevAI_Fleet' 'in/out'")))
         = [[]; ["RevAI_Fleet"]])
  /\ Config.parse_content credentials = [wheels].
Proof. vm_compute. repeat split; auto. Qed.

(** ** Connection failures *)

Section Rows.

Variable utc : Z -> Z.
Variable net : Sftp.Network.
Variable now_date : Datetime.date.
Variables (folder_filter : option string) (previous_day today_only : bool)
          (on_date : option Datetime.date).
Variables (account_filter : option string) (skip_accounts : option (list string)).

Local Abbreviation collect := (Main.collect_rows utc net now_date folder_filter previous_day
                       today_only on_date account_filter skip_accounts).
Local Abbreviation rows_of := (Main.account_rows utc net now_date folder_filter previous_day
                       today_only on_date account_filter skip_accounts).

Lemma collect_rows_acc configs : forall acc,
  collect configs acc = (r <- collect configs [] ;; Ok (acc ++ r)%list).
Proof.
  induction configs as [|c r IH]; intros acc.
  - cbn. now rewrite app_nil_r.
  - cbn [Main.collect_rows]. destruct (rows_of c) as [out|e]; cbn [bind]; [|reflexivity].
    rewrite (IH (acc ++ fst out)%list), (IH ([] ++ fst out)%list).
    destruct (collect r []) as [rs|e]; cbn [bind]; [|reflexivity].
    now rewrite app_assoc.
Qed.

Lemma collect_rows_app pre post : forall acc,
  collect (pre ++ post)%list acc = (r <- collect pre acc ;; collect post r).
Proof.
  induction pre as [|c r IH]; intros acc; [reflexivity|].
  cbn [app Main.collect_rows]. destruct (rows_of c) as [out|e]; cbn [bind];
    [apply IH|reflexivity].
Qed.

Lemma failed_account_rows config h u pw e :
  Main._matches_filter (Config.name config) account_filter = true ->
  Main.skipped skip_accounts config = false ->
  Config.host config = Some h ->
  Config.username config = Some u ->
  Config.password config = Some pw ->
  net h (match Config.port config with Some p => p | None => 22 end) u pw = Raise e ->
  exists connector,
    rows_of config = Ok ([Main.conn_error_row config e], Some connector)
    /\ Sftp.sftp connector = None.
Proof.
  intros Hm Hs Hh Hu Hp Hn. unfold Main.account_rows.
  rewrite Hm, Hs, Hh, Hu, Hp. cbn [negb Main.getitem bind].
  unfold Sftp.connect, Sftp.new. cbn [Sftp.host Sftp.port Sftp.username Sftp.password].
  rewrite Hn. eexists. split; reflexivity.
Qed.

(** C2, as the code has it. An account whose connection attempt raises
    adds exactly one row to the results, whatever the number of its
    folders: the account name, a dash for the folder and for the file, and
    the text of the connection error. The accounts before it and after it
    contribute the rows they contribute on their own. *)
Theorem connection_failure_row pre config post h u pw e r1 r2 :
  Main._matches_filter (Config.name config) account_filter = true ->
  Main.skipped skip_accounts config = false ->
  Config.host config = Some h ->
  Config.username config = Some u ->
  Config.password config = Some pw ->
  net h (match Config.port config with Some p => p | None => 22 end) u pw = Raise e ->
  collect pre [] = Ok r1 ->
  collect post [] = Ok r2 ->
  collect (pre ++ config :: post)%list []
  = Ok (r1 ++ Main.mkRow (Config.name config) "-" "-"
                ("Connection error: " ++ exn_str e) :: r2)%list.
Proof.
  intros Hm Hs Hh Hu Hp Hn H1 H2.
  destruct (failed_account_rows _ _ _ _ _ Hm Hs Hh Hu Hp Hn) as (c & Hr & _).
  rewrite collect_rows_app, H1. cbn [bind Main.collect_rows].
  rewrite Hr. cbn [bind fst]. rewrite collect_rows_acc, H2. cbn [bind].
  unfold Main.conn_error_row. now rewrite <- app_assoc.
Qed.

End Rows.

Lemma connection_failure_row_witness :
  Main.collect_rows Sample.utc net_down Sample.oct14 None false true
    (Some Sample.oct14) None None ([] ++ wheels :: [])%list []
  = Ok ([] ++ Main.mkRow "Wheels FTP" "-" "-" "Connection error: timed out" :: [])%list.
Proof.
  apply (connection_failure_row Sample.utc net_down Sample.oct14 None false true
           (Some Sample.oct14) None None [] wheels [] "sftp.example.com" "wheels"
           "secret" (OtherException "timed out") [] []); reflexivity.
Defined.

(** C2, as stated, fails: the account of the sample file has two
    configured folders, the run is for one date, and a failed connection
    leaves one row, not one per folder. *)
Lemma connection_failure_counterexample :
  Config.load_multiple_configs_from_file (Some credentials) = Ok [wheels]
  /\ List.length (Config.folders wheels) = 2%nat
  /\ Main.collect_latest_file_details Sample.utc net_down Sample.oct14 None false true
       (Some Sample.oct14) None None (Some credentials)
     = Ok [Main.mkRow "Wheels FTP" "-" "-" "Connection error: timed out"].
Proof. vm_compute. repeat split; reflexivity. Qed.

(** ** The date arguments *)

Lemma date_loop_range e n : forall cur acc,
  e < Datetime.date_max ->
  e - cur + 1 = Z.of_nat n ->
  Main.date_loop n cur e acc
  = Ok (acc ++ map (fun i => cur + Z.of_nat i) (seq 0 n))%list.
Proof.
  induction n as [|k IH]; intros cur acc He Hn.
  - cbn. now rewrite app_nil_r.
  - cbn [Main.date_loop].
    destruct (Z.leb_spec cur e) as [_|Hgt]; [|lia].
    destruct (Z.leb_spec Datetime.date_max cur) as [Hov|_]; [lia|].
    rewrite (IH (cur + 1) _ He) by lia.
    rewrite <- app_assoc. cbn [app seq map]. rewrite <- seq_shift, map_map.
    do 3 f_equal; [f_equal; lia|].
    apply map_ext. intros i. lia.
Qed.

Lemma parse_some s d :
  Main.strptime_Ymd s = Some d ->
  Py.truthy (Some s) = true /\ Main._parse (Some s) = Ok (Some d).
Proof.
  intros H. destruct s as [|c r]; [discriminate|].
  split; [reflexivity|]. unfold Main._parse. cbn [Str.nonempty negb].
  now rewrite H.
Qed.

Lemma plan_of_date_arguments args :
  (forall s d,
     Main.date_arg args = Some s -> Main.strptime_Ymd s = Some d ->
     Main.plan_dates args = Ok (Main.PerDate [d]))
  /\ (forall s e ds de,
        Main.truthy_arg (Main.date_arg args) = false ->
        Main.start_date args = Some s -> Main.end_date args = Some e ->
        Main.strptime_Ymd s = Some ds -> Main.strptime_Ymd e = Some de ->
        (de < ds ->
         Main.plan_dates args
         = Ok (Main.Stop "Start date must be on or before end date."))
        /\ (ds <= de -> de < Datetime.date_max ->
            Main.plan_dates args = Ok (Main.PerDate (days_between ds de)))).
Proof.
  split.
  - intros s d Hd Hp. destruct (parse_some _ _ Hp) as [Ht Hq].
    unfold Main.plan_dates, Main.truthy_arg. rewrite Hd, Ht, Hq. reflexivity.
  - intros s e ds de Hnd Hs He Hps Hpe.
    destruct (parse_some _ _ Hps) as [Hts Hqs].
    destruct (parse_some _ _ Hpe) as [Hte Hqe].
    assert (Hplan : Main.plan_dates args
              = if de <? ds
                then Ok (Main.Stop "Start date must be on or before end date.")
                else (dates <- Main.date_loop (S (Z.to_nat (de - ds))) ds de [] ;;
                      Ok (Main.PerDate dates))).
    { unfold Main.plan_dates. rewrite Hnd, Hs, He.
      unfold Main.truthy_arg, Main.or_parse. rewrite Hts, Hqs, Hqe. reflexivity. }
    rewrite Hplan. split.
    + intros Hlt. destruct (Z.ltb_spec de ds); [reflexivity|lia].
    + intros Hle Hmax. destruct (Z.ltb_spec de ds); [lia|].
      rewrite (date_loop_range de) by (try exact Hmax; lia).
      cbn [bind app]. unfold days_between.
      replace (Z.to_nat (de - ds + 1)) with (S (Z.to_nat (de - ds))) by lia.
      reflexivity.
Qed.

Lemma days_between_cons s e :
  s <= e -> exists r, days_between s e = s :: r.
Proof.
  intros H. unfold days_between.
  replace (Z.to_nat (e - s + 1)) with (S (Z.to_nat (e - s))) by lia.
  cbn [seq map]. rewrite Z.add_0_r. eauto.
Qed.

Section RunByDates.

Variable utc : Z -> Z.
Variable net : Sftp.Network.
Variable now_date : Datetime.date.
Variable file : option string.
Variable make_dirs : result unit.
Variable open_log : result unit.
Variable to_excel : Main.Report -> result unit.

Local Abbreviation run := (Main.main utc net now_date file make_dirs open_log to_excel).
Local Abbreviation by_dates :=
  (Main.per_date_reports utc net now_date file to_excel).
Local Abbreviation collected := (Main.collect_for utc net now_date file).

Lemma write_all_written reports written :
  Main.write_all to_excel reports = Ok written -> written = reports.
Proof.
  revert written. induction reports as [|r rest IH]; intros written;
    cbn [Main.write_all].
  - intros H. now injection H as <-.
  - destruct (to_excel r); cbn [bind]; [|discriminate].
    destruct (Main.write_all to_excel rest) as [w|e]; cbn [bind]; [|discriminate].
    intros H. injection H as <-. now rewrite (IH w eq_refl).
Qed.

Lemma per_date_reports_spec args dates : forall reports,
  by_dates args dates = Ok reports ->
  (forall dt, In dt dates ->
     exists rows,
       collected args dt = Ok rows
       /\ forall rep,
            In rep (Main.reports_of (Datetime.strftime_mdY_dashed dt) rows) ->
            In rep reports)
  /\ (forall rep, In rep reports ->
        exists dt rows,
          In dt dates /\ collected args dt = Ok rows /\ rows <> []
          /\ In rep (Main.reports_of (Datetime.strftime_mdY_dashed dt) rows)).
Proof.
  induction dates as [|dt r IH]; intros reports H.
  - cbn in H. injection H as <-. split; [intros dt []|intros rep []].
  - cbn [Main.per_date_reports] in H.
    destruct (collected args dt) as [rows|e] eqn:Ec; cbn [bind] in H; [|discriminate].
    destruct (Main.write_all to_excel _) as [written|e] eqn:Ew; cbn [bind] in H;
      [|discriminate].
    apply write_all_written in Ew. subst written.
    destruct (by_dates args r) as [rest|e] eqn:Er; cbn [bind] in H; [|discriminate].
    injection H as <-. destruct (IH rest eq_refl) as [H1 H2]. split.
    + intros d [<-|Hd].
      * exists rows. split; [exact Ec|]. intros rep Hrep. apply in_or_app. now left.
      * destruct (H1 d Hd) as (rows' & Hc & Hin). exists rows'. split; [exact Hc|].
        intros rep Hrep. apply in_or_app. right. now apply Hin.
    + intros rep Hrep. apply in_app_or in Hrep. destruct Hrep as [Hrep|Hrep].
      * exists dt, rows. split; [now left|]. split; [exact Ec|]. split; [|exact Hrep].
        intros ->. destruct Hrep.
      * destruct (H2 rep Hrep) as (d & rows' & Hd & Hc & Hne & Hin).
        exists d, rows'. split; [now right|]. auto.
Qed.

Lemma write_all_total reports :
  (forall r, to_excel r = Ok tt) ->
  Main.write_all to_excel reports = Ok reports.
Proof.
  intros H. induction reports as [|r rest IH]; [reflexivity|].
  cbn [Main.write_all]. rewrite H, IH. reflexivity.
Qed.

Lemma per_date_reports_total args dates :
  (forall dt, In dt dates -> exists rows, collected args dt = Ok rows) ->
  (forall r, to_excel r = Ok tt) ->
  exists reports, by_dates args dates = Ok reports.
Proof.
  intros Hc Hw. induction dates as [|dt r IH]; [cbn; eauto|].
  cbn [Main.per_date_reports].
  destruct (Hc dt (or_introl eq_refl)) as (rows & ->). cbn [bind].
  rewrite write_all_total by exact Hw. cbn [bind].
  destruct IH as (rest & ->); [intros d Hd; apply Hc; now right|].
  cbn [bind]. eauto.
Qed.


End RunByDates.



(** * Further properties of the connector *)

(** ** Which entries are candidates *)

Lemma reg_not_dir f : Sftp.is_reg f = true -> Sftp.is_dir f = false.
Proof.
  unfold Sftp.is_reg, Sftp.is_dir. destruct (Sftp.st_mode f) as [m|]; [|reflexivity].
  unfold Sftp.S_ISREG, Sftp.S_ISDIR. intros H. apply Z.eqb_eq in H. now rewrite H.
Qed.

(** X1. Only regular files are candidates: whatever the filters and
    whether or not the sub-directory fallback was used, every candidate
    is a regular file and none is a directory. *)
Theorem candidates_are_regular_files self folder filters files f :
  Sftp._collect_candidate_files self folder filters = Ok files ->
  In f files ->
  Sftp.is_reg f = true /\ Sftp.is_dir f = false.
Proof.
  intros H Hin.
  assert (Hr : Sftp.is_reg f = true).
  { destruct (collect_origin _ _ _ _ _ H Hin) as (entries & _ & [Ha|Hb]).
    - tauto.
    - destruct Hb as (_ & d & sub & _ & _ & _ & _ & _ & Hr). exact Hr. }
  split; [exact Hr|now apply reg_not_dir].
Qed.

Lemma candidates_are_regular_files_witness :
  Sftp.is_reg Sample.report_csv = true /\ Sftp.is_dir Sample.report_csv = false.
Proof.
  apply (candidates_are_regular_files Sample.connector "/base" (Some ["RevAI_Fleet"])
           [Sample.report_csv]); [reflexivity|now left].
Defined.

(** X2. Without an effective filter (no list, an empty list, or only
    empty strings) the candidates are exactly the regular files of the
    folder, in listing order; sub-directories are not searched. *)
Theorem unfiltered_candidates self folder filters entries :
  Sftp.lowered_filters filters = [] ->
  Sftp.list_files_in_folder self folder = Ok entries ->
  Sftp._collect_candidate_files self folder filters
  = Ok (filter Sftp.is_reg entries).
Proof.
  intros Hlow Hl. unfold Sftp._collect_candidate_files. rewrite Hl. cbn [bind].
  rewrite Hlow. cbn [Py.is_nil negb andb].
  now destruct (filter Sftp.is_reg entries).
Qed.

Lemma unfiltered_candidates_witness :
  Sftp._collect_candidate_files Sample.connector "/base" (Some [EmptyString])
  = Ok (filter Sftp.is_reg [Sample.fleet_dir]).
Proof.
  apply (unfiltered_candidates Sample.connector "/base" (Some [EmptyString])
           [Sample.fleet_dir]); reflexivity.
Defined.

(** X3. When a regular file of the folder itself matches a filter, the
    candidates are exactly the matching regular files of the folder, in
    listing order: the sub-directory fallback is not used and files of
    sub-directories are never mixed in. *)
Theorem folder_match_suppresses_fallback self folder filters entries f :
  Sftp.list_files_in_folder self folder = Ok entries ->
  In f entries -> Sftp.is_reg f = true ->
  Sftp.name_matches (Sftp.lowered_filters filters) f = true ->
  Sftp._collect_candidate_files self folder filters
  = Ok (filter (Sftp.name_matches (Sftp.lowered_filters filters))
          (filter Sftp.is_reg entries)).
Proof.
  intros Hl Hin Hr Hm. unfold Sftp._collect_candidate_files. rewrite Hl. cbn [bind].
  destruct (Sftp.lowered_filters filters) as [|s0 ls] eqn:El; [discriminate|].
  assert (H1 : In f (filter Sftp.is_reg entries)) by (apply filter_In; now split).
  assert (H2 : In f (filter (Sftp.name_matches (s0 :: ls)) (filter Sftp.is_reg entries)))
    by (apply filter_In; now split).
  destruct (filter Sftp.is_reg entries) as [|g r]; [destruct H1|].
  cbn [Py.is_nil negb andb].
  destruct (filter (Sftp.name_matches (s0 :: ls)) (g :: r)) as [|h t]; [destruct H2|].
  reflexivity.
Qed.

Lemma folder_match_suppresses_fallback_witness :
  Sftp._collect_candidate_files Sample.connector "/data" (Some ["NEW"; "tie"])
  = Ok (filter (Sftp.name_matches (Sftp.lowered_filters (Some ["NEW"; "tie"])))
          (filter Sftp.is_reg [Sample.old_csv; Sample.new_csv; Sample.tie_csv])).
Proof.
  apply (folder_match_suppresses_fallback Sample.connector "/data"
           (Some ["NEW"; "tie"]) _ Sample.new_csv);
    [reflexivity|right; now left|reflexivity|reflexivity].
Defined.

(** ** When the selection raises *)

Lemma selection_raise_iff utc self folder filters p
    (op : result (option string * option string)) :
  (forall files, Sftp._collect_candidate_files self folder filters = Ok files ->
                 op = pick utc p files) ->
  (forall e, Sftp._collect_candidate_files self folder filters = Raise e ->
             op = Raise e) ->
  forall e, op = Raise e <-> Sftp.list_files_in_folder self folder = Raise e.
Proof.
  intros Hok Herr e. pose proof (collect_total self folder filters) as Ht.
  destruct (Sftp.list_files_in_folder self folder) as [entries|e'] eqn:El.
  - destruct Ht as (files & Hc). rewrite (Hok _ Hc).
    destruct (pick_shape utc p files) as [->|(f & _ & ->)]; split; discriminate.
  - rewrite (Herr _ Ht). split; intros H; injection H as ->; reflexivity.
Qed.

(** X4. On a session whose entries carry a mode and an unsigned 32-bit
    modification time, the three selection functions raise exactly when
    the listing of the folder itself raises, and then the same exception:
    a sub-directory that cannot be listed during the fallback never makes
    the selection fail. An entry without a mode is outside the statement:
    there the source raises a [TypeError] out of the selection. *)
Theorem selection_raises_with_listing utc self folder filters d e :
  modes_set self -> mtimes_in_range self ->
  (Sftp.get_latest_file_info utc self folder filters = Raise e
   <-> Sftp.list_files_in_folder self folder = Raise e)
  /\ (Sftp.get_latest_file_info_on_date utc self folder d filters = Raise e
      <-> Sftp.list_files_in_folder self folder = Raise e)
  /\ (Sftp.get_latest_file_info_before_date utc self folder d filters = Raise e
      <-> Sftp.list_files_in_folder self folder = Raise e).
Proof.
  intros _ _. split; [|split].
  - apply (selection_raise_iff utc self folder filters (fun _ => true)).
    + intros files H. now apply latest_pick.
    + intros e' H. unfold Sftp.get_latest_file_info. now rewrite H.
  - apply (selection_raise_iff utc self folder filters
             (fun f => Sftp.to_local_date utc f =? d)).
    + intros files H. now apply on_date_pick.
    + intros e' H. unfold Sftp.get_latest_file_info_on_date. now rewrite H.
  - apply (selection_raise_iff utc self folder filters
             (fun f => Sftp.to_local_date utc f <? d)).
    + intros files H. now apply before_date_pick.
    + intros e' H. unfold Sftp.get_latest_file_info_before_date. now rewrite H.
Qed.

Lemma selection_raises_with_listing_witness :
  (Sftp.get_latest_file_info Sample.utc Sample.connector "/broken"
     (Some ["RevAI_Fleet"])
   = Raise (RuntimeError "Error listing files in /broken: Permission denied")
   <-> Sftp.list_files_in_folder Sample.connector "/broken"
       = Raise (RuntimeError "Error listing files in /broken: Permission denied"))
  /\ (Sftp.get_latest_file_info_on_date Sample.utc Sample.connector "/broken"
        Sample.oct12 (Some ["RevAI_Fleet"])
      = Raise (RuntimeError "Error listing files in /broken: Permission denied")
      <-> Sftp.list_files_in_folder Sample.connector "/broken"
          = Raise (RuntimeError "Error listing files in /broken: Permission denied"))
  /\ (Sftp.get_latest_file_info_before_date Sample.utc Sample.connector "/broken"
        Sample.oct12 (Some ["RevAI_Fleet"])
      = Raise (RuntimeError "Error listing files in /broken: Permission denied")
      <-> Sftp.list_files_in_folder Sample.connector "/broken"
          = Raise (RuntimeError "Error listing files in /broken: Permission denied")).
Proof.
  apply (selection_raises_with_listing Sample.utc Sample.connector "/broken"
           (Some ["RevAI_Fleet"]) Sample.oct12).
  - intros p l. apply sample_modes_set_aux.
  - intros p l. apply sample_mtimes_in_range_aux.
Defined.

Lemma single_selection_raise_iff utc self folder od p e :
  single_selection utc self folder od p = Raise e
  <-> Sftp.list_files_in_folder self folder = Raise e.
Proof.
  unfold single_selection. destruct od as [d|].
  - apply (selection_raise_iff utc self folder (Some [p])
             (fun f => Sftp.to_local_date utc f =? d)).
    + intros files H. now apply on_date_pick.
    + intros e' H. unfold Sftp.get_latest_file_info_on_date. now rewrite H.
  - apply (selection_raise_iff utc self folder (Some [p]) (fun _ => true)).
    + intros files H. now apply latest_pick.
    + intros e' H. unfold Sftp.get_latest_file_info. now rewrite H.
Qed.

(** X5. On a session whose entries carry a mode and an unsigned 32-bit
    modification time, [get_latest_files_per_prefix] raises exactly when
    some prefix is non-empty and the listing of the folder raises, and
    then the same exception. With no non-empty prefix it returns the
    empty dictionary without listing anything, even on a connector that
    never connected. An entry without a mode is outside the statement:
    there the source raises a [TypeError]. *)
Theorem per_prefix_raises_iff utc self folder prefixes od e :
  modes_set self -> mtimes_in_range self ->
  (Sftp.get_latest_files_per_prefix utc self folder prefixes od = Raise e
   <-> (filter Str.nonempty prefixes <> []
        /\ Sftp.list_files_in_folder self folder = Raise e))
  /\ (filter Str.nonempty prefixes = [] ->
      Sftp.get_latest_files_per_prefix utc self folder prefixes od = Ok []).
Proof.
  intros _ _. unfold Sftp.get_latest_files_per_prefix.
  destruct (filter Str.nonempty prefixes) as [|p r] eqn:Ef.
  - cbn. split; [|reflexivity]. split; [discriminate|]. intros [H _]. now elim H.
  - split; [|discriminate]. cbn [map Sftp.per_prefix_loop].
    rewrite per_prefix_step_eq.
    destruct (Sftp.list_files_in_folder self folder) as [entries|e'] eqn:El.
    + destruct (single_selection_total utc self folder od (Str.lower p) entries El)
        as (rp & ->). cbn [bind].
      destruct (per_prefix_loop_total utc self folder od (map Str.lower r)
                  (fun q => single_selection_total utc self folder od q entries El)
                  (Py.dict_set [] (Str.lower p) rp)) as (d' & ->).
      split; [discriminate|]. intros [_ H]. discriminate.
    + assert (Hs : single_selection utc self folder od (Str.lower p) = Raise e')
        by now apply single_selection_raise_iff.
      rewrite Hs. cbn [bind]. split.
      * intros H. injection H as ->. split; [discriminate|reflexivity].
      * intros [_ H]. injection H as ->. reflexivity.
Qed.

Lemma per_prefix_raises_iff_witness :
  (Sftp.get_latest_files_per_prefix Sample.utc Sample.connector "/broken"
     [EmptyString; "RevAI_Fleet"] (Some Sample.oct12)
   = Raise (RuntimeError "Error listing files in /broken: Permission denied")
   <-> (filter Str.nonempty [EmptyString; "RevAI_Fleet"] <> []
        /\ Sftp.list_files_in_folder Sample.connector "/broken"
           = Raise (RuntimeError "Error listing files in /broken: Permission denied")))
  /\ (filter Str.nonempty [EmptyString; "RevAI_Fleet"] = [] ->
      Sftp.get_latest_files_per_prefix Sample.utc Sample.connector "/broken"
        [EmptyString; "RevAI_Fleet"] (Some Sample.oct12) = Ok []).
Proof.
  apply (per_prefix_raises_iff Sample.utc Sample.connector "/broken"
           [EmptyString; "RevAI_Fleet"] (Some Sample.oct12)).
  - intros p l. apply sample_modes_set_aux.
  - intros p l. apply sample_mtimes_in_range_aux.
Defined.

(** X6. A folder that is missing on the server, or that lists nothing,
    is not an error: on an open session every selection returns
    [(None, None)], and the per-prefix variant maps every key to
    [(None, None)]. *)
Theorem missing_folder_finds_nothing utc self s folder filters d prefixes od :
  Sftp.sftp self = Some s -> Sftp.sftp_closed s = false ->
  Sftp.listdir_attr s folder = Sftp.NoSuchFile
  \/ Sftp.listdir_attr s folder = Sftp.Listed [] ->
  Sftp.get_latest_file_info utc self folder filters = Ok (None, None)
  /\ Sftp.get_latest_file_info_on_date utc self folder d filters = Ok (None, None)
  /\ Sftp.get_latest_file_info_before_date utc self folder d filters = Ok (None, None)
  /\ exists dict,
       Sftp.get_latest_files_per_prefix utc self folder prefixes od = Ok dict
       /\ forall k v, Py.dict_get dict k = Some v -> v = (None, None).
Proof.
  intros Hs Hc Hl.
  assert (Hlist : Sftp.list_files_in_folder self folder = Ok []).
  { unfold Sftp.list_files_in_folder. rewrite Hs, Hc. now destruct Hl as [-> | ->]. }
  assert (Hcol : forall fl, Sftp._collect_candidate_files self folder fl = Ok []).
  { intros fl. unfold Sftp._collect_candidate_files. rewrite Hlist. cbn.
    now destruct (Sftp.lowered_filters fl). }
  assert (H1 : forall fl, Sftp.get_latest_file_info utc self folder fl = Ok (None, None)).
  { intros fl. unfold Sftp.get_latest_file_info. now rewrite Hcol. }
  assert (H2 : forall fl, Sftp.get_latest_file_info_on_date utc self folder d fl
                          = Ok (None, None)).
  { intros fl. unfold Sftp.get_latest_file_info_on_date. now rewrite Hcol. }
  split; [apply H1|]. split; [apply H2|]. split.
  { unfold Sftp.get_latest_file_info_before_date. now rewrite Hcol. }
  assert (Hsingle : forall p, single_selection utc self folder od p = Ok (None, None)).
  { intros p. unfold single_selection. destruct od as [d'|]; [|apply H1].
    unfold Sftp.get_latest_file_info_on_date. now rewrite Hcol. }
  unfold Sftp.get_latest_files_per_prefix.
  destruct (per_prefix_loop_total utc self folder od
              (map Str.lower (filter Str.nonempty prefixes))
              (fun p => ex_intro _ (None, None) (Hsingle p)) []) as (dict & Hd).
  exists dict. split; [exact Hd|]. intros k v Hg.
  destruct (per_prefix_loop_spec utc self folder od _ _ _ Hd) as (Hout & Hin & _ & _).
  destruct (in_dec string_dec k (map Str.lower (filter Str.nonempty prefixes)))
    as [Hk|Hk].
  - destruct (Hin _ Hk) as (r & Hr & Hg'). rewrite Hsingle in Hr.
    injection Hr as <-. rewrite Hg in Hg'. now injection Hg' as ->.
  - rewrite (Hout _ Hk) in Hg. discriminate.
Qed.

Lemma missing_folder_finds_nothing_witness :
  Sftp.get_latest_file_info Sample.utc Sample.connector "/nowhere" None
  = Ok (None, None).
Proof.
  destruct (missing_folder_finds_nothing Sample.utc Sample.connector
              (Sftp.mkSftp Sample.server false) "/nowhere" None Sample.oct12
              ["a"] None eq_refl eq_refl (or_introl eq_refl)) as [H _].
  exact H.
Defined.

(** ** The date policies and the latest file *)

Section FirstMaximum.

Context {A : Type} (key : A -> Z).

Lemma first_max_decomposition (pre : list A) : forall pre' m m' post post',
  (pre ++ m :: post = pre' ++ m' :: post')%list ->
  (forall x, In x pre -> key x < key m) ->
  (forall x, In x post -> key x <= key m) ->
  (forall x, In x pre' -> key x < key m') ->
  (forall x, In x post' -> key x <= key m') ->
  m = m'.
Proof.
  induction pre as [|a t IH]; intros [|a' t'] m m' post post' E H1 H2 H3 H4;
    cbn in E; injection E as Ea Et.
  - exact Ea.
  - subst a'. assert (key m < key m') by (apply H3; now left).
    assert (key m' <= key m).
    { apply H2. rewrite Et. apply in_or_app. right. now left. }
    lia.
  - subst a. assert (key m' < key m) by (apply H1; now left).
    assert (key m <= key m').
    { apply H4. rewrite <- Et. apply in_or_app. right. now left. }
    lia.
  - apply (IH t' m m' post post' Et); auto.
    + intros x Hx. apply H1. now right.
    + intros x Hx. apply H3. now right.
Qed.

Lemma first_max_is b t pre m post :
  b :: t = (pre ++ m :: post)%list ->
  (forall x, In x pre -> key x < key m) ->
  (forall x, In x post -> key x <= key m) ->
  Py.max_from key b t = m.
Proof.
  intros E H1 H2.
  destruct (max_from_first key t b) as (pre' & post' & E' & H3 & H4).
  rewrite E in E'. symmetry. exact (first_max_decomposition _ _ _ _ _ _ E' H1 H2 H3 H4).
Qed.

End FirstMaximum.

Lemma pick_when_latest_passes utc p f r :
  p (Py.max_from Sftp.st_mtime f r) = true ->
  pick utc p (f :: r) = pick utc (fun _ => true) (f :: r).
Proof.
  intros Hp.
  destruct (max_from_first Sftp.st_mtime r f) as (pre & post & E & Hpre & Hpost).
  set (m := Py.max_from Sftp.st_mtime f r) in *.
  assert (Ef : filter p (f :: r) = (filter p pre ++ m :: filter p post)%list).
  { rewrite E, filter_app. cbn [filter]. now rewrite Hp. }
  assert (Et : filter (fun _ : Sftp.SFTPAttributes => true) (f :: r) = f :: r).
  { apply forallb_filter_id. apply forallb_forall. reflexivity. }
  unfold pick. cbn [Py.is_nil]. rewrite Et. cbn [Py.is_nil].
  destruct (filter p (f :: r)) as [|g t] eqn:Eg.
  - destruct (filter p pre); discriminate.
  - cbn [Py.is_nil]. rewrite !latest_of_cons. fold m.
    assert (Hm : Py.max_from Sftp.st_mtime g t = m).
    { apply (first_max_is Sftp.st_mtime g t (filter p pre) m (filter p post) Ef).
      - intros x Hx. apply filter_In in Hx. now apply Hpre.
      - intros x Hx. apply filter_In in Hx. now apply Hpost. }
    now rewrite Hm.
Qed.

(** X7. When the latest candidate of a folder has local date [d], the
    selection on date [d] returns exactly what the unrestricted selection
    returns: the same name and the same time, ties included. *)
Theorem on_date_agrees_with_latest utc self folder d filters f r :
  Sftp._collect_candidate_files self folder filters = Ok (f :: r) ->
  Sftp.to_local_date utc (Py.max_from Sftp.st_mtime f r) = d ->
  Sftp.get_latest_file_info_on_date utc self folder d filters
  = Sftp.get_latest_file_info utc self folder filters.
Proof.
  intros H Hd. rewrite (on_date_pick utc _ _ d _ _ H), (latest_pick utc _ _ _ _ H).
  apply pick_when_latest_passes. now apply Z.eqb_eq.
Qed.

Lemma on_date_agrees_with_latest_witness :
  Sftp.get_latest_file_info_on_date Sample.utc Sample.connector "/data" Sample.oct14 None
  = Sftp.get_latest_file_info Sample.utc Sample.connector "/data" None.
Proof.
  apply (on_date_agrees_with_latest Sample.utc Sample.connector "/data" Sample.oct14
           None Sample.old_csv [Sample.new_csv; Sample.tie_csv]); reflexivity.
Defined.

(** X8. When the latest candidate of a folder has a local date strictly
    before [d], the selection before [d] returns exactly what the
    unrestricted selection returns. *)
Theorem before_date_agrees_with_latest utc self folder d filters f r :
  Sftp._collect_candidate_files self folder filters = Ok (f :: r) ->
  Sftp.to_local_date utc (Py.max_from Sftp.st_mtime f r) < d ->
  Sftp.get_latest_file_info_before_date utc self folder d filters
  = Sftp.get_latest_file_info utc self folder filters.
Proof.
  intros H Hd. rewrite (before_date_pick utc _ _ d _ _ H), (latest_pick utc _ _ _ _ H).
  apply pick_when_latest_passes. now apply Z.ltb_lt.
Qed.

Lemma before_date_agrees_with_latest_witness :
  Sftp.get_latest_file_info_before_date Sample.utc Sample.connector "/data"
    (Sample.oct14 + 1) None
  = Sftp.get_latest_file_info Sample.utc Sample.connector "/data" None.
Proof.
  apply (before_date_agrees_with_latest Sample.utc Sample.connector "/data"
           (Sample.oct14 + 1) None Sample.old_csv [Sample.new_csv; Sample.tie_csv]);
    [reflexivity|vm_compute; reflexivity].
Defined.

(** ** The order of the per-prefix results *)

Lemma keys_set_fresh {V} (d : Py.dict V) k v :
  ~ In k (Py.keys d) -> Py.keys (Py.dict_set d k v) = (Py.keys d ++ [k])%list.
Proof.
  unfold Py.keys. induction d as [|[k0 v0] r IH]; cbn [Py.dict_set map fst app].
  - reflexivity.
  - intros Hn. destruct (String.eqb k0 k) eqn:E.
    + apply String.eqb_eq in E. subst k0. elim Hn. now left.
    + cbn [map fst]. rewrite IH; [reflexivity|]. intros Hin. apply Hn. now right.
Qed.

Lemma per_prefix_loop_keys utc self folder od ps : forall acc d,
  NoDup (Py.keys acc ++ ps) ->
  Sftp.per_prefix_loop utc self folder od ps acc = Ok d ->
  Py.keys d = (Py.keys acc ++ ps)%list.
Proof.
  induction ps as [|p r IH]; intros acc d Hn H.
  - cbn in H. injection H as <-. now rewrite app_nil_r.
  - cbn [Sftp.per_prefix_loop] in H. rewrite per_prefix_step_eq in H.
    destruct (single_selection utc self folder od p) as [rp|e]; cbn [bind] in H;
      [|discriminate].
    assert (Hp : ~ In p (Py.keys acc)).
    { apply NoDup_remove_2 in Hn. intros Hin. apply Hn. apply in_or_app. now left. }
    assert (Ek : Py.keys (Py.dict_set acc p rp) = (Py.keys acc ++ [p])%list)
      by now apply keys_set_fresh.
    rewrite (IH _ _ ltac:(rewrite Ek, <- app_assoc; exact Hn) H), Ek, <- app_assoc.
    reflexivity.
Qed.

(** X9. The per-prefix results come in the order of the prefixes: when
    the non-empty prefixes are pairwise different without regard to case,
    the keys of the returned dictionary are their lower-cased forms, in
    the order given (the order in which the rows of the report follow). *)
Theorem per_prefix_keys_in_order utc self folder prefixes od d :
  NoDup (map Str.lower (filter Str.nonempty prefixes)) ->
  Sftp.get_latest_files_per_prefix utc self folder prefixes od = Ok d ->
  Py.keys d = map Str.lower (filter Str.nonempty prefixes).
Proof.
  intros Hn H. unfold Sftp.get_latest_files_per_prefix in H.
  exact (per_prefix_loop_keys utc self folder od _ [] d Hn H).
Qed.

Lemma per_prefix_keys_in_order_witness :
  Py.keys
    [("tie", (Some "tie.csv", Some "10/14/2025 09:30:00"));
     ("old", (Some "old.csv", Some "10/12/2025 08:00:00"))]
  = map Str.lower (filter Str.nonempty ["Tie"; ""; "OLD"]).
Proof.
  apply (per_prefix_keys_in_order Sample.utc Sample.connector "/data"
           ["Tie"; ""; "OLD"] None); [|reflexivity].
  cbn. repeat constructor; cbn; intuition discriminate.
Defined.

(** ** Filters and case *)

Lemma lowered_of_map_lower l :
  map Str.lower (filter Str.nonempty l) = filter Str.nonempty (map Str.lower l).
Proof.
  induction l as [|s r IH]; [reflexivity|].
  cbn [filter map]. rewrite nonempty_lower.
  destruct (Str.nonempty s); cbn [map]; now rewrite IH.
Qed.

(** X10. Filters and prefixes are case-insensitive: two lists that are
    equal once lower-cased give the same result from every selection
    operation. *)
Theorem filters_case_insensitive utc self folder f1 f2 d od :
  map Str.lower f1 = map Str.lower f2 ->
  Sftp.get_latest_file_info utc self folder (Some f1)
    = Sftp.get_latest_file_info utc self folder (Some f2)
  /\ Sftp.get_latest_file_info_on_date utc self folder d (Some f1)
     = Sftp.get_latest_file_info_on_date utc self folder d (Some f2)
  /\ Sftp.get_latest_file_info_before_date utc self folder d (Some f1)
     = Sftp.get_latest_file_info_before_date utc self folder d (Some f2)
  /\ Sftp.get_latest_files_per_prefix utc self folder f1 od
     = Sftp.get_latest_files_per_prefix utc self folder f2 od.
Proof.
  intros H.
  assert (Hl : Sftp.lowered_filters (Some f1) = Sftp.lowered_filters (Some f2)).
  { unfold Sftp.lowered_filters. now rewrite !lowered_of_map_lower, H. }
  pose proof (collect_lowered self folder _ _ Hl) as Hc.
  unfold Sftp.get_latest_file_info, Sftp.get_latest_file_info_on_date,
    Sftp.get_latest_file_info_before_date, Sftp.get_latest_files_per_prefix.
  rewrite Hc. repeat split.
  change (map Str.lower (filter Str.nonempty f1)) with (Sftp.lowered_filters (Some f1)).
  change (map Str.lower (filter Str.nonempty f2)) with (Sftp.lowered_filters (Some f2)).
  now rewrite Hl.
Qed.

Lemma filters_case_insensitive_witness :
  Sftp.get_latest_file_info Sample.utc Sample.connector "/base" (Some ["RevAI_Fleet"])
  = Sftp.get_latest_file_info Sample.utc Sample.connector "/base" (Some ["REVAI_fleet"]).
Proof.
  apply (filters_case_insensitive Sample.utc Sample.connector "/base"
           ["RevAI_Fleet"] ["REVAI_fleet"] Sample.oct12 None). reflexivity.
Defined.

(** * Further properties of the configuration parser *)

(** ** Keys *)

Lemma lower_char_of_lower c : Str.is_lower c = true -> Str.lower_char c = c.
Proof.
  destruct c as [[] [] [] [] [] [] [] []]; vm_compute; intros H;
    first [reflexivity|discriminate H].
Qed.

Lemma is_lower_lower_char c :
  Str.is_lower (Str.lower_char (Str.lower_char c)) = Str.is_lower (Str.lower_char c).
Proof. now rewrite lower_char_idem. Qed.

Lemma filter_chars_has p s c :
  Str.has_char c (Config.filter_chars p s) = true -> p c = true.
Proof.
  induction s as [|a r IH]; cbn [Config.filter_chars]; [discriminate|].
  destruct (p a) eqn:Ea; [|exact IH]. cbn [Str.has_char].
  destruct (Ascii.eqb_spec c a) as [->|_]; [intros _; exact Ea|exact IH].
Qed.

Lemma filter_chars_id p s :
  (forall c, Str.has_char c s = true -> p c = true) -> Config.filter_chars p s = s.
Proof.
  induction s as [|a r IH]; intros H; [reflexivity|]. cbn [Config.filter_chars].
  rewrite (H a) by (cbn; now rewrite Ascii.eqb_refl). f_equal. apply IH.
  intros c Hc. apply H. cbn. rewrite Hc. apply orb_true_r.
Qed.

Lemma lower_fixed s :
  (forall c, Str.has_char c s = true -> Str.is_lower c = true) -> Str.lower s = s.
Proof.
  induction s as [|a r IH]; intros H; [reflexivity|]. cbn [Str.lower].
  rewrite lower_char_of_lower by (apply H; cbn; now rewrite Ascii.eqb_refl).
  f_equal. apply IH. intros c Hc. apply H. cbn. rewrite Hc. apply orb_true_r.
Qed.

(** X11. A normalised key holds lower-case letters only; normalising is
    idempotent and does not depend on the case of the key, so that keys
    such as [User Name], [USER_NAME] and [username] fall together. *)
Theorem normalise_key_letters raw_key :
  (forall c, Str.has_char c (Config._normalise_key raw_key) = true ->
             Str.is_lower c = true)
  /\ Config._normalise_key (Config._normalise_key raw_key)
     = Config._normalise_key raw_key
  /\ Config._normalise_key (Str.lower raw_key) = Config._normalise_key raw_key.
Proof.
  assert (H : forall c, Str.has_char c (Config._normalise_key raw_key) = true ->
                        Str.is_lower c = true).
  { intros c. unfold Config._normalise_key. apply filter_chars_has. }
  split; [exact H|]. split.
  - unfold Config._normalise_key at 1. rewrite (lower_fixed _ H).
    now apply filter_chars_id.
  - unfold Config._normalise_key. now rewrite lower_idem.
Qed.

(** ** Folder values and labels *)

Lemma chosen_path_nonempty value :
  match find Config.looks_like_path (Config.quoted_segments value) with
  | Some seg => seg
  | None => if Str.nonempty value then value else "/"
  end <> EmptyString.
Proof.
  destruct (find _ _) as [seg|] eqn:E.
  - apply find_some in E. destruct E as [E _].
    apply segment_shorter in E. destruct E as [_ E]. intros ->. discriminate.
  - destruct value; discriminate.
Qed.

Lemma or_root_id p : p <> EmptyString -> Config.or_root p = p.
Proof. destruct p; [intros H; now elim H|reflexivity]. Qed.

(** X12. What [_parse_folder_value] returns. The path is never empty:
    it is the first quoted segment that holds a slash, else the whole
    trimmed value, else [/] for an empty value. The filters are non-empty
    quoted segments of the value, in order, none of them equal to the
    path. A value without quoted text is a path without filters, spaces
    included. *)
Theorem parse_folder_value_spec raw p fs :
  Config._parse_folder_value raw = (p, fs) ->
  p <> EmptyString
  /\ (path_like_segment raw = Some p
      \/ (path_like_segment raw = None /\ p = Config.or_root (Str.strip raw)))
  /\ (forall f, In f fs ->
        f <> EmptyString /\ f <> p
        /\ In f (Config.quoted_segments (Str.strip raw)))
  /\ (Config.quoted_segments (Str.strip raw) = [] ->
      fs = [] /\ p = Config.or_root (Str.strip raw)).
Proof.
  unfold Config._parse_folder_value, path_like_segment. intros H.
  pose proof (chosen_path_nonempty (Str.strip raw)) as Hne.
  injection H as Hp Hf. rewrite (or_root_id _ Hne) in Hp.
  split; [rewrite <- Hp; exact Hne|]. split; [|split].
  - destruct (find _ _) as [seg|]; [left; now rewrite Hp|right].
    split; [reflexivity|]. rewrite <- Hp. unfold Config.or_root.
    now destruct (Str.strip raw).
  - intros f Hin. rewrite <- Hf in Hin. apply filter_In in Hin.
    destruct Hin as [Hin Hb]. apply andb_prop in Hb. destruct Hb as [Hb1 Hb2].
    split; [intros ->; discriminate|]. split; [|exact Hin].
    apply negb_true_iff, String.eqb_neq in Hb1. now rewrite <- Hp.
  - intros E. rewrite E in Hf, Hp. cbn in Hf, Hp. split; [now symmetry|].
    rewrite <- Hp. unfold Config.or_root. now destruct (Str.strip raw).
Qed.

Lemma parse_folder_value_spec_witness :
  @nil string = []
  /\ "/Woodford/Processed Booking"
     = Config.or_root (Str.strip " /Woodford/Processed Booking ").
Proof.
  destruct (parse_folder_value_spec " /Woodford/Processed Booking "
              "/Woodford/Processed Booking" [] eq_refl) as (_ & _ & _ & H).
  apply H. reflexivity.
Defined.

Lemma replace_char_removes a b s :
  a <> b -> Str.has_char a (Str.replace_char a b s) = false.
Proof.
  intros Hab. induction s as [|c r IH]; [reflexivity|].
  cbn [Str.replace_char Str.has_char]. rewrite IH, orb_false_r.
  destruct (Ascii.eqb_spec c a) as [->|Hc].
  - now apply Ascii.eqb_neq.
  - apply Ascii.eqb_neq. congruence.
Qed.

Lemma replace_char_keeps_out c a b s :
  c <> b -> Str.has_char c s = false ->
  Str.has_char c (Str.replace_char a b s) = false.
Proof.
  intros Hcb. induction s as [|x r IH]; [reflexivity|].
  cbn [Str.replace_char Str.has_char]. intros H.
  apply orb_false_iff in H. destruct H as [H1 H2]. rewrite (IH H2), orb_false_r.
  destruct (Ascii.eqb x a); [now apply Ascii.eqb_neq|exact H1].
Qed.

Lemma upper_char_not_sep c :
  (Ascii.eqb "_"%char (Str.upper_char c) = Ascii.eqb "_"%char c)
  /\ (Ascii.eqb "-"%char (Str.upper_char c) = Ascii.eqb "-"%char c).
Proof. destruct c as [[] [] [] [] [] [] [] []]; split; reflexivity. Qed.

Lemma capitalize_first_keeps_out s :
  Str.has_char "_" (Config.capitalize_first s) = Str.has_char "_" s
  /\ Str.has_char "-" (Config.capitalize_first s) = Str.has_char "-" s.
Proof.
  destruct s as [|c r]; [split; reflexivity|]. cbn [Config.capitalize_first Str.has_char].
  destruct (upper_char_not_sep c) as [-> ->]. split; reflexivity.
Qed.

Lemma derive_label_nonempty account_name raw_key :
  Config._derive_folder_label account_name raw_key <> EmptyString.
Proof.
  unfold Config._derive_folder_label.
  destruct (negb (Str.nonempty (Str.strip raw_key))); [discriminate|].
  destruct (Config.capitalize_first _); discriminate.
Qed.

(** X13. A derived folder label is never empty and holds neither an
    underscore nor a dash, whatever the account name and the key. *)
Theorem derive_folder_label_shape account_name raw_key :
  Config._derive_folder_label account_name raw_key <> EmptyString
  /\ Str.has_char "_" (Config._derive_folder_label account_name raw_key) = false
  /\ Str.has_char "-" (Config._derive_folder_label account_name raw_key) = false.
Proof.
  unfold Config._derive_folder_label.
  destruct (negb (Str.nonempty (Str.strip raw_key)));
    [repeat split; discriminate|].
  match goal with
  | |- context [Config.capitalize_first (Str.replace_char "-" " " (Str.replace_char "_" " " ?x))] =>
      set (l := x)
  end.
  destruct (capitalize_first_keeps_out (Str.replace_char "-" " " (Str.replace_char "_" " " l)))
    as [E1 E2].
  assert (H1 : Str.has_char "_" (Str.replace_char "-" " " (Str.replace_char "_" " " l)) = false).
  { apply replace_char_keeps_out; [discriminate|]. apply replace_char_removes. discriminate. }
  assert (H2 : Str.has_char "-" (Str.replace_char "-" " " (Str.replace_char "_" " " l)) = false).
  { apply replace_char_removes. discriminate. }
  rewrite <- E1 in H1. rewrite <- E2 in H2.
  destruct (Config.capitalize_first _) as [|c r];
    [repeat split; discriminate|].
  cbn [Str.nonempty]. split; [discriminate|]. split; [exact H1|exact H2].
Qed.

(** ** What a line does to the state of the block *)

Lemma process_line_cases st line :
  Config.process_line st line = st
  \/ (exists i fd extra,
        Config.last_folder st = Some i
        /\ nth_error (Config.folders (Config.account st)) i = Some fd
        /\ Config.process_line st line
           = Config.mkState
               (Config.set_folders (Config.account st)
                  (Config.list_set (Config.folders (Config.account st)) i
                     (Config.add_filters fd extra)))
               (Config.last_folder st))
  \/ (exists a',
        Config.folders a' = Config.folders (Config.account st)
        /\ Config.name a' = Config.name (Config.account st)
        /\ Config.process_line st line = Config.mkState a' (Config.last_folder st))
  \/ (exists fd,
        Config.label fd <> EmptyString /\ Config.path fd <> EmptyString
        /\ Config.process_line st line = Config.append_folder st fd).
Proof.
  unfold Config.process_line.
  destruct (Str.startswith line "--"); [now left|].
  destruct (negb (Str.has_char ":" line)).
  - destruct (Config.last_folder st) as [i|] eqn:El; [|now left].
    destruct (nth_error _ i) as [fd|] eqn:En; [|now left].
    destruct (Config._parse_folder_value line) as [_p extra].
    destruct (negb (Py.is_nil extra)); [|now left].
    right. left. exists i, fd, extra. auto.
  - destruct (Str.split1 ":" line) as [raw_key rest].
    destruct (Config.key_in _ _).
    { right. right. left. eexists. split; [|split; [|reflexivity]];
        destruct (Config.search_host _); destruct (Config.search_port _); reflexivity. }
    destruct (String.eqb _ "username").
    { right. right. left. eexists. split; [|split; [|reflexivity]]; reflexivity. }
    destruct (String.eqb _ "password").
    { right. right. left. eexists. split; [|split; [|reflexivity]]; reflexivity. }
    destruct (String.eqb _ "port").
    { destruct (Config.first_digits _); [|now left].
      right. right. left. eexists. split; [|split; [|reflexivity]]; reflexivity. }
    destruct (String.eqb _ "folders"); [now left|].
    destruct (Config.key_in _ ["folder"]).
    { destruct (Config._parse_folder_value _) as [p fs].
      right. right. right. eexists. split; [|split; [|reflexivity]]; cbn.
      - discriminate.
      - apply or_root_nonempty. }
    destruct (Config.key_in _ _); [now left|].
    destruct (Config._parse_folder_value _) as [p fs] eqn:Ep.
    right. right. right. eexists. split; [|split; [|reflexivity]]; cbn.
    + apply derive_label_nonempty.
    + exact (parse_folder_value_path _ _ _ Ep).
Qed.

Lemma list_set_length {A} (l : list A) : forall i v,
  List.length (Config.list_set l i v) = List.length l.
Proof.
  induction l as [|x r IH]; intros i v; [reflexivity|].
  destruct i; cbn; [reflexivity|now rewrite IH].
Qed.

Lemma process_line_last_folder st line :
  last_folder_ok st -> last_folder_ok (Config.process_line st line).
Proof.
  intros H.
  destruct (process_line_cases st line)
    as [->|[(i & fd & extra & El & En & ->)|[(a' & Ef & _ & ->)|(fd & _ & _ & ->)]]].
  - exact H.
  - unfold last_folder_ok in *. cbn. rewrite El in *. now rewrite list_set_length.
  - unfold last_folder_ok in *. cbn. now rewrite Ef.
  - unfold last_folder_ok, Config.append_folder. cbn. rewrite length_app. cbn. lia.
Qed.

Lemma scan_invariant (P : Config.BlockState -> Prop) :
  (forall st line, P st -> P (Config.process_line st line)) ->
  forall lines st, P st -> P (fold_left Config.process_line lines st).
Proof.
  intros Hstep. induction lines as [|l r IH]; intros st H; [exact H|].
  cbn [fold_left]. apply IH. now apply Hstep.
Qed.

(** X14. While the lines of a block are read, [last_folder] always
    designates the folder defined last: it is unset exactly while the
    block has no folder, and otherwise it is the index of the last
    element of the folders of the account, which exists. A continuation
    line therefore always finds the folder it extends. *)
Theorem last_folder_is_last first rest :
  last_folder_ok (Config.scan_block first rest)
  /\ forall i, Config.last_folder (Config.scan_block first rest) = Some i ->
       exists fd,
         nth_error (Config.folders (Config.account (Config.scan_block first rest))) i
         = Some fd
         /\ List.length (Config.folders (Config.account (Config.scan_block first rest)))
            = S i.
Proof.
  assert (H : last_folder_ok (Config.scan_block first rest)).
  { unfold Config.scan_block. apply (scan_invariant last_folder_ok).
    - apply process_line_last_folder.
    - reflexivity. }
  split; [exact H|]. intros i Hi. unfold last_folder_ok in H. rewrite Hi in H.
  destruct (nth_error _ i) as [fd|] eqn:En.
  - exists fd. split; [reflexivity|now symmetry].
  - apply nth_error_None in En. lia.
Qed.

(** ** Names, ports and labels of the loaded accounts *)

Lemma process_line_labels st line :
  labels_nonempty (Config.folders (Config.account st)) ->
  labels_nonempty (Config.folders (Config.account (Config.process_line st line))).
Proof.
  intros H.
  destruct (process_line_cases st line)
    as [->|[(i & fd & extra & El & En & ->)|[(a' & Ef & _ & ->)|(fd & Hl & _ & ->)]]].
  - exact H.
  - cbn. apply Forall_list_set; [exact H|]. cbn.
    unfold labels_nonempty in H. rewrite Forall_forall in H. apply H.
    eapply nth_error_In. exact En.
  - cbn. now rewrite Ef.
  - unfold Config.append_folder. cbn. apply Forall_app. split; [exact H|].
    now constructor.
Qed.

Lemma process_line_name st line :
  Config.name (Config.account (Config.process_line st line))
  = Config.name (Config.account st).
Proof.
  destruct (process_line_cases st line)
    as [->|[(i & fd & extra & El & En & ->)|[(a' & _ & En & ->)|(fd & _ & _ & ->)]]];
    try reflexivity. exact En.
Qed.

(** X15. Every account returned by [load_multiple_configs_from_file]
    has a non-empty name (the first non-blank line of its block), a port
    (22 unless a line of the block gave one), and folders whose labels
    are all non-empty. *)
Theorem loaded_accounts_named file accts a :
  Config.load_multiple_configs_from_file file = Ok accts ->
  In a accts ->
  Config.name a <> EmptyString
  /\ (exists p, Config.port a = Some p)
  /\ labels_nonempty (Config.folders a)
  /\ exists block first rest,
       Config.block_lines block = first :: rest
       /\ Config.name a = first
       /\ (Config.port (Config.account (Config.scan_block first rest)) = None ->
           Config.port a = Some 22).
Proof.
  destruct file as [content|]; [|discriminate]. cbn. intros H Hin.
  injection H as <-. unfold Config.parse_content in Hin.
  apply in_keep_some in Hin. apply in_map_iff in Hin.
  destruct Hin as (block & Hp & _). unfold Config.parse_block in Hp.
  destruct (Config.block_lines block) as [|first rest] eqn:El; [discriminate|].
  destruct (finish_block_spec _ _ Hp) as (_ & _ & _ & _ & Hn & Hport & Hroot & Hkeep).
  assert (Hname : Config.name (Config.account (Config.scan_block first rest)) = first).
  { unfold Config.scan_block.
    apply (scan_invariant (fun st => Config.name (Config.account st) = first)).
    - intros st line Hst. now rewrite process_line_name.
    - reflexivity. }
  assert (Hfirst : Str.nonempty first = true).
  { assert (Hi : In first (Config.block_lines block)) by (rewrite El; now left).
    unfold Config.block_lines in Hi. apply filter_In in Hi. tauto. }
  assert (Hlab : labels_nonempty
            (Config.folders (Config.account (Config.scan_block first rest)))).
  { unfold Config.scan_block. apply (scan_invariant
      (fun st => labels_nonempty (Config.folders (Config.account st)))).
    - apply process_line_labels.
    - constructor. }
  split; [|split; [|split]].
  - rewrite Hn, Hname. intros ->. discriminate.
  - destruct (Config.port a) as [p|]; [eauto|now elim Hport].
  - destruct (Config.folders (Config.account (Config.scan_block first rest)))
      as [|fd fs] eqn:Ef.
    + rewrite Hroot by reflexivity. repeat constructor. discriminate.
    + rewrite Hkeep by discriminate. exact Hlab.
  - exists block, first, rest. split; [exact El|]. split; [now rewrite Hn|].
    intros Hnone. unfold Config.finish_block in Hp. rewrite Hnone in Hp.
    destruct (Config.account (Config.scan_block first rest)) as [n fs h p u pw].
    cbn in Hp. destruct h; try discriminate. destruct u; try discriminate.
    destruct pw; try discriminate. destruct (Py.is_nil fs); injection Hp as <-;
      reflexivity.
Qed.

Lemma loaded_accounts_named_witness :
  Config.name wheels <> EmptyString /\ exists p, Config.port wheels = Some p.
Proof.
  destruct (loaded_accounts_named (Some credentials)
              (Config.parse_content credentials) wheels eq_refl)
    as (Hn & Hp & _).
  - vm_compute. left. reflexivity.
  - split; [exact Hn|exact Hp].
Defined.

(** ** Comments in values *)

Lemma has_char_lstrip p c s :
  Str.has_char c (Str.lstrip_by p s) = true -> Str.has_char c s = true.
Proof.
  induction s as [|a r IH]; cbn [Str.lstrip_by]; [discriminate|].
  destruct (p a); [|auto]. intros H. cbn. rewrite (IH H). apply orb_true_r.
Qed.

Lemma has_char_rstrip p c s :
  Str.has_char c (Str.rstrip_by p s) = true -> Str.has_char c s = true.
Proof.
  induction s as [|a r IH]; cbn [Str.rstrip_by]; [discriminate|].
  destruct (Str.rstrip_by p r) as [|b t].
  - destruct (p a); [discriminate|]. cbn. rewrite orb_false_r. intros ->. reflexivity.
  - cbn [Str.has_char] in *. intros H. apply orb_prop in H.
    destruct H as [->|H]; [reflexivity|]. rewrite (IH H). apply orb_true_r.
Qed.

Lemma has_char_strip c s :
  Str.has_char c (Str.strip s) = true -> Str.has_char c s = true.
Proof.
  unfold Str.strip, Str.strip_by. intros H.
  now apply has_char_rstrip, has_char_lstrip in H.
Qed.

Lemma split1_fst_has sep c s :
  Str.has_char c (fst (Str.split1 sep s)) = true ->
  Str.has_char c s = true /\ c <> sep.
Proof.
  induction s as [|a r IH]; cbn [Str.split1]; [discriminate|].
  destruct (Ascii.eqb_spec a sep) as [->|Hne]; [discriminate|].
  destruct (Str.split1 sep r) as [x y]. cbn [fst Str.has_char] in *.
  intros H. apply orb_prop in H. destruct H as [H|H].
  - apply Ascii.eqb_eq in H. subst c. rewrite Ascii.eqb_refl. now split.
  - destruct (IH H) as [H1 H2]. rewrite H1, orb_true_r. now split.
Qed.

Lemma has_char_of_list c l :
  Str.has_char c (string_of_list_ascii l) = true -> In c l.
Proof.
  induction l as [|a r IH]; cbn; [discriminate|]. intros H.
  apply orb_prop in H. destruct H as [H|H].
  - apply Ascii.eqb_eq in H. now left.
  - right. now apply IH.
Qed.

Lemma in_list_has_char c s :
  In c (list_ascii_of_string s) -> Str.has_char c s = true.
Proof.
  induction s as [|a r IH]; cbn; [tauto|]. intros [->|H].
  - now rewrite Ascii.eqb_refl.
  - rewrite (IH H). apply orb_true_r.
Qed.

Lemma in_removelast {A} (l : list A) x : In x (removelast l) -> In x l.
Proof.
  induction l as [|a r IH]; [tauto|].
  destruct r as [|b t]; [cbn; tauto|].
  change (removelast (a :: b :: t)) with (a :: removelast (b :: t)).
  intros [->|H]; [now left|right; now apply IH].
Qed.

Lemma has_char_unquoted c value :
  Str.has_char c (Config.strip_surrounding_quotes value) = true ->
  Str.has_char c value = true.
Proof.
  unfold Config.strip_surrounding_quotes. destruct (_ || _)%bool; [|auto].
  destruct value as [|a r]; [discriminate|]. intros H.
  apply has_char_of_list, in_removelast, in_list_has_char in H.
  cbn. rewrite H. apply orb_true_r.
Qed.

(** X16. In a value without quoted text, everything from the first [#]
    on is a comment: the cleaned value holds no [#]. *)
Theorem clean_value_drops_comment raw_value :
  Config.first_quoted (Str.strip raw_value) = None ->
  Str.has_char "#" (Config._clean_value raw_value) = false.
Proof.
  intros Hq. unfold Config._clean_value. rewrite Hq.
  destruct (Str.has_char "#" _) eqn:E; [|reflexivity].
  apply has_char_strip, has_char_unquoted, has_char_strip, split1_fst_has in E.
  destruct E as [_ E]. now elim E.
Qed.

Lemma clean_value_drops_comment_witness :
  Str.has_char "#" (Config._clean_value " secret # rotate monthly") = false.
Proof. apply clean_value_drops_comment. reflexivity. Defined.

(** * Further properties of the row builder *)

(** ** Account and folder filters *)

Lemma prefix_refl s : String.prefix s s = true.
Proof.
  induction s as [|c r IH]; [reflexivity|]. cbn.
  destruct (ascii_dec c c) as [_|H]; [exact IH|now elim H].
Qed.

Lemma contains_refl s : Str.contains s s = true.
Proof.
  destruct s as [|c r]; [reflexivity|]. cbn [Str.contains].
  now rewrite prefix_refl.
Qed.

Lemma lower_nonempty_eq p1 p2 :
  Str.lower p1 = Str.lower p2 -> Str.nonempty p1 = Str.nonempty p2.
Proof. intros H. now rewrite <- (nonempty_lower p1), H, nonempty_lower. Qed.

(** X17. [_matches_filter]: an unset or empty pattern matches every
    value; matching does not depend on the case of the value or of the
    pattern; and every value matches itself. *)
Theorem matches_filter_case_insensitive :
  (forall v, Main._matches_filter v None = true
             /\ Main._matches_filter v (Some EmptyString) = true)
  /\ (forall v, Main._matches_filter v (Some v) = true)
  /\ (forall v1 v2 p1 p2,
        Str.lower v1 = Str.lower v2 -> Str.lower p1 = Str.lower p2 ->
        Main._matches_filter v1 (Some p1) = Main._matches_filter v2 (Some p2)).
Proof.
  split; [now split|]. split.
  - intros v. unfold Main._matches_filter. destruct (negb (Str.nonempty v));
      [reflexivity|apply contains_refl].
  - intros v1 v2 p1 p2 Hv Hp. unfold Main._matches_filter.
    now rewrite (lower_nonempty_eq _ _ Hp), Hv, Hp.
Qed.

Lemma matches_filter_case_insensitive_witness :
  Main._matches_filter "Wheels FTP" (Some "wheels")
  = Main._matches_filter "WHEELS ftp" (Some "WHEELS").
Proof.
  destruct matches_filter_case_insensitive as (_ & _ & H).
  apply H; reflexivity.
Defined.

Section RowFacts.

Variable utc : Z -> Z.
Variable net : Sftp.Network.
Variable now_date : Datetime.date.
Variables (folder_filter : option string) (previous_day today_only : bool)
          (on_date : option Datetime.date).

Lemma prefix_rows_name connector config lbl pth entry row :
  Main.prefix_rows utc connector config lbl pth entry = Ok row ->
  Main.account_name row = Config.name config.
Proof.
  unfold Main.prefix_rows. destruct entry as [pfx [fname fdt]].
  destruct (_ && _)%bool; [intros H; now injection H as <-|].
  destruct (Sftp.get_latest_file_info _ _ _ _) as [[fb_name fb_dt]|e];
    cbn [bind]; [|discriminate].
  destruct (_ && _)%bool; intros H; now injection H as <-.
Qed.

Lemma prefix_loop_names connector config lbl pth items :
  Forall (fun r => Main.account_name r = Config.name config)
    (fst (Main.prefix_loop utc connector config lbl pth items)).
Proof.
  induction items as [|it r IH]; cbn [Main.prefix_loop]; [constructor|].
  destruct (Main.prefix_rows utc connector config lbl pth it) as [row|e] eqn:E;
    [|constructor].
  destruct (Main.prefix_loop utc connector config lbl pth r) as [rows e'].
  cbn [fst] in *. constructor; [|exact IH]. now apply prefix_rows_name in E.
Qed.

Lemma plain_rows_name connector config lbl pth filters row :
  Main.plain_rows utc now_date previous_day today_only on_date
    connector config lbl pth filters = Ok row ->
  Main.account_name row = Config.name config.
Proof.
  unfold Main.plain_rows.
  match goal with |- context [bind ?m _] => destruct m as [[lf ld]|e] end;
    cbn [bind]; [|discriminate].
  destruct (_ && _)%bool; [intros H; now injection H as <-|].
  match goal with |- context [let '(_, _) := ?x in _] => destruct x as [fb_file fb_date] end.
  destruct (_ && _)%bool; intros H; now injection H as <-.
Qed.

Lemma folder_rows_names connector config fd :
  Forall (fun r => Main.account_name r = Config.name config)
    (Main.folder_rows utc now_date previous_day today_only on_date connector config fd).
Proof.
  unfold Main.folder_rows.
  destruct (negb (Py.is_nil _)).
  - destruct (Sftp.get_latest_files_per_prefix _ _ _ _ _) as [per|exc];
      [|repeat constructor].
    pose proof (prefix_loop_names connector config (Config.label fd) (Config.path fd) per)
      as H.
    destruct (Main.prefix_loop _ _ _ _ _ _) as [rows [exc|]]; cbn [fst] in H;
      [|exact H].
    apply Forall_app. split; [exact H|repeat constructor].
  - destruct (Main.plain_rows _ _ _ _ _ _ _ _ _ _) as [row|exc] eqn:E;
      repeat constructor. now apply plain_rows_name in E.
Qed.

Lemma connected_rows_names connector config :
  Forall (fun r => Main.account_name r = Config.name config)
    (Main.connected_rows utc now_date folder_filter previous_day today_only on_date
       connector config).
Proof.
  unfold Main.connected_rows.
  match goal with |- context [Py.is_nil ?l] => generalize l end.
  intros folders. destruct (Py.is_nil folders); [repeat constructor|].
  induction folders as [|fd r IH]; [constructor|]. cbn [flat_map].
  apply Forall_app. split; [apply folder_rows_names|exact IH].
Qed.

Variables (account_filter : option string) (skip_accounts : option (list string)).

(** X18. Every row that an account adds to the results carries the name
    of that account, whether the row reports a file, a missing file or
    an error. *)
Theorem rows_carry_account_name config rows connector :
  Main.account_rows utc net now_date folder_filter previous_day today_only on_date
    account_filter skip_accounts config = Ok (rows, connector) ->
  Forall (fun r => Main.account_name r = Config.name config) rows.
Proof.
  unfold Main.account_rows.
  destruct (negb (Main._matches_filter _ _));
    [intros H; injection H as <- _; constructor|].
  destruct (Main.skipped _ _); [intros H; injection H as <- _; constructor|].
  destruct (Main.getitem "host" _) as [h|e]; cbn [bind]; [|discriminate].
  destruct (Main.getitem "username" _) as [u|e]; cbn [bind]; [|discriminate].
  destruct (Main.getitem "password" _) as [pw|e]; cbn [bind]; [|discriminate].
  destruct (Sftp.connect net _) as [c [[]|exc]]; intros H; injection H as <- _.
  - apply connected_rows_names.
  - repeat constructor.
Qed.

(** X19. When a folder filter is given and no folder label of the
    account contains it, the account gets the single row
    [Folder not configured], with the filter in the folder column, and
    nothing is listed: the row is the same whatever the server would
    answer. *)
Theorem folder_filter_without_match config f h u pw ls :
  folder_filter = Some f -> f <> EmptyString ->
  (forall fd, In fd (Config.folders config) ->
              Main._matches_filter (Config.label fd) (Some f) = false) ->
  Main._matches_filter (Config.name config) account_filter = true ->
  Main.skipped skip_accounts config = false ->
  Config.host config = Some h -> Config.username config = Some u ->
  Config.password config = Some pw ->
  net h (match Config.port config with Some p => p | None => 22 end) u pw = Ok ls ->
  exists connector,
    Main.account_rows utc net now_date folder_filter previous_day today_only on_date
      account_filter skip_accounts config
    = Ok ([Main.mkRow (Config.name config) f "-" "Folder not configured"],
          Some connector).
Proof.
  intros Hf Hne Hno Hm Hs Hh Hu Hp Hn. unfold Main.account_rows.
  rewrite Hm, Hs, Hh, Hu, Hp. cbn [negb Main.getitem bind].
  unfold Sftp.connect, Sftp.new. cbn [Sftp.host Sftp.port Sftp.username Sftp.password].
  rewrite Hn. eexists. f_equal. f_equal.
  unfold Main.connected_rows, Main.not_configured_row. rewrite Hf.
  destruct f as [|c r]; [now elim Hne|]. cbn [Str.nonempty].
  assert (E : filter (fun fd => Main._matches_filter (Config.label fd) (Some (String c r)))
                (Config.folders config) = []).
  { induction (Config.folders config) as [|fd fs IH]; [reflexivity|].
    cbn [filter]. rewrite (Hno fd) by now left.
    apply IH. intros fd' Hin. apply Hno. now right. }
  rewrite E. reflexivity.
Qed.

End RowFacts.

Lemma rows_carry_account_name_witness :
  Forall (fun r => Main.account_name r = Config.name wheels)
    [Main.conn_error_row wheels (OtherException "timed out")].
Proof.
  apply (rows_carry_account_name Sample.utc net_down Sample.oct14 None false true
           None None None wheels _
           (Some (Sftp.disconnect
                    (fst (Sftp.connect net_down
                            (Sftp.new "sftp.example.com" 22 "wheels" "secret")))))).
  reflexivity.
Defined.

Lemma folder_filter_without_match_witness :
  exists connector,
    Main.account_rows Sample.utc net_up Sample.oct14 (Some "Inventory") false true
      None None None wheels
    = Ok ([Main.mkRow "Wheels FTP" "Inventory" "-" "Folder not configured"],
          Some connector).
Proof.
  apply (folder_filter_without_match Sample.utc net_up Sample.oct14 (Some "Inventory")
           false true None None None wheels "Inventory" "sftp.example.com" "wheels"
           "secret" Sample.server); try reflexivity; try discriminate.
  intros fd [<-|[<-|[]]]; reflexivity.
Defined.

(** ** Which rows go to the error workbook *)

Lemma mdY_first_digit s :
  is_mdY_HMS s = true ->
  exists c r, s = String c r /\ Str.is_digit c = true.
Proof.
  unfold is_mdY_HMS. destruct s as [|c r]; [discriminate|].
  cbn [list_ascii_of_string]. generalize (list_ascii_of_string r). intros l.
  do 18 (destruct l as [|? l]; [discriminate|]). destruct l; [|discriminate].
  cbn [forallb]. intros H.
  do 6 (apply andb_prop in H; destruct H as [H _]).
  exists c, r. split; [reflexivity|exact H].
Qed.

Lemma digit_not_letter c :
  Str.is_digit c = true ->
  Ascii.eqb (Str.lower_char c) "e" = false
  /\ Ascii.eqb (Str.lower_char c) "c" = false
  /\ Ascii.eqb c "F" = false.
Proof.
  destruct c as [[] [] [] [] [] [] [] []]; vm_compute; intros H;
    first [discriminate H|repeat split].
Qed.

(** X20. The error workbook takes the failures and only them: a
    connection error row, a listing error row and a
    [Folder not configured] row are error rows, while a row with a time
    stamp of the form MM/DD/YYYY HH:MM:SS and a dash row are not. *)
Theorem error_rows_classified :
  (forall config exc, Main.is_error_row (Main.conn_error_row config exc) = true)
  /\ (forall config lbl exc,
        Main.is_error_row (Main.folder_error_row config lbl exc) = true)
  /\ (forall ff config, Main.is_error_row (Main.not_configured_row ff config) = true)
  /\ (forall row, is_mdY_HMS (Main.latest_file_date row) = true ->
                  Main.is_error_row row = false)
  /\ (forall a f, Main.is_error_row (Main.mkRow a f "-" "-") = false).
Proof.
  split; [reflexivity|]. split; [reflexivity|]. split; [reflexivity|].
  split; [|reflexivity].
  intros row H. apply mdY_first_digit in H. destruct H as (c & r & E & Hd).
  destruct (digit_not_letter c Hd) as (H1 & H2 & H3).
  unfold Main.is_error_row. rewrite E. cbn [Str.lower].
  unfold Str.startswith. cbn [String.prefix String.eqb].
  destruct (ascii_dec "e" (Str.lower_char c)) as [He|_].
  { rewrite <- He in H1. discriminate. }
  destruct (ascii_dec "c" (Str.lower_char c)) as [Hc|_].
  { rewrite <- Hc in H2. discriminate. }
  rewrite H3. reflexivity.
Qed.

Lemma error_rows_classified_witness :
  Main.is_error_row (Main.mkRow "Wheels FTP" "Bookings" "new.csv" "10/14/2025 09:30:00")
  = false.
Proof.
  destruct error_rows_classified as (_ & _ & _ & H & _).
  apply H. reflexivity.
Defined.

(** ** More on the date arguments *)

Lemma parse_truthy_not_none a :
  Main.truthy_arg a = true -> Main._parse a <> Ok None.
Proof.
  destruct a as [[|c r]|]; try discriminate. intros _. unfold Main._parse.
  cbn [Str.nonempty negb]. destruct (Main.strptime_Ymd _); discriminate.
Qed.

Lemma or_parse_none a b :
  Main.or_parse a b = Ok None -> Main._parse a = Ok None /\ Main._parse b = Ok None.
Proof.
  unfold Main.or_parse. destruct (Main._parse a) as [[d|]|e]; cbn [bind];
    try discriminate. auto.
Qed.

(** X21. The only message on which the date stage stops a run is the
    one for a start date after the end date. The messages
    [Invalid --date value] and [Both --start-date and --end-date must be
    provided ...] are never produced, whatever the arguments. *)
Theorem only_reachable_stop args msg :
  Main.plan_dates args = Ok (Main.Stop msg) ->
  msg = "Start date must be on or before end date.".
Proof.
  unfold Main.plan_dates.
  destruct (Main.truthy_arg (Main.date_arg args)) eqn:Td; cbn [orb].
  - pose proof (parse_truthy_not_none _ Td) as Hn.
    destruct (Main._parse (Main.date_arg args)) as [[d|]|e]; cbn [bind];
      [discriminate|now elim Hn|discriminate].
  - destruct (Main.truthy_arg (Main.start_date args) || Main.truthy_arg (Main.end_date args))%bool
      eqn:Tr; [|discriminate].
    destruct (Main.or_parse (Main.start_date args) (Main.end_date args))
      as [start|e] eqn:Es; cbn [bind]; [|discriminate].
    destruct (Main.or_parse (Main.end_date args) (Main.start_date args))
      as [end_|e] eqn:Ee; cbn [bind]; [|discriminate].
    assert (Hsome : start <> None /\ end_ <> None).
    { apply orb_prop in Tr. split; intros ->.
      - apply or_parse_none in Es. destruct Es as [E1 E2].
        destruct Tr as [T|T]; apply parse_truthy_not_none in T; contradiction.
      - apply or_parse_none in Ee. destruct Ee as [E1 E2].
        destruct Tr as [T|T]; apply parse_truthy_not_none in T; contradiction. }
    destruct Hsome as [H1 H2].
    destruct start as [s|]; [|now elim H1]. destruct end_ as [e|]; [|now elim H2].
    destruct (e <? s); [intros H; now injection H as <-|].
    destruct (Main.date_loop _ _ _ _); cbn [bind]; discriminate.
Qed.

Lemma only_reachable_stop_witness :
  "Start date must be on or before end date."
  = "Start date must be on or before end date.".
Proof.
  apply (only_reachable_stop
           (Main.mkArgs None None None false false false None None
              (Some "2025-10-15") (Some "2025-10-14"))).
  reflexivity.
Defined.

Lemma date_loop_single d acc :
  d < Datetime.date_max -> Main.date_loop 1 d d acc = Ok (acc ++ [d])%list.
Proof.
  intros H. cbn [Main.date_loop]. rewrite Z.leb_refl.
  destruct (Z.leb_spec Datetime.date_max d); [lia|reflexivity].
Qed.

Lemma parse_falsy a : Main.truthy_arg a = false -> Main._parse a = Ok None.
Proof. destruct a as [[|c r]|]; try discriminate; reflexivity. Qed.

(** X22. One end of a range alone stands for both: with only
    [--start-date], or only [--end-date], and no [--date], the run is for
    that single day. *)
Theorem one_sided_range_is_one_day args s d :
  Main.truthy_arg (Main.date_arg args) = false ->
  Main.strptime_Ymd s = Some d -> d < Datetime.date_max ->
  (Main.start_date args = Some s /\ Main.truthy_arg (Main.end_date args) = false)
  \/ (Main.end_date args = Some s /\ Main.truthy_arg (Main.start_date args) = false) ->
  Main.plan_dates args = Ok (Main.PerDate [d]).
Proof.
  intros Hd Hp Hmax Hside. destruct (parse_some _ _ Hp) as [Ht Hq].
  unfold Main.plan_dates, Main.or_parse, Main.truthy_arg in *. rewrite Hd.
  destruct Hside as [[Hs He]|[He Hs]].
  - rewrite Hs, Ht, Hq, (parse_falsy _ He). cbn [orb bind].
    rewrite Z.ltb_irrefl, Z.sub_diag. cbn [Z.to_nat].
    now rewrite (date_loop_single _ _ Hmax).
  - rewrite He, Ht, Hq, (parse_falsy _ Hs), orb_true_r. cbn [bind].
    rewrite Z.ltb_irrefl, Z.sub_diag. cbn [Z.to_nat].
    now rewrite (date_loop_single _ _ Hmax).
Qed.

Lemma one_sided_range_is_one_day_witness :
  Main.plan_dates
    (Main.mkArgs None None None false false false None None None (Some "2025-10-12"))
  = Ok (Main.PerDate [Sample.oct12]).
Proof.
  apply (one_sided_range_is_one_day _ "2025-10-12" Sample.oct12);
    [reflexivity|reflexivity|vm_compute; reflexivity|right; now split].
Defined.

Lemma parse_invalid s :
  s <> EmptyString -> Main.strptime_Ymd s = None ->
  exists msg, Main._parse (Some s) = Raise (ValueError msg).
Proof.
  intros Hne Hp. destruct s as [|c r]; [now elim Hne|].
  unfold Main._parse. cbn [Str.nonempty negb]. rewrite Hp. eauto.
Qed.

(** X23. A malformed date aborts the run with a [ValueError]: a
    malformed [--date]; and, when [--date] is not given, a malformed
    [--start-date], or a malformed [--end-date] next to a start date that
    is well-formed or not given. *)
Theorem malformed_date_raises args s :
  s <> EmptyString -> Main.strptime_Ymd s = None ->
  (Main.date_arg args = Some s ->
   exists msg, Main.plan_dates args = Raise (ValueError msg))
  /\ (Main.truthy_arg (Main.date_arg args) = false ->
      Main.start_date args = Some s ->
      exists msg, Main.plan_dates args = Raise (ValueError msg))
  /\ (Main.truthy_arg (Main.date_arg args) = false ->
      Main.end_date args = Some s ->
      Main.truthy_arg (Main.start_date args) = false
      \/ (exists s0 d0, Main.start_date args = Some s0
                        /\ Main.strptime_Ymd s0 = Some d0) ->
      exists msg, Main.plan_dates args = Raise (ValueError msg)).
Proof.
  intros Hne Hp. destruct (parse_invalid s Hne Hp) as (msg & Hr).
  assert (Ht : Main.truthy_arg (Some s) = true) by (destruct s; [now elim Hne|reflexivity]).
  unfold Main.plan_dates, Main.or_parse. split; [|split].
  - intros Hd. rewrite Hd, Ht, Hr. cbn [orb bind]. eauto.
  - intros Hd Hs. rewrite Hd, Hs, Ht, Hr. cbn [orb bind]. eauto.
  - intros Hd He Hstart. rewrite Hd, He, Ht, orb_true_r. cbn [orb].
    destruct Hstart as [Hs|(s0 & d0 & Hs & Hp0)].
    + rewrite (parse_falsy _ Hs), Hr. cbn [bind]. eauto.
    + destruct (parse_some _ _ Hp0) as [_ Hq]. rewrite Hs, Hq, Hr. cbn [bind]. eauto.
Qed.

Lemma malformed_date_raises_witness :
  exists msg,
    Main.plan_dates
      (Main.mkArgs None None None false false false None (Some "2025-02-30") None None)
    = Raise (ValueError msg).
Proof.
  destruct (malformed_date_raises
              (Main.mkArgs None None None false false false None
                 (Some "2025-02-30") None None) "2025-02-30") as [H _];
    [discriminate|reflexivity|].
  apply H. reflexivity.
Defined.

Lemma date_loop_overflow n : forall cur acc,
  Datetime.date_max - cur + 1 = Z.of_nat (S n) ->
  exists msg, Main.date_loop (S n) cur Datetime.date_max acc = Raise (OverflowError msg).
Proof.
  induction n as [|k IH]; intros cur acc Hn; cbn [Main.date_loop].
  - destruct (Z.leb_spec cur Datetime.date_max); [|lia].
    destruct (Z.leb_spec Datetime.date_max cur); [eauto|lia].
  - destruct (Z.leb_spec cur Datetime.date_max); [|lia].
    destruct (Z.leb_spec Datetime.date_max cur); [lia|].
    apply IH. lia.
Qed.

(** X24. A range that ends on 9999-12-31 cannot be built: after the last
    day the loop adds one more day, which overflows, and the run aborts
    with an [OverflowError] instead of reporting. *)
Theorem range_to_last_day_overflows args s e ds :
  Main.truthy_arg (Main.date_arg args) = false ->
  Main.start_date args = Some s -> Main.end_date args = Some e ->
  Main.strptime_Ymd s = Some ds -> Main.strptime_Ymd e = Some Datetime.date_max ->
  ds <= Datetime.date_max ->
  exists msg, Main.plan_dates args = Raise (OverflowError msg).
Proof.
  intros Hd Hs He Hps Hpe Hle.
  destruct (parse_some _ _ Hps) as [Hts Hqs]. destruct (parse_some _ _ Hpe) as [Hte Hqe].
  unfold Main.plan_dates, Main.or_parse, Main.truthy_arg in *.
  rewrite Hd, Hs, He, Hts, Hqs, Hqe. cbn [orb bind].
  destruct (Z.ltb_spec Datetime.date_max ds); [lia|].
  destruct (date_loop_overflow (Z.to_nat (Datetime.date_max - ds)) ds [])
    as (msg & ->); [lia|].
  cbn [bind]. eauto.
Qed.

Lemma range_to_last_day_overflows_witness :
  exists msg,
    Main.plan_dates
      (Main.mkArgs None None None false false false None None
         (Some "9999-12-30") (Some "9999-12-31"))
    = Raise (OverflowError msg).
Proof.
  apply (range_to_last_day_overflows _ "9999-12-30" "9999-12-31" 2932895);
    try reflexivity. unfold Datetime.date_max. lia.
Defined.

(** ** Failures are data *)

Section NeverRaises.

Variable utc : Z -> Z.
Variable net : Sftp.Network.
Variable now_date : Datetime.date.

Lemma loaded_have_credentials content a :
  In a (Config.parse_content content) -> has_credentials a.
Proof.
  unfold Config.parse_content. intros Hin.
  apply in_keep_some in Hin. apply in_map_iff in Hin.
  destruct Hin as (block & Hp & _). unfold Config.parse_block in Hp.
  destruct (Config.block_lines block) as [|first rest]; [discriminate|].
  now apply finish_block_spec in Hp.
Qed.

Lemma account_rows_total ff pd to od af skip config :
  has_credentials config ->
  exists out, Main.account_rows utc net now_date ff pd to od af skip config = Ok out.
Proof.
  intros (Hh & Hu & Hp). unfold Main.account_rows.
  destruct (negb _); [eauto|]. destruct (Main.skipped _ _); [eauto|].
  destruct (Config.host config) as [h|]; [|now elim Hh].
  destruct (Config.username config) as [u|]; [|now elim Hu].
  destruct (Config.password config) as [pw|]; [|now elim Hp].
  cbn [Main.getitem bind]. destruct (Sftp.connect net _) as [c [[]|exc]]; eauto.
Qed.

Lemma collect_rows_total ff pd to od af skip configs : forall acc,
  (forall a, In a configs -> has_credentials a) ->
  exists rows, Main.collect_rows utc net now_date ff pd to od af skip configs acc
               = Ok rows.
Proof.
  induction configs as [|c r IH]; intros acc H; [cbn; eauto|].
  cbn [Main.collect_rows].
  destruct (account_rows_total ff pd to od af skip c (H c (or_introl eq_refl)))
    as (out & ->).
  cbn [bind]. apply IH. intros a Ha. apply H. now right.
Qed.

(** X25. Failures of the servers are data, not failures of the
    collection: over accounts that carry a host, a user name and a
    password, the loop of [collect_latest_file_details] over the accounts
    returns its rows whatever the network does; and the accounts parsed
    from the text of a credentials file are such accounts, whatever the
    text. Reading the file, creating the directories and the log and
    writing the workbooks are not part of this statement. *)
Theorem collection_never_raises ff pd to od af skip :
  (forall configs,
     (forall a, In a configs -> has_credentials a) ->
     exists rows,
       Main.collect_rows utc net now_date ff pd to od af skip configs [] = Ok rows)
  /\ (forall content,
        exists rows,
          Main.collect_rows utc net now_date ff pd to od af skip
            (Config.parse_content content) [] = Ok rows).
Proof.
  split.
  - intros configs H. now apply collect_rows_total.
  - intros content. apply collect_rows_total. intros a.
    apply loaded_have_credentials.
Qed.

End NeverRaises.

Lemma collection_never_raises_witness :
  exists rows,
    Main.collect_rows Sample.utc net_down Sample.oct14 None false true None None
      (Some []) [wheels] [] = Ok rows.
Proof.
  destruct (collection_never_raises Sample.utc net_down Sample.oct14
              None false true None None (Some [])) as [H _].
  apply H. intros a [<-|[]]. unfold has_credentials. cbn.
  repeat split; discriminate.
Defined.

(** * Properties of the date-range script *)

Section DateRangeFacts.

Variable utc : Z -> Z.
Variable net : Sftp.Network.

(** X26. In the date-range script an account whose connection attempt
    raises gets exactly one row per date of the range, in date order,
    each with a dash for the folder and the connection error as text,
    whatever the number of its folders. *)
Theorem date_range_connection_failure config dates h u pw e :
  Config.host config = Some h -> Config.username config = Some u ->
  Config.password config = Some pw ->
  net h (match Config.port config with Some p => p | None => 22 end) u pw = Raise e ->
  DateRange.account_rows utc net config dates
  = Ok (map (fun d =>
               [("Account Name", Config.name config); ("Folder", "-");
                ("Date", DateRange.strftime_Ymd d); ("File Name", "-");
                ("LastFileDate", "Connection error: " ++ exn_str e)]) dates).
Proof.
  intros Hh Hu Hp Hn. unfold DateRange.account_rows.
  rewrite Hh, Hu, Hp. cbn [Main.getitem bind].
  unfold Sftp.connect, Sftp.new. cbn [Sftp.host Sftp.port Sftp.username Sftp.password].
  rewrite Hn. reflexivity.
Qed.

Lemma folder_date_rows_single connector name fd d :
  filters_of fd = [] ->
  List.length (DateRange.folder_date_rows utc connector name fd d) = 1%nat.
Proof.
  unfold filters_of, DateRange.folder_date_rows. intros ->. cbn [Py.is_nil negb].
  now destruct (Sftp.get_latest_file_info_on_date _ _ _ _ _).
Qed.

Lemma flat_map_length_const {A B} (f : A -> list B) (l : list A) n :
  (forall a, In a l -> List.length (f a) = n) ->
  List.length (flat_map f l) = (List.length l * n)%nat.
Proof.
  induction l as [|a r IH]; intros H; [reflexivity|].
  cbn [flat_map List.length]. rewrite length_app, (H a) by now left.
  rewrite IH by (intros b Hb; apply H; now right). lia.
Qed.

(** X27. In the date-range script a connected account whose folders
    have no filters gets exactly one row per folder and date, found, not
    found or failed alike: the number of its rows is the number of its
    folders times the number of dates. *)
Theorem date_range_row_count config dates h u pw ls :
  Config.host config = Some h -> Config.username config = Some u ->
  Config.password config = Some pw ->
  net h (match Config.port config with Some p => p | None => 22 end) u pw = Ok ls ->
  Config.folders config <> [] ->
  (forall fd, In fd (Config.folders config) -> filters_of fd = []) ->
  exists rows,
    DateRange.account_rows utc net config dates = Ok rows
    /\ List.length rows
       = (List.length (Config.folders config) * List.length dates)%nat.
Proof.
  intros Hh Hu Hp Hn Hne Hnf. unfold DateRange.account_rows.
  rewrite Hh, Hu, Hp. cbn [Main.getitem bind].
  unfold Sftp.connect, Sftp.new. cbn [Sftp.host Sftp.port Sftp.username Sftp.password].
  rewrite Hn. eexists. split; [reflexivity|].
  unfold DateRange.connected_rows.
  destruct (Config.folders config) as [|fd fs] eqn:Ef; [now elim Hne|].
  cbn [Py.is_nil]. apply flat_map_length_const. intros fd' Hin.
  rewrite (flat_map_length_const _ dates 1); [lia|].
  intros d _. apply folder_date_rows_single. now apply Hnf.
Qed.

Lemma date_range_days s e :
  e < Datetime.date_max -> DateRange.date_range s e = Ok (days_between s e).
Proof.
  intros He. unfold DateRange.date_range, days_between.
  destruct (Z_le_gt_dec 0 (e - s + 1)) as [Hle|Hgt].
  - rewrite (date_loop_range e (Z.to_nat (e - s + 1)) s [] He) by lia. reflexivity.
  - replace (Z.to_nat (e - s + 1)) with 0%nat by lia. reflexivity.
Qed.

(** X28. The dates that the date-range script checks are the days from
    the start to the end, both included, in ascending order; an end
    before the start gives no date. *)
Theorem date_range_is_inclusive s e :
  e < Datetime.date_max ->
  DateRange.date_range s e = Ok (days_between s e)
  /\ List.length (days_between s e) = Z.to_nat (e - s + 1)
  /\ (forall d, In d (days_between s e) <-> s <= d <= e).
Proof.
  intros He. split; [now apply date_range_days|]. unfold days_between. split.
  - now rewrite length_map, length_seq.
  - intros d. rewrite in_map_iff. split.
    + intros (i & <- & Hi). apply in_seq in Hi. lia.
    + intros Hd. exists (Z.to_nat (d - s)). split; [lia|]. apply in_seq. lia.
Qed.

Lemma has_columns_rows connector name fd d :
  Forall (fun row => has_columns row = true)
    (DateRange.folder_date_rows utc connector name fd d).
Proof.
  unfold DateRange.folder_date_rows. destruct (negb _).
  - destruct (Sftp.get_latest_files_per_prefix _ _ _ _ _) as [per|exc];
      [|repeat constructor].
    apply Forall_forall. intros row Hin. apply in_map_iff in Hin.
    destruct Hin as (item & <- & _). reflexivity.
  - destruct (Sftp.get_latest_file_info_on_date _ _ _ _ _); repeat constructor.
Qed.

Lemma account_rows_columns config dates rows :
  Config.folders config <> [] ->
  DateRange.account_rows utc net config dates = Ok rows ->
  Forall (fun row => has_columns row = true) rows.
Proof.
  intros Hne. unfold DateRange.account_rows.
  destruct (Main.getitem "host" _); cbn [bind]; [|discriminate].
  destruct (Main.getitem "username" _); cbn [bind]; [|discriminate].
  destruct (Main.getitem "password" _); cbn [bind]; [|discriminate].
  destruct (Sftp.connect net _) as [c [[]|exc]]; intros H; injection H as <-.
  - unfold DateRange.connected_rows.
    destruct (Config.folders config) as [|fd fs]; [now elim Hne|]. cbn [Py.is_nil].
    apply Forall_forall. intros row Hin. apply in_flat_map in Hin.
    destruct Hin as (fd' & _ & Hin). apply in_flat_map in Hin.
    destruct Hin as (d & _ & Hin).
    pose proof (has_columns_rows c (Config.name config) fd' d) as H.
    rewrite Forall_forall in H. now apply H.
  - apply Forall_forall. intros row Hin. apply in_map_iff in Hin.
    destruct Hin as (d & <- & _). reflexivity.
Qed.

Lemma collect_rows_columns configs dates : forall acc rows,
  (forall a, In a configs -> Config.folders a <> []) ->
  Forall (fun row => has_columns row = true) acc ->
  DateRange.collect_rows utc net configs dates acc = Ok rows ->
  Forall (fun row => has_columns row = true) rows.
Proof.
  induction configs as [|c r IH]; intros acc rows Hf Hacc H.
  - cbn in H. now injection H as <-.
  - cbn [DateRange.collect_rows] in H.
    destruct (DateRange.account_rows utc net c dates) as [rs|e] eqn:E;
      cbn [bind] in H; [|discriminate].
    apply (IH (acc ++ rs)%list rows); [intros a Ha; apply Hf; now right| |exact H].
    apply Forall_app. split; [exact Hacc|].
    apply (account_rows_columns c dates rs); [apply Hf; now left|exact E].
Qed.

Lemma loaded_have_folders content a :
  In a (Config.parse_content content) -> Config.folders a <> [].
Proof.
  unfold Config.parse_content. intros Hin.
  apply in_keep_some in Hin. apply in_map_iff in Hin.
  destruct Hin as (block & Hp & _). unfold Config.parse_block in Hp.
  destruct (Config.block_lines block) as [|first rest]; [discriminate|].
  apply finish_block_spec in Hp.
  destruct Hp as (_ & _ & _ & _ & _ & _ & Hroot & Hkeep).
  destruct (Config.folders (Config.account (Config.scan_block first rest))) eqn:Ef.
  - rewrite Hroot by reflexivity. discriminate.
  - rewrite Hkeep by discriminate. discriminate.
Qed.

(** X29. Every row that the date-range script builds from a credentials
    file has the five columns [Account Name], [Folder], [Date],
    [File Name] and [LastFileDate], which its summary reads. The row kept
    for an account without folders has no [LastFileDate] column, but a
    loaded account always has a folder, so that row is never built. *)
Theorem date_range_rows_have_columns content s e rows :
  DateRange.check_files_for_date_range utc net (Some content) s e = Ok rows ->
  Forall (fun row => has_columns row = true) rows
  /\ (forall name d, has_columns (DateRange.no_folders_row name d) = false)
  /\ (forall a, In a (Config.parse_content content) -> Config.folders a <> []).
Proof.
  unfold DateRange.check_files_for_date_range.
  cbn [Config.load_multiple_configs_from_file bind].
  destruct (DateRange.date_range s e) as [dates|exc]; cbn [bind]; [|discriminate].
  intros H. split; [|split].
  - apply (collect_rows_columns (Config.parse_content content) dates [] rows);
      [|constructor|exact H].
    intros a. apply loaded_have_folders.
  - reflexivity.
  - intros a. apply loaded_have_folders.
Qed.

End DateRangeFacts.

Lemma date_range_connection_failure_witness :
  DateRange.account_rows Sample.utc net_down wheels [Sample.oct12; Sample.oct14]
  = Ok (map (fun d =>
               [("Account Name", Config.name wheels); ("Folder", "-");
                ("Date", DateRange.strftime_Ymd d); ("File Name", "-");
                ("LastFileDate",
                 "Connection error: " ++ exn_str (OtherException "timed out"))])
          [Sample.oct12; Sample.oct14]).
Proof.
  apply (date_range_connection_failure Sample.utc net_down wheels _
           "sftp.example.com" "wheels" "secret"); reflexivity.
Defined.

Lemma date_range_row_count_witness :
  exists rows,
    DateRange.account_rows Sample.utc net_up
      (Config.mkAccount "Wheels FTP"
         [Config.mkFolder "Bookings" "/data" (Some []); Config.root_folder]
         (Some "sftp.example.com") None (Some "wheels") (Some "secret"))
      [Sample.oct12; Sample.oct14; Sample.oct14 + 1] = Ok rows
    /\ List.length rows = 6%nat.
Proof.
  destruct (date_range_row_count Sample.utc net_up
              (Config.mkAccount "Wheels FTP"
                 [Config.mkFolder "Bookings" "/data" (Some []); Config.root_folder]
                 (Some "sftp.example.com") None (Some "wheels") (Some "secret"))
              [Sample.oct12; Sample.oct14; Sample.oct14 + 1]
              "sftp.example.com" "wheels" "secret" Sample.server)
    as (rows & H1 & H2); try reflexivity; try discriminate.
  - intros fd [<-|[<-|[]]]; reflexivity.
  - exists rows. split; [exact H1|exact H2].
Defined.

Lemma date_range_is_inclusive_witness :
  DateRange.date_range Sample.oct12 Sample.oct14
  = Ok (days_between Sample.oct12 Sample.oct14).
Proof.
  apply (date_range_is_inclusive Sample.oct12 Sample.oct14).
  unfold Sample.oct14, Datetime.date_max. lia.
Defined.

Lemma date_range_rows_have_columns_witness :
  Forall (fun row => has_columns row = true)
    (map (DateRange.conn_error_row "Wheels FTP" (OtherException "timed out"))
       [Sample.oct12]).
Proof.
  apply (date_range_rows_have_columns Sample.utc net_down credentials
           Sample.oct12 Sample.oct12). reflexivity.
Defined.

(** * Where the credentials file is looked for *)

Section CredPathFacts.

Variable Path : Type.
Variable path_eqb : Path -> Path -> bool.
Hypothesis path_eqb_eq : forall a b, path_eqb a b = true <-> a = b.
Variable join : Path -> string -> Path.
Variable parent : Path -> Path.
Variable path_exists : Path -> bool.

Lemma existsb_path_in p l : existsb (path_eqb p) l = true <-> In p l.
Proof.
  rewrite existsb_exists. split.
  - intros (q & Hq & E). apply path_eqb_eq in E. now subst.
  - intros H. exists p. split; [exact H|]. now apply path_eqb_eq.
Qed.

Lemma uniq_loop_spec cands : forall seen uniq,
  (forall p, In p seen <-> In p uniq) -> NoDup uniq ->
  exists added,
    CredPath.uniq_loop Path path_eqb cands seen uniq = (uniq ++ added)%list
    /\ NoDup (uniq ++ added)
    /\ (forall p, In p (uniq ++ added) <-> In p uniq \/ In p cands)
    /\ (uniq = [] -> forall c r, cands = c :: r -> exists t, added = c :: t).
Proof.
  induction cands as [|c r IH]; intros seen uniq Hs Hn.
  - exists []. cbn. rewrite app_nil_r. repeat split; try tauto; discriminate.
  - cbn [CredPath.uniq_loop]. destruct (existsb (path_eqb c) seen) eqn:E.
    + apply existsb_path_in in E. destruct (IH seen uniq Hs Hn) as (added & H1 & H2 & H3 & _).
      exists added. split; [exact H1|]. split; [exact H2|]. split.
      * intros p. rewrite H3. cbn [In]. split; [tauto|].
        intros [H|[<-|H]]; [tauto| |tauto]. left. now apply Hs.
      * intros -> c' r' _. destruct (proj1 (Hs c) E).
    + assert (Hc : ~ In c uniq).
      { intros H. apply Hs, existsb_path_in in H. rewrite H in E. discriminate. }
      destruct (IH (c :: seen) (uniq ++ [c])%list) as (added & H1 & H2 & H3 & _).
      { intros p. cbn [In]. rewrite in_app_iff, Hs. cbn. tauto. }
      { apply NoDup_app; [exact Hn|repeat constructor; intros []|].
        intros x Hx [<-|[]]. contradiction. }
      exists (c :: added). rewrite H1, <- app_assoc. cbn [app].
      split; [reflexivity|]. split; [now rewrite <- app_assoc in H2|]. split.
      * intros p. rewrite <- app_assoc in H3. cbn [app] in H3. rewrite H3.
        rewrite in_app_iff. cbn [In]. tauto.
      * intros _ c' r' Hcr. injection Hcr as <- _. eauto.
Qed.

Lemma find_first {A} (f : A -> bool) (l : list A) x :
  find f l = Some x ->
  exists pre post, l = (pre ++ x :: post)%list /\ f x = true
                   /\ forall y, In y pre -> f y = false.
Proof.
  induction l as [|a r IH]; [discriminate|]. cbn [find].
  destruct (f a) eqn:Ea.
  - intros H. injection H as <-. exists [], r. repeat split; auto. intros y [].
  - intros H. destruct (IH H) as (pre & post & -> & Hx & Hpre).
    exists (a :: pre), post. repeat split; auto.
    intros y [<-|Hy]; [exact Ea|now apply Hpre].
Qed.

(** X30. The places where the credentials file is looked for hold no
    path twice. The resolved path is the first candidate, in priority
    order, that exists; it is the path of [CREDENTIALS_PATH] whenever
    that is set and exists; and when no candidate exists it is
    [credentials.txt] next to the module. *)
Theorem resolve_credentials_path_first_existing env_path here cwd meipass :
  let cands :=
    CredPath._candidate_credentials_paths Path path_eqb join parent
      env_path here cwd meipass in
  let resolved :=
    CredPath._resolve_credentials_path Path path_eqb join parent path_exists
      env_path here cwd meipass in
  NoDup cands
  /\ In (join (parent here) "credentials.txt") cands
  /\ ((exists p, In p cands /\ path_exists p = true) ->
      exists pre post,
        cands = (pre ++ resolved :: post)%list
        /\ path_exists resolved = true
        /\ forall q, In q pre -> path_exists q = false)
  /\ ((forall p, In p cands -> path_exists p = false) ->
      resolved = join (parent here) "credentials.txt")
  /\ (forall e, env_path = Some e -> path_exists e = true -> resolved = e).
Proof.
  intros cands resolved.
  unfold CredPath._candidate_credentials_paths in cands.
  match goal with
  | cands := CredPath.uniq_loop _ _ ?raw [] [] |- _ =>
      destruct (uniq_loop_spec raw [] []) as (added & H1 & H2 & H3 & H4);
        [intros p; tauto|constructor|]; set (l := raw) in *
  end.
  cbn [app] in H1, H2, H3. assert (Ec : cands = added) by exact H1.
  unfold resolved, CredPath._resolve_credentials_path.
  change (CredPath._candidate_credentials_paths Path path_eqb join parent
            env_path here cwd meipass) with cands.
  rewrite Ec. split; [exact H2|]. split; [|split; [|split]].
  - apply H3. right. unfold l.
    destruct env_path; destruct meipass; cbn; tauto.
  - intros (p & Hp & He). destruct (find path_exists added) as [x|] eqn:Ef.
    + destruct (find_first _ _ _ Ef) as (pre & post & E & Hx & Hpre). eauto.
    + rewrite (find_none _ _ Ef p Hp) in He. discriminate.
  - intros Hno. destruct (find path_exists added) as [x|] eqn:Ef; [|reflexivity].
    apply find_some in Ef. destruct Ef as [Hin Hx]. rewrite (Hno _ Hin) in Hx.
    discriminate.
  - intros e He Hex.
    destruct (H4 eq_refl e (tl l)) as (t & ->).
    { unfold l. rewrite He. destruct meipass; reflexivity. }
    cbn [find]. now rewrite Hex.
Qed.

End CredPathFacts.

Lemma resolve_credentials_path_first_existing_witness :
  CredPath._resolve_credentials_path string String.eqb
    (fun d n => d ++ "/" ++ n) (fun _ => "/app")
    (fun p => String.eqb p "/etc/creds.txt")
    (Some "/etc/creds.txt") "/app/src/config.py" "/work" None
  = "/etc/creds.txt".
Proof.
  destruct (resolve_credentials_path_first_existing string String.eqb String.eqb_eq
              (fun d n => d ++ "/" ++ n) (fun _ => "/app")
              (fun p => String.eqb p "/etc/creds.txt")
              (Some "/etc/creds.txt") "/app/src/config.py" "/work" None)
    as (_ & _ & _ & _ & H).
  apply (H "/etc/creds.txt"); reflexivity.
Defined.
